(** * data-provider-master: slave life-cycle supervisor and fault manager

    A shallow embedding of [src/fault_manager.c] and [src/slave_life.c].

    Conventions of the embedding.
    - C [int] and [pid_t] values are integers in [Z]; [++] and [--] are
      written with the 32-bit two's-complement wrap-around ([int_incr],
      [int_decr]).
    - C strings are [string]s; a file's content may hold any byte, the
      C-string view of a buffer stops at the first NUL ([cstr]).
    - [double] values (timestamps, timer intervals) are rationals; rounding
      is outside the model.
    - A [struct slave_node *] is an address in [N], [NULL] is [0]; the
      slave objects live in a heap ([slaves]) next to the registry list
      [slave_list], which holds their addresses in insertion order.
      Dereferencing an address that holds no slave is undefined behaviour:
      the operation has no result ([None]).
    - Everything the code does to its collaborators (error and critical
      logs, packets, timers, the launcher, observer callbacks) is appended
      to the [trace] of the world; what the collaborators answer comes
      from the [platform], indexed by a [tick] that advances at every
      question, so that two calls may be answered differently.  [DbgPrint]
      lines are not traced, and [free] has no effect in the model.
    - The directory of crash logs is a map from paths to contents;
      [fopen] fails exactly when the path holds no file, [fclose] does not
      fail, and [unlink] removes the file.
    - Observer callbacks are collaborators' code: the model records the
      invocation and takes the returned [int] from the platform; a callback
      that re-enters the supervisor is outside the model. *)

From Stdlib Require Import ZArith QArith String Ascii List Lia Bool.
From stdpp Require Import base option gmap list strings pretty.

Open Scope string_scope.
Open Scope list_scope.
Open Scope Z_scope.

(** ** C integers *)

Definition INT_MIN : Z := - 2 ^ 31.
Definition INT_MAX : Z := 2 ^ 31 - 1.

Definition int_wrap (z : Z) : Z := (z - INT_MIN) mod 2 ^ 32 + INT_MIN.
Definition int_incr (z : Z) : Z := int_wrap (z + 1).
Definition int_decr (z : Z) : Z := int_wrap (z - 1).
Definition int_range (z : Z) : Prop := INT_MIN <= z <= INT_MAX.

(** ** C strings *)

Definition NUL : ascii := Ascii.zero.
Definition LF : ascii := "010"%char.

(** The C-string view of a buffer: the bytes before the first NUL. *)
Fixpoint cstr (buf : string) : string :=
  match buf with
  | EmptyString => EmptyString
  | String c rest => if Ascii.eqb c NUL then EmptyString else String c (cstr rest)
  end.

Fixpoint string_take (n : nat) (s : string) : string :=
  match n, s with
  | S n', String c rest => String c (string_take n' rest)
  | _, _ => EmptyString
  end.

Fixpoint string_drop (n : nat) (s : string) : string :=
  match n, s with
  | S n', String _ rest => string_drop n' rest
  | _, _ => s
  end.

(** [fgets(buf, size, fp)] on a stream positioned at the start of
    [content]: at most [size - 1] bytes, stopping after a newline; [NULL]
    when the stream is at end of file. *)
Fixpoint fgets_bytes (room : nat) (content : string) : string :=
  match room, content with
  | S room', String c rest =>
      String c (if Ascii.eqb c LF then EmptyString else fgets_bytes room' rest)
  | _, _ => EmptyString
  end.

Definition fgets (size : nat) (content : string) : option string :=
  match content with
  | EmptyString => None
  | String _ _ => Some (fgets_bytes (size - 1) content)
  end.

(** [snprintf(buf, size, ...)] keeps at most [size - 1] bytes. *)
Definition snprintf (size : nat) (formatted : string) : string :=
  string_take (size - 1) formatted.

Definition tolower (c : ascii) : ascii :=
  let n := nat_of_ascii c in
  if (65 <=? n)%nat && (n <=? 90)%nat then ascii_of_nat (n + 32) else c.

(** [strcasecmp(a, b) == 0] *)
Fixpoint strcaseeq (a b : string) : bool :=
  match a, b with
  | EmptyString, EmptyString => true
  | String x a', String y b' => Ascii.eqb (tolower x) (tolower y) && strcaseeq a' b'
  | _, _ => false
  end.

(** ** Enumerations and status codes *)

(** [enum slave_state] (slave_life.h), as listed by [slave_state_string]. *)
Inductive enum_slave_state :=
| SLAVE_REQUEST_TO_LAUNCH
| SLAVE_REQUEST_TO_TERMINATE
| SLAVE_TERMINATED
| SLAVE_REQUEST_TO_PAUSE
| SLAVE_REQUEST_TO_RESUME
| SLAVE_PAUSED
| SLAVE_RESUMED
| SLAVE_ERROR.

Definition slave_state_eqb (a b : enum_slave_state) : bool :=
  match a, b with
  | SLAVE_REQUEST_TO_LAUNCH, SLAVE_REQUEST_TO_LAUNCH
  | SLAVE_REQUEST_TO_TERMINATE, SLAVE_REQUEST_TO_TERMINATE
  | SLAVE_TERMINATED, SLAVE_TERMINATED
  | SLAVE_REQUEST_TO_PAUSE, SLAVE_REQUEST_TO_PAUSE
  | SLAVE_REQUEST_TO_RESUME, SLAVE_REQUEST_TO_RESUME
  | SLAVE_PAUSED, SLAVE_PAUSED
  | SLAVE_RESUMED, SLAVE_RESUMED
  | SLAVE_ERROR, SLAVE_ERROR => true
  | _, _ => false
  end.

(** [enum slave_event] (slave_life.h). *)
Inductive slave_event :=
| SLAVE_EVENT_ACTIVATE
| SLAVE_EVENT_DEACTIVATE
| SLAVE_EVENT_DELETE
| SLAVE_EVENT_FAULT
| SLAVE_EVENT_PAUSE
| SLAVE_EVENT_RESUME.

(** The livebox status codes the two files return (livebox-errno.h).
    [LB_STATUS_SUCCESS] is [0]; every [LB_STATUS_ERROR_*] is negative.
    [RPC_STATUS r] is what [slave_rpc_async_request] answered. *)
Inductive lb_status :=
| LB_STATUS_SUCCESS
| LB_STATUS_ERROR_INVALID
| LB_STATUS_ERROR_FAULT
| LB_STATUS_ERROR_MEMORY
| LB_STATUS_ERROR_ALREADY
| LB_STATUS_ERROR_NOT_EXIST
| RPC_STATUS (r : Z).

Definition lb_is_error (st : lb_status) : bool :=
  match st with
  | LB_STATUS_SUCCESS => false
  | RPC_STATUS r => r <? 0
  | _ => true
  end.

(** How the [switch] on the launcher's answer sorts the [AUL_R_*] codes
    of aul.h. *)
Inductive launch_class :=
| LAUNCH_FATAL     (* ENOLAUNCHPAD, EILLACC, EINVAL, ENOINIT, ERROR *)
| LAUNCH_RETRY     (* ECOMM, ETERMINATING, ECANCELED, ETIMEOUT *)
| LAUNCH_DONE.     (* LOCAL, OK, default: a process id *)

Inductive timer_cb :=
| slave_ttl_cb_fn
| activate_timer_cb_fn
| relaunch_timer_cb_fn.

Inductive xmonitor_event :=
| XMONITOR_PAUSED
| XMONITOR_RESUMED.

(** ** Addresses and structures *)

Definition slave_ptr : Type := N.
Definition NULL : slave_ptr := 0%N.
Definition Ecore_Timer : Type := nat.

(** [struct timeval] *)
Record timeval := { tv_sec : Z; tv_usec : Z }.

(** glibc's [timersub(a, b, result)] *)
Definition timersub (a b : timeval) : timeval :=
  let sec := tv_sec a - tv_sec b in
  let usec := tv_usec a - tv_usec b in
  if usec <? 0
  then {| tv_sec := sec - 1; tv_usec := usec + 1000000 |}
  else {| tv_sec := sec; tv_usec := usec |}.

(** [struct event]; [ev_addr] is the address of the node. *)
Record event := {
  ev_addr : N;
  ev_slave : slave_ptr;
  evt_cb : N;
  cbdata : N
}.

(** Two [struct event *] are compared as addresses. *)
Definition event_eqb (a b : event) : bool := N.eqb (ev_addr a) (ev_addr b).

(** [struct priv_data] *)
Record priv_data := { tag : string; data : N }.

(** [struct fault_info] of fault_manager.c *)
Record fault_info := {
  fi_slave : slave_ptr;
  fi_timestamp : Q;
  fi_pkgname : string;
  fi_filename : string;
  fi_func : string
}.

(** What the supervisor does to the outside. *)
Inductive effect :=
| ErrPrint (format : string)
| CRITICAL_LOG (format : string)
| dump_fault_info (name : string) (pid : Z) (pkgname filename funcname : string)
| client_broadcast (pkgname filename func : string)
| package_set_fault_info (pkgname : string) (timestamp : Q) (filename func : option string)
| aul_terminate_pid_call (pid : Z)
| aul_launch_app_call (pkgname : string) (param : list (string * string))
| ecore_timer_add (timer : Ecore_Timer) (interval : Q) (cb : timer_cb) (data : slave_ptr)
| ecore_timer_del (timer : Ecore_Timer)
| ecore_timer_reset (timer : Ecore_Timer)
| evt_cb_call (cb : N) (slave : slave_ptr) (cbdata : N)
| slave_rpc_request (slave : slave_ptr) (command : string) (timestamp : Q)
| slave_rpc_init (slave : slave_ptr)
| slave_rpc_fini (slave : slave_ptr)
| slave_rpc_ping_freeze (slave : slave_ptr)
| slave_rpc_ping_thaw (slave : slave_ptr)
| xmonitor_add_event_callback (ev : xmonitor_event) (slave : slave_ptr)
| xmonitor_del_event_callback (ev : xmonitor_event) (slave : slave_ptr).

(** ** The platform: tunables of conf.h and the collaborators' answers *)

Record platform := {
  SLAVE_LOG_PATH : string;
  SLAVE_MAX_LOAD : Z;
  SLAVE_RELAUNCH_COUNT : Z;
  DEFAULT_ABI : string;
  DEBUG_MODE : Z;
  SLAVE_TTL : Q;
  SLAVE_ACTIVATE_TIME : Q;
  SLAVE_RELAUNCH_TIME : Q;
  MINIMUM_REACTIVATION_TIME : Q;
  SLAVE_NEED_TO_REACTIVATE : Z;                 (* slave_life.h *)
  BUFSIZ : nat;                                 (* stdio.h *)
  alloc_ok : nat -> bool;                       (* malloc, strdup, packet_create, ... *)
  util_timestamp : nat -> Q;
  ecore_time_get : nat -> Q;
  gettimeofday : nat -> option timeval;
  package_find : string -> bool;                (* package.c *)
  package_find_by_secured_slave : slave_ptr -> option string;
  package_set_fault_info_result : nat -> Z;
  aul_launch_app : nat -> Z;
  aul_class : Z -> launch_class;
  aul_terminate_pid : nat -> Z;
  evt_cb_result : nat -> N -> Z;
  slave_rpc_async_request : nat -> Z;
  xmonitor_is_paused : nat -> bool
}.

(** ** The slave record and the world

    [activated_at] is a [double] when the daemon is built with
    [_USE_ECORE_TIME_GET] and a [struct timeval] otherwise; the record is
    written over its type [time_t], and the two builds of the functions
    that use the field are embedded separately below. *)

Section Model.
Context {time_t : Type}.

(** [struct slave_node] *)
Record slave_node := {
  name : string;
  abi : string;
  pkgname : string;
  secured : Z;
  refcnt : Z;
  fault_count : Z;
  critical_fault_count : Z;
  state : enum_slave_state;
  network : Z;
  loaded_instance : Z;
  loaded_package : Z;
  reactivate_instances : Z;
  reactivate_slave : Z;
  pid : Z;
  event_activate_list : list event;
  event_deactivate_list : list event;
  event_delete_list : list event;
  event_fault_list : list event;
  event_pause_list : list event;
  event_resume_list : list event;
  data_list : list priv_data;
  ttl_timer : option Ecore_Timer;
  activate_timer : option Ecore_Timer;
  relaunch_timer : option Ecore_Timer;
  relaunch_count : Z;
  activated_at : time_t
}.

Definition set_refcnt (v : Z) (s : slave_node) : slave_node :=
  {| name := name s; abi := abi s; pkgname := pkgname s; secured := secured s;
     refcnt := v; fault_count := fault_count s;
     critical_fault_count := critical_fault_count s; state := state s;
     network := network s; loaded_instance := loaded_instance s;
     loaded_package := loaded_package s; reactivate_instances := reactivate_instances s;
     reactivate_slave := reactivate_slave s; pid := pid s;
     event_activate_list := event_activate_list s;
     event_deactivate_list := event_deactivate_list s;
     event_delete_list := event_delete_list s; event_fault_list := event_fault_list s;
     event_pause_list := event_pause_list s; event_resume_list := event_resume_list s;
     data_list := data_list s; ttl_timer := ttl_timer s;
     activate_timer := activate_timer s; relaunch_timer := relaunch_timer s;
     relaunch_count := relaunch_count s; activated_at := activated_at s |}.

Definition set_fault_count (v : Z) (s : slave_node) : slave_node :=
  {| name := name s; abi := abi s; pkgname := pkgname s; secured := secured s;
     refcnt := refcnt s; fault_count := v; critical_fault_count := critical_fault_count s;
     state := state s; network := network s; loaded_instance := loaded_instance s;
     loaded_package := loaded_package s; reactivate_instances := reactivate_instances s;
     reactivate_slave := reactivate_slave s; pid := pid s;
     event_activate_list := event_activate_list s;
     event_deactivate_list := event_deactivate_list s;
     event_delete_list := event_delete_list s; event_fault_list := event_fault_list s;
     event_pause_list := event_pause_list s; event_resume_list := event_resume_list s;
     data_list := data_list s; ttl_timer := ttl_timer s;
     activate_timer := activate_timer s; relaunch_timer := relaunch_timer s;
     relaunch_count := relaunch_count s; activated_at := activated_at s |}.

Definition set_critical_fault_count (v : Z) (s : slave_node) : slave_node :=
  {| name := name s; abi := abi s; pkgname := pkgname s; secured := secured s;
     refcnt := refcnt s; fault_count := fault_count s; critical_fault_count := v;
     state := state s; network := network s; loaded_instance := loaded_instance s;
     loaded_package := loaded_package s; reactivate_instances := reactivate_instances s;
     reactivate_slave := reactivate_slave s; pid := pid s;
     event_activate_list := event_activate_list s;
     event_deactivate_list := event_deactivate_list s;
     event_delete_list := event_delete_list s; event_fault_list := event_fault_list s;
     event_pause_list := event_pause_list s; event_resume_list := event_resume_list s;
     data_list := data_list s; ttl_timer := ttl_timer s;
     activate_timer := activate_timer s; relaunch_timer := relaunch_timer s;
     relaunch_count := relaunch_count s; activated_at := activated_at s |}.

Definition set_state (v : enum_slave_state) (s : slave_node) : slave_node :=
  {| name := name s; abi := abi s; pkgname := pkgname s; secured := secured s;
     refcnt := refcnt s; fault_count := fault_count s;
     critical_fault_count := critical_fault_count s; state := v; network := network s;
     loaded_instance := loaded_instance s; loaded_package := loaded_package s;
     reactivate_instances := reactivate_instances s;
     reactivate_slave := reactivate_slave s; pid := pid s;
     event_activate_list := event_activate_list s;
     event_deactivate_list := event_deactivate_list s;
     event_delete_list := event_delete_list s; event_fault_list := event_fault_list s;
     event_pause_list := event_pause_list s; event_resume_list := event_resume_list s;
     data_list := data_list s; ttl_timer := ttl_timer s;
     activate_timer := activate_timer s; relaunch_timer := relaunch_timer s;
     relaunch_count := relaunch_count s; activated_at := activated_at s |}.

Definition set_network (v : Z) (s : slave_node) : slave_node :=
  {| name := name s; abi := abi s; pkgname := pkgname s; secured := secured s;
     refcnt := refcnt s; fault_count := fault_count s;
     critical_fault_count := critical_fault_count s; state := state s; network := v;
     loaded_instance := loaded_instance s; loaded_package := loaded_package s;
     reactivate_instances := reactivate_instances s;
     reactivate_slave := reactivate_slave s; pid := pid s;
     event_activate_list := event_activate_list s;
     event_deactivate_list := event_deactivate_list s;
     event_delete_list := event_delete_list s; event_fault_list := event_fault_list s;
     event_pause_list := event_pause_list s; event_resume_list := event_resume_list s;
     data_list := data_list s; ttl_timer := ttl_timer s;
     activate_timer := activate_timer s; relaunch_timer := relaunch_timer s;
     relaunch_count := relaunch_count s; activated_at := activated_at s |}.

Definition set_loaded_instance (v : Z) (s : slave_node) : slave_node :=
  {| name := name s; abi := abi s; pkgname := pkgname s; secured := secured s;
     refcnt := refcnt s; fault_count := fault_count s;
     critical_fault_count := critical_fault_count s; state := state s;
     network := network s; loaded_instance := v; loaded_package := loaded_package s;
     reactivate_instances := reactivate_instances s;
     reactivate_slave := reactivate_slave s; pid := pid s;
     event_activate_list := event_activate_list s;
     event_deactivate_list := event_deactivate_list s;
     event_delete_list := event_delete_list s; event_fault_list := event_fault_list s;
     event_pause_list := event_pause_list s; event_resume_list := event_resume_list s;
     data_list := data_list s; ttl_timer := ttl_timer s;
     activate_timer := activate_timer s; relaunch_timer := relaunch_timer s;
     relaunch_count := relaunch_count s; activated_at := activated_at s |}.

Definition set_loaded_package (v : Z) (s : slave_node) : slave_node :=
  {| name := name s; abi := abi s; pkgname := pkgname s; secured := secured s;
     refcnt := refcnt s; fault_count := fault_count s;
     critical_fault_count := critical_fault_count s; state := state s;
     network := network s; loaded_instance := loaded_instance s; loaded_package := v;
     reactivate_instances := reactivate_instances s;
     reactivate_slave := reactivate_slave s; pid := pid s;
     event_activate_list := event_activate_list s;
     event_deactivate_list := event_deactivate_list s;
     event_delete_list := event_delete_list s; event_fault_list := event_fault_list s;
     event_pause_list := event_pause_list s; event_resume_list := event_resume_list s;
     data_list := data_list s; ttl_timer := ttl_timer s;
     activate_timer := activate_timer s; relaunch_timer := relaunch_timer s;
     relaunch_count := relaunch_count s; activated_at := activated_at s |}.

Definition set_reactivate_instances (v : Z) (s : slave_node) : slave_node :=
  {| name := name s; abi := abi s; pkgname := pkgname s; secured := secured s;
     refcnt := refcnt s; fault_count := fault_count s;
     critical_fault_count := critical_fault_count s; state := state s;
     network := network s; loaded_instance := loaded_instance s;
     loaded_package := loaded_package s; reactivate_instances := v;
     reactivate_slave := reactivate_slave s; pid := pid s;
     event_activate_list := event_activate_list s;
     event_deactivate_list := event_deactivate_list s;
     event_delete_list := event_delete_list s; event_fault_list := event_fault_list s;
     event_pause_list := event_pause_list s; event_resume_list := event_resume_list s;
     data_list := data_list s; ttl_timer := ttl_timer s;
     activate_timer := activate_timer s; relaunch_timer := relaunch_timer s;
     relaunch_count := relaunch_count s; activated_at := activated_at s |}.

Definition set_reactivate_slave (v : Z) (s : slave_node) : slave_node :=
  {| name := name s; abi := abi s; pkgname := pkgname s; secured := secured s;
     refcnt := refcnt s; fault_count := fault_count s;
     critical_fault_count := critical_fault_count s; state := state s;
     network := network s; loaded_instance := loaded_instance s;
     loaded_package := loaded_package s; reactivate_instances := reactivate_instances s;
     reactivate_slave := v; pid := pid s; event_activate_list := event_activate_list s;
     event_deactivate_list := event_deactivate_list s;
     event_delete_list := event_delete_list s; event_fault_list := event_fault_list s;
     event_pause_list := event_pause_list s; event_resume_list := event_resume_list s;
     data_list := data_list s; ttl_timer := ttl_timer s;
     activate_timer := activate_timer s; relaunch_timer := relaunch_timer s;
     relaunch_count := relaunch_count s; activated_at := activated_at s |}.

Definition set_pid (v : Z) (s : slave_node) : slave_node :=
  {| name := name s; abi := abi s; pkgname := pkgname s; secured := secured s;
     refcnt := refcnt s; fault_count := fault_count s;
     critical_fault_count := critical_fault_count s; state := state s;
     network := network s; loaded_instance := loaded_instance s;
     loaded_package := loaded_package s; reactivate_instances := reactivate_instances s;
     reactivate_slave := reactivate_slave s; pid := v;
     event_activate_list := event_activate_list s;
     event_deactivate_list := event_deactivate_list s;
     event_delete_list := event_delete_list s; event_fault_list := event_fault_list s;
     event_pause_list := event_pause_list s; event_resume_list := event_resume_list s;
     data_list := data_list s; ttl_timer := ttl_timer s;
     activate_timer := activate_timer s; relaunch_timer := relaunch_timer s;
     relaunch_count := relaunch_count s; activated_at := activated_at s |}.

Definition set_event_activate_list (v : list event) (s : slave_node) : slave_node :=
  {| name := name s; abi := abi s; pkgname := pkgname s; secured := secured s;
     refcnt := refcnt s; fault_count := fault_count s;
     critical_fault_count := critical_fault_count s; state := state s;
     network := network s; loaded_instance := loaded_instance s;
     loaded_package := loaded_package s; reactivate_instances := reactivate_instances s;
     reactivate_slave := reactivate_slave s; pid := pid s; event_activate_list := v;
     event_deactivate_list := event_deactivate_list s;
     event_delete_list := event_delete_list s; event_fault_list := event_fault_list s;
     event_pause_list := event_pause_list s; event_resume_list := event_resume_list s;
     data_list := data_list s; ttl_timer := ttl_timer s;
     activate_timer := activate_timer s; relaunch_timer := relaunch_timer s;
     relaunch_count := relaunch_count s; activated_at := activated_at s |}.

Definition set_event_deactivate_list (v : list event) (s : slave_node) : slave_node :=
  {| name := name s; abi := abi s; pkgname := pkgname s; secured := secured s;
     refcnt := refcnt s; fault_count := fault_count s;
     critical_fault_count := critical_fault_count s; state := state s;
     network := network s; loaded_instance := loaded_instance s;
     loaded_package := loaded_package s; reactivate_instances := reactivate_instances s;
     reactivate_slave := reactivate_slave s; pid := pid s;
     event_activate_list := event_activate_list s; event_deactivate_list := v;
     event_delete_list := event_delete_list s; event_fault_list := event_fault_list s;
     event_pause_list := event_pause_list s; event_resume_list := event_resume_list s;
     data_list := data_list s; ttl_timer := ttl_timer s;
     activate_timer := activate_timer s; relaunch_timer := relaunch_timer s;
     relaunch_count := relaunch_count s; activated_at := activated_at s |}.

Definition set_event_delete_list (v : list event) (s : slave_node) : slave_node :=
  {| name := name s; abi := abi s; pkgname := pkgname s; secured := secured s;
     refcnt := refcnt s; fault_count := fault_count s;
     critical_fault_count := critical_fault_count s; state := state s;
     network := network s; loaded_instance := loaded_instance s;
     loaded_package := loaded_package s; reactivate_instances := reactivate_instances s;
     reactivate_slave := reactivate_slave s; pid := pid s;
     event_activate_list := event_activate_list s;
     event_deactivate_list := event_deactivate_list s; event_delete_list := v;
     event_fault_list := event_fault_list s; event_pause_list := event_pause_list s;
     event_resume_list := event_resume_list s; data_list := data_list s;
     ttl_timer := ttl_timer s; activate_timer := activate_timer s;
     relaunch_timer := relaunch_timer s; relaunch_count := relaunch_count s;
     activated_at := activated_at s |}.

Definition set_event_fault_list (v : list event) (s : slave_node) : slave_node :=
  {| name := name s; abi := abi s; pkgname := pkgname s; secured := secured s;
     refcnt := refcnt s; fault_count := fault_count s;
     critical_fault_count := critical_fault_count s; state := state s;
     network := network s; loaded_instance := loaded_instance s;
     loaded_package := loaded_package s; reactivate_instances := reactivate_instances s;
     reactivate_slave := reactivate_slave s; pid := pid s;
     event_activate_list := event_activate_list s;
     event_deactivate_list := event_deactivate_list s;
     event_delete_list := event_delete_list s; event_fault_list := v;
     event_pause_list := event_pause_list s; event_resume_list := event_resume_list s;
     data_list := data_list s; ttl_timer := ttl_timer s;
     activate_timer := activate_timer s; relaunch_timer := relaunch_timer s;
     relaunch_count := relaunch_count s; activated_at := activated_at s |}.

Definition set_event_pause_list (v : list event) (s : slave_node) : slave_node :=
  {| name := name s; abi := abi s; pkgname := pkgname s; secured := secured s;
     refcnt := refcnt s; fault_count := fault_count s;
     critical_fault_count := critical_fault_count s; state := state s;
     network := network s; loaded_instance := loaded_instance s;
     loaded_package := loaded_package s; reactivate_instances := reactivate_instances s;
     reactivate_slave := reactivate_slave s; pid := pid s;
     event_activate_list := event_activate_list s;
     event_deactivate_list := event_deactivate_list s;
     event_delete_list := event_delete_list s; event_fault_list := event_fault_list s;
     event_pause_list := v; event_resume_list := event_resume_list s;
     data_list := data_list s; ttl_timer := ttl_timer s;
     activate_timer := activate_timer s; relaunch_timer := relaunch_timer s;
     relaunch_count := relaunch_count s; activated_at := activated_at s |}.

Definition set_event_resume_list (v : list event) (s : slave_node) : slave_node :=
  {| name := name s; abi := abi s; pkgname := pkgname s; secured := secured s;
     refcnt := refcnt s; fault_count := fault_count s;
     critical_fault_count := critical_fault_count s; state := state s;
     network := network s; loaded_instance := loaded_instance s;
     loaded_package := loaded_package s; reactivate_instances := reactivate_instances s;
     reactivate_slave := reactivate_slave s; pid := pid s;
     event_activate_list := event_activate_list s;
     event_deactivate_list := event_deactivate_list s;
     event_delete_list := event_delete_list s; event_fault_list := event_fault_list s;
     event_pause_list := event_pause_list s; event_resume_list := v;
     data_list := data_list s; ttl_timer := ttl_timer s;
     activate_timer := activate_timer s; relaunch_timer := relaunch_timer s;
     relaunch_count := relaunch_count s; activated_at := activated_at s |}.

Definition set_data_list (v : list priv_data) (s : slave_node) : slave_node :=
  {| name := name s; abi := abi s; pkgname := pkgname s; secured := secured s;
     refcnt := refcnt s; fault_count := fault_count s;
     critical_fault_count := critical_fault_count s; state := state s;
     network := network s; loaded_instance := loaded_instance s;
     loaded_package := loaded_package s; reactivate_instances := reactivate_instances s;
     reactivate_slave := reactivate_slave s; pid := pid s;
     event_activate_list := event_activate_list s;
     event_deactivate_list := event_deactivate_list s;
     event_delete_list := event_delete_list s; event_fault_list := event_fault_list s;
     event_pause_list := event_pause_list s; event_resume_list := event_resume_list s;
     data_list := v; ttl_timer := ttl_timer s; activate_timer := activate_timer s;
     relaunch_timer := relaunch_timer s; relaunch_count := relaunch_count s;
     activated_at := activated_at s |}.

Definition set_ttl_timer (v : option Ecore_Timer) (s : slave_node) : slave_node :=
  {| name := name s; abi := abi s; pkgname := pkgname s; secured := secured s;
     refcnt := refcnt s; fault_count := fault_count s;
     critical_fault_count := critical_fault_count s; state := state s;
     network := network s; loaded_instance := loaded_instance s;
     loaded_package := loaded_package s; reactivate_instances := reactivate_instances s;
     reactivate_slave := reactivate_slave s; pid := pid s;
     event_activate_list := event_activate_list s;
     event_deactivate_list := event_deactivate_list s;
     event_delete_list := event_delete_list s; event_fault_list := event_fault_list s;
     event_pause_list := event_pause_list s; event_resume_list := event_resume_list s;
     data_list := data_list s; ttl_timer := v; activate_timer := activate_timer s;
     relaunch_timer := relaunch_timer s; relaunch_count := relaunch_count s;
     activated_at := activated_at s |}.

Definition set_activate_timer (v : option Ecore_Timer) (s : slave_node) : slave_node :=
  {| name := name s; abi := abi s; pkgname := pkgname s; secured := secured s;
     refcnt := refcnt s; fault_count := fault_count s;
     critical_fault_count := critical_fault_count s; state := state s;
     network := network s; loaded_instance := loaded_instance s;
     loaded_package := loaded_package s; reactivate_instances := reactivate_instances s;
     reactivate_slave := reactivate_slave s; pid := pid s;
     event_activate_list := event_activate_list s;
     event_deactivate_list := event_deactivate_list s;
     event_delete_list := event_delete_list s; event_fault_list := event_fault_list s;
     event_pause_list := event_pause_list s; event_resume_list := event_resume_list s;
     data_list := data_list s; ttl_timer := ttl_timer s; activate_timer := v;
     relaunch_timer := relaunch_timer s; relaunch_count := relaunch_count s;
     activated_at := activated_at s |}.

Definition set_relaunch_timer (v : option Ecore_Timer) (s : slave_node) : slave_node :=
  {| name := name s; abi := abi s; pkgname := pkgname s; secured := secured s;
     refcnt := refcnt s; fault_count := fault_count s;
     critical_fault_count := critical_fault_count s; state := state s;
     network := network s; loaded_instance := loaded_instance s;
     loaded_package := loaded_package s; reactivate_instances := reactivate_instances s;
     reactivate_slave := reactivate_slave s; pid := pid s;
     event_activate_list := event_activate_list s;
     event_deactivate_list := event_deactivate_list s;
     event_delete_list := event_delete_list s; event_fault_list := event_fault_list s;
     event_pause_list := event_pause_list s; event_resume_list := event_resume_list s;
     data_list := data_list s; ttl_timer := ttl_timer s;
     activate_timer := activate_timer s; relaunch_timer := v;
     relaunch_count := relaunch_count s; activated_at := activated_at s |}.

Definition set_relaunch_count (v : Z) (s : slave_node) : slave_node :=
  {| name := name s; abi := abi s; pkgname := pkgname s; secured := secured s;
     refcnt := refcnt s; fault_count := fault_count s;
     critical_fault_count := critical_fault_count s; state := state s;
     network := network s; loaded_instance := loaded_instance s;
     loaded_package := loaded_package s; reactivate_instances := reactivate_instances s;
     reactivate_slave := reactivate_slave s; pid := pid s;
     event_activate_list := event_activate_list s;
     event_deactivate_list := event_deactivate_list s;
     event_delete_list := event_delete_list s; event_fault_list := event_fault_list s;
     event_pause_list := event_pause_list s; event_resume_list := event_resume_list s;
     data_list := data_list s; ttl_timer := ttl_timer s;
     activate_timer := activate_timer s; relaunch_timer := relaunch_timer s;
     relaunch_count := v; activated_at := activated_at s |}.

Definition set_activated_at (v : time_t) (s : slave_node) : slave_node :=
  {| name := name s; abi := abi s; pkgname := pkgname s; secured := secured s;
     refcnt := refcnt s; fault_count := fault_count s;
     critical_fault_count := critical_fault_count s; state := state s;
     network := network s; loaded_instance := loaded_instance s;
     loaded_package := loaded_package s; reactivate_instances := reactivate_instances s;
     reactivate_slave := reactivate_slave s; pid := pid s;
     event_activate_list := event_activate_list s;
     event_deactivate_list := event_deactivate_list s;
     event_delete_list := event_delete_list s; event_fault_list := event_fault_list s;
     event_pause_list := event_pause_list s; event_resume_list := event_resume_list s;
     data_list := data_list s; ttl_timer := ttl_timer s;
     activate_timer := activate_timer s; relaunch_timer := relaunch_timer s;
     relaunch_count := relaunch_count s; activated_at := v |}.

(** The [s_info] of both files, the heap of slave objects, the crash-log
    directory, and the record of what was done to the outside. *)
Record world := {
  slave_list : list slave_ptr;            (* slave_life.c s_info.slave_list *)
  deactivate_all_refcnt : Z;              (* slave_life.c s_info.deactivate_all_refcnt *)
  slaves : gmap N slave_node;             (* the slave objects, by address *)
  call_list : list fault_info;            (* fault_manager.c s_info.call_list *)
  fault_mark_count : Z;                   (* fault_manager.c s_info.fault_mark_count *)
  files : gmap string string;             (* path |-> content *)
  tick : nat;
  trace : list effect                     (* oldest first *)
}.

Definition set_slave_list (v : list slave_ptr) (s : world) : world :=
  {| slave_list := v; deactivate_all_refcnt := deactivate_all_refcnt s;
     slaves := slaves s; call_list := call_list s; fault_mark_count := fault_mark_count s;
     files := files s; tick := tick s; trace := trace s |}.

Definition set_deactivate_all_refcnt (v : Z) (s : world) : world :=
  {| slave_list := slave_list s; deactivate_all_refcnt := v; slaves := slaves s;
     call_list := call_list s; fault_mark_count := fault_mark_count s; files := files s;
     tick := tick s; trace := trace s |}.

Definition set_slaves (v : gmap N slave_node) (s : world) : world :=
  {| slave_list := slave_list s; deactivate_all_refcnt := deactivate_all_refcnt s;
     slaves := v; call_list := call_list s; fault_mark_count := fault_mark_count s;
     files := files s; tick := tick s; trace := trace s |}.

Definition set_call_list (v : list fault_info) (s : world) : world :=
  {| slave_list := slave_list s; deactivate_all_refcnt := deactivate_all_refcnt s;
     slaves := slaves s; call_list := v; fault_mark_count := fault_mark_count s;
     files := files s; tick := tick s; trace := trace s |}.

Definition set_fault_mark_count (v : Z) (s : world) : world :=
  {| slave_list := slave_list s; deactivate_all_refcnt := deactivate_all_refcnt s;
     slaves := slaves s; call_list := call_list s; fault_mark_count := v;
     files := files s; tick := tick s; trace := trace s |}.

Definition set_files (v : gmap string string) (s : world) : world :=
  {| slave_list := slave_list s; deactivate_all_refcnt := deactivate_all_refcnt s;
     slaves := slaves s; call_list := call_list s; fault_mark_count := fault_mark_count s;
     files := v; tick := tick s; trace := trace s |}.

Definition set_tick (v : nat) (s : world) : world :=
  {| slave_list := slave_list s; deactivate_all_refcnt := deactivate_all_refcnt s;
     slaves := slaves s; call_list := call_list s; fault_mark_count := fault_mark_count s;
     files := files s; tick := v; trace := trace s |}.

Definition set_trace (v : list effect) (s : world) : world :=
  {| slave_list := slave_list s; deactivate_all_refcnt := deactivate_all_refcnt s;
     slaves := slaves s; call_list := call_list s; fault_mark_count := fault_mark_count s;
     files := files s; tick := tick s; trace := v |}.

(** ** The monad of the embedding: state, and no result on undefined
    behaviour *)

Definition M (A : Type) : Type := world -> option (A * world).

Definition ret {A} (a : A) : M A := fun w => Some (a, w).

Definition bind {A B} (m : M A) (k : A -> M B) : M B :=
  fun w => match m w with
           | Some (a, w') => k a w'
           | None => None
           end.

Definition get : M world := fun w => Some (w, w).

Definition modify (f : world -> world) : M unit := fun w => Some (tt, f w).

End Model.

Arguments slave_node : clear implicits.
Arguments world : clear implicits.
Arguments M : clear implicits.

Notation "'let*' x ':=' m 'in' k" := (bind m (fun x => k))
  (at level 10, x name, m at level 100, k at level 200).
Notation "m '>>' k" := (bind m (fun _ => k))
  (at level 100, k at level 200, right associativity).

(** ** Primitives *)

Section Supervisor.
Context {time_t : Type}.
Variable P : platform.

Local Abbreviation M := (M time_t).
Local Abbreviation world := (world time_t).
Local Abbreviation slave_node := (slave_node time_t).

Definition log (e : effect) : M unit :=
  modify (fun w => set_trace (trace w ++ [e]) w).

(** One question to a collaborator. *)
Definition ask {A} (answer : nat -> A) : M A :=
  fun w => Some (answer (tick w), set_tick (S (tick w)) w).

(** [*slave] *)
Definition deref (slave : slave_ptr) : M slave_node :=
  fun w =>
    if N.eqb slave NULL then None
    else match slaves w !! slave with
         | Some s => Some (s, w)
         | None => None
         end.

(** [slave->field = ...] *)
Definition store (slave : slave_ptr) (f : slave_node -> slave_node) : M unit :=
  let* s := deref slave in
  modify (fun w => set_slaves (<[slave := f s]> (slaves w)) w).

Definition unlink (path : string) : M Z :=
  let* w := get in
  match files w !! path with
  | Some _ => modify (fun w => set_files (delete path (files w)) w) >> ret 0
  | None => ret (-1)
  end.

Definition slave_name (slave : slave_ptr) : M string :=
  let* s := deref slave in ret (name s).

Definition slave_pid (slave : slave_ptr) : M Z :=
  let* s := deref slave in ret (pid s).

(** ** fault_manager.c *)

Definition fault_is_occured : M Z :=
  let* w := get in ret (fault_mark_count w).

(** ["%s/slave.%d", SLAVE_LOG_PATH, slave_pid(slave)] *)
Definition log_filename (pid : Z) : string :=
  snprintf (BUFSIZ P) (SLAVE_LOG_PATH P +:+ "/slave." +:+ pretty pid).

Definition clear_log_file (slave : slave_ptr) : M unit :=
  let* pid := slave_pid slave in
  unlink (log_filename pid) >> ret tt.

(** [for (i = 0; pattern[i] && (pattern[i] == pkgname[i]); i++);] *)
Fixpoint pattern_scan (pattern pkgname : string) : nat :=
  match pattern, pkgname with
  | String p pattern', String c pkgname' =>
      if Ascii.eqb p c then S (pattern_scan pattern' pkgname') else O
  | _, _ => O
  end.

Definition check_log_file (slave : slave_ptr) : M (option string) :=
  let pattern := "liblive-" in
  let* pid := slave_pid slave in
  let filename := log_filename pid in
  let* w := get in
  match files w !! filename with
  | None => log (ErrPrint "No log file found [%s]\n") >> ret None
  | Some content =>
    match fgets (BUFSIZ P) content with
    | None => log (ErrPrint "Invalid log\n") >> ret None
    | Some buf =>
      let pkgname := cstr buf in
      let i := pattern_scan pattern pkgname in
      if negb (Nat.eqb (String.length pattern) i) then
        log (ErrPrint "Pattern is not matched: %d\n") >> ret None
      else
        let ptr := string_drop i pkgname in
        let i := Z.of_nat (String.length ptr) - 3 in  (* Skip the ".so" *)
        if (i <=? 0) || negb (String.eqb (string_drop (Z.to_nat i) ptr) ".so") then
          log (ErrPrint "Extension is not matched\n") >> ret None
        else
          let ptr := string_take (Z.to_nat i) ptr in  (* Truncate tailer ".so" *)
          let* r := unlink filename in
          (if r <? 0 then log (ErrPrint "Failed to unlink %s\n") else ret tt) >>
          let* dup := ask (alloc_ok P) in               (* strdup(ptr) *)
          ret (if dup then Some ptr else None)
    end
  end.

Definition fault_broadcast_info (pkgname filename func : string) : M unit :=
  let* packet := ask (alloc_ok P) in    (* packet_create_noack("fault_package", "sss", ...) *)
  if negb packet then log (ErrPrint "Failed to create a param\n")
  else log (client_broadcast pkgname filename func).

Definition fault_info_set (slave : slave_ptr) (pkgname id func : string) : M lb_status :=
  if negb (package_find P pkgname) then ret LB_STATUS_ERROR_NOT_EXIST
  else
    let* ts := ask (util_timestamp P) in
    log (package_set_fault_info pkgname ts (Some id) (Some func)) >>
    let* r := ask (package_set_fault_info_result P) in
    if r <? 0 then ret LB_STATUS_ERROR_FAULT
    else
      let* nm := slave_name slave in
      let* pd := slave_pid slave in
      log (dump_fault_info nm pd pkgname id func) >>
      log (ErrPrint "Set fault %s(%d)\n") >>
      fault_broadcast_info pkgname id func >>
      modify (fun w => set_fault_mark_count (int_incr (fault_mark_count w)) w) >>
      ret LB_STATUS_SUCCESS.

(** [EINA_LIST_REVERSE_FOREACH_SAFE(s_info.call_list, l, n, info)] removing
    the records of [slave]: [pending] is the part of the list still to be
    visited, last record first; [kept] is the part already visited and
    left in the list. *)
Fixpoint remove_calls_of (slave : slave_ptr) (pending kept : list fault_info)
  : list fault_info :=
  match pending with
  | [] => kept
  | info :: pending' =>
      if negb (N.eqb (fi_slave info) slave)
      then remove_calls_of slave pending' (info :: kept)      (* continue *)
      else remove_calls_of slave pending' kept
  end.

(** The body shared by the first two steps of [fault_check_pkgs], once a
    registered package [pkgname] is blamed. *)
Definition blame_package (slave : slave_ptr) (pkgname : string) : M Z :=
  let* ts := ask (util_timestamp P) in
  log (package_set_fault_info pkgname ts None None) >>
  let* _ := ask (package_set_fault_info_result P) in
  let* nm := slave_name slave in
  let* pd := slave_pid slave in
  log (dump_fault_info nm pd pkgname "" "") >>
  log (ErrPrint "Set fault %s(%d)\n") >>
  fault_broadcast_info pkgname "" "" >>
  modify (set_fault_mark_count 0) >>
  clear_log_file slave >>
  modify (fun w => set_call_list (remove_calls_of slave (rev (call_list w)) []) w) >>
  ret 0.

(** The last loop of [fault_check_pkgs]: the pairs of call and return
    marks, most recent record first. *)
Fixpoint check_call_marks (slave : slave_ptr) (pending : list fault_info)
    (checked : bool) (kept : list fault_info) : M (list fault_info) :=
  match pending with
  | [] => ret kept
  | info :: pending' =>
      if N.eqb (fi_slave info) slave then
        if negb (package_find P (fi_pkgname info)) then
          log (ErrPrint "Failed to find a package %s\n") >>
          check_call_marks slave pending' checked (info :: kept)   (* continue *)
        else
          (if negb checked then
             log (package_set_fault_info (fi_pkgname info) (fi_timestamp info)
                    (Some (fi_filename info)) (Some (fi_func info))) >>
             let* _ := ask (package_set_fault_info_result P) in
             fault_broadcast_info (fi_pkgname info) (fi_filename info) (fi_func info) >>
             log (ErrPrint "Set fault %s(%d)\n")
           else
             (* Treated as a false log *)
             let* nm := slave_name (fi_slave info) in
             let* pd := slave_pid (fi_slave info) in
             log (dump_fault_info nm pd (fi_pkgname info) (fi_filename info) (fi_func info))) >>
          check_call_marks slave pending' true kept
      else check_call_marks slave pending' checked (info :: kept)
  end.

Definition fault_check_pkgs (slave : slave_ptr) : M Z :=
  (* First step. Check the log file *)
  let* pkgname := check_log_file slave in
  match (match pkgname with
         | Some pkgname => if package_find P pkgname then Some pkgname else None
         | None => None
         end) with
  | Some pkgname => blame_package slave pkgname
  | None =>
    (* Second step. Is it secured slave? *)
    match (match package_find_by_secured_slave P slave with
           | Some pkgname => if package_find P pkgname then Some pkgname else None
           | None => None
           end) with
    | Some pkgname => blame_package slave pkgname
    | None =>
      (* At last, check the pair of function call and return mark *)
      let* w := get in
      let* kept := check_call_marks slave (rev (call_list w)) false [] in
      modify (set_call_list kept) >>
      modify (set_fault_mark_count 0) >>
      clear_log_file slave >>
      ret 0
    end
  end.

Definition fault_func_call (slave : slave_ptr) (pkgname filename func : string)
  : M lb_status :=
  let* info := ask (alloc_ok P) in               (* malloc of the record *)
  if negb info then ret LB_STATUS_ERROR_MEMORY else
  let* dup := ask (alloc_ok P) in                (* strdup(pkgname) *)
  if negb dup then ret LB_STATUS_ERROR_MEMORY else
  let* dup := ask (alloc_ok P) in                (* strdup(filename) *)
  if negb dup then ret LB_STATUS_ERROR_MEMORY else
  let* dup := ask (alloc_ok P) in                (* strdup(func) *)
  if negb dup then ret LB_STATUS_ERROR_MEMORY else
  let* ts := ask (util_timestamp P) in
  let info := {| fi_slave := slave; fi_timestamp := ts; fi_pkgname := pkgname;
                 fi_filename := filename; fi_func := func |} in
  modify (fun w => set_call_list (call_list w ++ [info]) w) >>
  modify (fun w => set_fault_mark_count (int_incr (fault_mark_count w)) w) >>
  ret LB_STATUS_SUCCESS.

(** The loop of [fault_func_ret]: the list without its first record that
    matches, or [None] when no record matches. *)
Fixpoint remove_first_call (slave : slave_ptr) (pkgname filename func : string)
    (l : list fault_info) : option (list fault_info) :=
  match l with
  | [] => None
  | info :: l' =>
      if negb (N.eqb (fi_slave info) slave)
         || negb (String.eqb (fi_pkgname info) pkgname)
         || negb (String.eqb (fi_filename info) filename)
         || negb (String.eqb (fi_func info) func)
      then cons info <$> remove_first_call slave pkgname filename func l'   (* continue *)
      else Some l'
  end.

Definition fault_func_ret (slave : slave_ptr) (pkgname filename func : string)
  : M lb_status :=
  let* w := get in
  match remove_first_call slave pkgname filename func (call_list w) with
  | Some l =>
      modify (set_call_list l) >>
      modify (fun w => set_fault_mark_count (int_decr (fault_mark_count w)) w) >>
      ret LB_STATUS_SUCCESS
  | None => ret LB_STATUS_ERROR_NOT_EXIST
  end.

(** ** slave_life.c *)

(** [eina_list_data_find(list, data)] and [eina_list_remove(list, data)]:
    the first node holding [data]. *)
Fixpoint eina_list_data_find {A} (same : A -> A -> bool) (l : list A) (data : A) : bool :=
  match l with
  | [] => false
  | x :: l' => if same x data then true else eina_list_data_find same l' data
  end.

Fixpoint eina_list_remove {A} (same : A -> A -> bool) (l : list A) (data : A) : list A :=
  match l with
  | [] => []
  | x :: l' => if same x data then l' else x :: eina_list_remove same l' data
  end.

Definition slave_pkgname (slave : slave_ptr) : M (option string) :=
  if N.eqb slave NULL then ret None
  else let* s := deref slave in ret (Some (pkgname s)).

Definition slave_state (slave : slave_ptr) : M enum_slave_state :=
  if N.eqb slave NULL then ret SLAVE_ERROR
  else let* s := deref slave in ret (state s).

Definition slave_loaded_instance (slave : slave_ptr) : M Z :=
  let* s := deref slave in ret (loaded_instance s).

Definition slave_loaded_package (slave : slave_ptr) : M Z :=
  let* s := deref slave in ret (loaded_package s).

Definition slave_set_reactivate_instances (slave : slave_ptr) (reactivate : Z) : M unit :=
  store slave (set_reactivate_instances reactivate).

Definition slave_need_to_reactivate_instances (slave : slave_ptr) : M Z :=
  let* s := deref slave in ret (reactivate_instances s).

Definition slave_set_reactivation (slave : slave_ptr) (flag : Z) : M unit :=
  store slave (set_reactivate_slave flag).

Definition slave_need_to_reactivate (slave : slave_ptr) : M Z :=
  let* s := deref slave in ret (reactivate_slave s).

Definition slave_is_activated (slave : slave_ptr) : M bool :=
  let* s := deref slave in
  match state s with
  | SLAVE_REQUEST_TO_TERMINATE
  | SLAVE_TERMINATED => ret false
  | SLAVE_REQUEST_TO_LAUNCH
  | SLAVE_REQUEST_TO_PAUSE
  | SLAVE_REQUEST_TO_RESUME
  | SLAVE_PAUSED
  | SLAVE_RESUMED => ret true
  | _ => ret (negb (pid s =? -1))
  end.

(** [ecore_timer_add(interval, cb, slave)]: a fresh handle, or [NULL]. *)
Definition timer_add (interval : Q) (cb : timer_cb) (slave : slave_ptr)
  : M (option Ecore_Timer) :=
  let* w := get in
  let* ok := ask (alloc_ok P) in
  if ok then log (ecore_timer_add (tick w) interval cb slave) >> ret (Some (tick w))
  else ret None.

(** [if (slave->timer) { ecore_timer_del(slave->timer); }] *)
Definition timer_del_if (timer : option Ecore_Timer) : M unit :=
  match timer with
  | Some t => log (ecore_timer_del t)
  | None => ret tt
  end.

(** [ret = event->evt_cb(event->slave, event->cbdata)] *)
Definition call_evt_cb (ev : event) : M Z :=
  log (evt_cb_call (evt_cb ev) (ev_slave ev) (cbdata ev)) >>
  ask (fun t => evt_cb_result P t (evt_cb ev)).

(** The loop shared by [invoke_delete_cb], [invoke_fault_cb],
    [invoke_activate_cb], [invoke_resumed_cb] and [invoke_paused_cb] over
    the list [field] of the slave: [EINA_LIST_FOREACH_SAFE] visits the
    nodes the list had when the loop was entered. *)
Fixpoint invoke_cb_loop (field : slave_node -> list event)
    (set_field : list event -> slave_node -> slave_node)
    (slave : slave_ptr) (pending : list event) : M unit :=
  match pending with
  | [] => ret tt
  | ev :: pending' =>
      let* r := call_evt_cb ev in
      (if r <? 0 then
         let* s := deref slave in
         if eina_list_data_find event_eqb (field s) ev
         then store slave (fun s => set_field (eina_list_remove event_eqb (field s) ev) s)
         else ret tt
       else ret tt) >>
      invoke_cb_loop field set_field slave pending'
  end.

Definition invoke_cb (field : slave_node -> list event)
    (set_field : list event -> slave_node -> slave_node)
    (slave : slave_ptr) : M unit :=
  let* s := deref slave in
  invoke_cb_loop field set_field slave (field s).

Definition invoke_delete_cb := invoke_cb event_delete_list set_event_delete_list.
Definition invoke_fault_cb := invoke_cb event_fault_list set_event_fault_list.
Definition invoke_activate_cb := invoke_cb event_activate_list set_event_activate_list.
Definition invoke_resumed_cb := invoke_cb event_resume_list set_event_resume_list.
Definition invoke_paused_cb := invoke_cb event_pause_list set_event_pause_list.

Fixpoint invoke_deactivate_cb_loop (slave : slave_ptr) (pending : list event)
    (reactivate : Z) : M Z :=
  match pending with
  | [] => ret reactivate
  | ev :: pending' =>
      let* r := call_evt_cb ev in
      if r <? 0 then
        let* s := deref slave in
        (if eina_list_data_find event_eqb (event_deactivate_list s) ev
         then store slave (fun s => set_event_deactivate_list
                                      (eina_list_remove event_eqb (event_deactivate_list s) ev) s)
         else ret tt) >>
        invoke_deactivate_cb_loop slave pending' reactivate
      else if r =? SLAVE_NEED_TO_REACTIVATE P then
        invoke_deactivate_cb_loop slave pending' (int_incr reactivate)
      else invoke_deactivate_cb_loop slave pending' reactivate
  end.

Definition invoke_deactivate_cb (slave : slave_ptr) : M Z :=
  let* s := deref slave in
  invoke_deactivate_cb_loop slave (event_deactivate_list s) 0.

Definition destroy_slave_node (slave : slave_ptr) : M unit :=
  let* pd := slave_pid slave in
  if negb (pd =? -1) then log (ErrPrint "Slave is not deactivated\n")
  else
    log (xmonitor_del_event_callback XMONITOR_PAUSED slave) >>
    log (xmonitor_del_event_callback XMONITOR_RESUMED slave) >>
    invoke_delete_cb slave >>
    log (slave_rpc_fini slave) >>
    store slave (set_event_delete_list []) >>
    store slave (set_event_activate_list []) >>
    store slave (set_event_deactivate_list []) >>
    store slave (set_event_fault_list []) >>
    store slave (set_data_list []) >>
    modify (fun w => set_slave_list (eina_list_remove N.eqb (slave_list w) slave) w) >>
    let* s := deref slave in
    timer_del_if (ttl_timer s) >>
    timer_del_if (activate_timer s) >>
    timer_del_if (relaunch_timer s) >>
    modify (fun w => set_slaves (delete slave (slaves w)) w).     (* free *)

Definition slave_ref (slave : slave_ptr) : M slave_ptr :=
  if N.eqb slave NULL then ret NULL
  else
    store slave (fun s => set_refcnt (int_incr (refcnt s)) s) >>
    ret slave.

Definition slave_unref (slave : slave_ptr) : M slave_ptr :=
  if N.eqb slave NULL then ret NULL
  else
    let* s := deref slave in
    if refcnt s =? 0 then
      log (ErrPrint "Slave refcnt is not valid\n") >> ret NULL
    else
      store slave (fun s => set_refcnt (int_decr (refcnt s)) s) >>
      let* s := deref slave in
      if refcnt s =? 0 then destroy_slave_node slave >> ret NULL
      else ret slave.

Definition slave_refcnt (slave : slave_ptr) : M Z :=
  let* s := deref slave in ret (refcnt s).

Definition slave_destroy (slave : slave_ptr) : M unit :=
  slave_unref slave >> ret tt.

Definition slave_expired_ttl (slave : slave_ptr) : M Z :=
  if N.eqb slave NULL then ret 0
  else
    let* s := deref slave in
    if secured s =? 0 then ret 0
    else ret (match ttl_timer s with Some _ => 1 | None => 0 end).

(** The address [calloc] hands out: one that holds no slave object. *)
Definition fresh_address (w : world) : slave_ptr :=
  N.succ (map_fold (fun a _ top => N.max a top) 0%N (slaves w)).

(** [create_slave_node]; [zeroed] is the [activated_at] of a record that
    [calloc] has filled with zeros. *)
Definition create_slave_node (zeroed : time_t) (name_ : string) (is_secured : Z)
    (abi_ pkgname_ : string) (network_ : Z) : M slave_ptr :=
  let* mem := ask (alloc_ok P) in                  (* calloc(1, sizeof( *slave)) *)
  if negb mem then log (ErrPrint "Heap: %s\n") >> ret NULL else
  let* dup := ask (alloc_ok P) in                  (* strdup(name) *)
  if negb dup then log (ErrPrint "Heap: %s\n") >> ret NULL else
  let* dup := ask (alloc_ok P) in                  (* strdup(abi) *)
  if negb dup then log (ErrPrint "Heap: %s\n") >> ret NULL else
  let* dup := ask (alloc_ok P) in                  (* strdup(pkgname) *)
  if negb dup then log (ErrPrint "Heap: %s\n") >> ret NULL else
  let* w := get in
  let slave := fresh_address w in
  modify (fun w =>
    set_slaves
      (<[slave :=
          {| name := name_; abi := abi_; pkgname := pkgname_; secured := is_secured;
             refcnt := 0; fault_count := 0; critical_fault_count := 0;
             state := SLAVE_TERMINATED; network := network_;
             loaded_instance := 0; loaded_package := 0;
             reactivate_instances := 0; reactivate_slave := 0;
             pid := -1;
             event_activate_list := []; event_deactivate_list := [];
             event_delete_list := []; event_fault_list := [];
             event_pause_list := []; event_resume_list := [];
             data_list := [];
             ttl_timer := None; activate_timer := None; relaunch_timer := None;
             relaunch_count := SLAVE_RELAUNCH_COUNT P;
             activated_at := zeroed |}]> (slaves w)) w) >>
  log (xmonitor_add_event_callback XMONITOR_PAUSED slave) >>
  log (xmonitor_add_event_callback XMONITOR_RESUMED slave) >>
  modify (fun w => set_slave_list (slave_list w ++ [slave]) w) >>
  ret slave.

Fixpoint find_slave_loop (name_ : string) (l : list slave_ptr) : M slave_ptr :=
  match l with
  | [] => ret NULL
  | slave :: l' =>
      let* s := deref slave in
      if String.eqb (name s) name_ then ret slave else find_slave_loop name_ l'
  end.

Definition find_slave (name_ : string) : M slave_ptr :=
  let* w := get in find_slave_loop name_ (slave_list w).

Definition slave_create (zeroed : time_t) (name_ : string) (is_secured : Z)
    (abi_ pkgname_ : string) (network_ : Z) : M slave_ptr :=
  let* slave := find_slave name_ in
  if negb (N.eqb slave NULL) then
    let* s := deref slave in
    (if negb (secured s =? is_secured)
     then log (ErrPrint "Exists slave and creating slave's security flag is not matched\n")
     else ret tt) >>
    ret slave
  else
    let* slave := create_slave_node zeroed name_ is_secured abi_ pkgname_ network_ in
    if N.eqb slave NULL then ret NULL
    else
      slave_ref slave >>
      log (slave_rpc_init slave) >>
      ret slave.

(** [if (slave->timer) { ecore_timer_del(slave->timer); slave->timer = NULL; }] *)
Definition timer_clear (field : slave_node -> option Ecore_Timer)
    (set_field : option Ecore_Timer -> slave_node -> slave_node)
    (slave : slave_ptr) : M unit :=
  let* s := deref slave in
  match field s with
  | Some t => log (ecore_timer_del t) >> store slave (set_field None)
  | None => ret tt
  end.

(** The parameter bundle handed to the launcher. *)
Definition launch_bundle (s : slave_node) : list (string * string) :=
  [ ("BUNDLE_SLAVE_NAME", name s);
    ("BUNDLE_SLAVE_SECURED", if secured s =? 0 then "false" else "true");
    ("BUNDLE_SLAVE_ABI", abi s) ].

Definition slave_activate (slave : slave_ptr) : M lb_status :=
  let* pd := slave_pid slave in
  let* st := slave_state slave in
  if negb (pd =? -1) then
    (if slave_state_eqb st SLAVE_REQUEST_TO_TERMINATE
     then slave_set_reactivation slave 1 else ret tt) >>
    ret LB_STATUS_ERROR_ALREADY
  else if slave_state_eqb st SLAVE_REQUEST_TO_LAUNCH then
    ret LB_STATUS_ERROR_ALREADY
  else
    let* failed :=
      if negb (DEBUG_MODE P =? 0) then ret false
      else
        store slave (set_relaunch_count (SLAVE_RELAUNCH_COUNT P)) >>
        let* param := ask (alloc_ok P) in           (* bundle_create() *)
        if negb param then log (ErrPrint "Failed to create a bundle\n") >> ret true
        else
          let* s := deref slave in
          log (aul_launch_app_call (pkgname s) (launch_bundle s)) >>
          let* r := ask (aul_launch_app P) in
          store slave (set_pid r) >>
          let* failed :=
            match aul_class P r with
            | LAUNCH_FATAL =>
                log (CRITICAL_LOG "Failed to launch a new slave %s (%d)\n") >>
                store slave (set_pid (-1)) >> ret false
            | LAUNCH_RETRY =>
                log (CRITICAL_LOG "Try relaunch this soon %s (%d)\n") >>
                let* t := timer_add (SLAVE_RELAUNCH_TIME P) relaunch_timer_cb_fn slave in
                store slave (set_relaunch_timer t) >>
                match t with
                | None =>
                    log (CRITICAL_LOG "Failed to register a relaunch timer (%s)\n") >>
                    store slave (set_pid (-1)) >> ret true
                | Some _ => ret false
                end
            | LAUNCH_DONE => ret false
            end in
          if failed then ret true
          else
            let* t := timer_add (SLAVE_ACTIVATE_TIME P) activate_timer_cb_fn slave in
            store slave (set_activate_timer t) >>
            match t with
            | None => log (ErrPrint "Failed to register an activate timer\n") >> ret false
            | Some _ => ret false
            end in
    if failed then ret LB_STATUS_ERROR_FAULT
    else
      store slave (set_state SLAVE_REQUEST_TO_LAUNCH) >>
      slave_ref slave >>
      ret LB_STATUS_SUCCESS.

Definition slave_resume (slave : slave_ptr) : M lb_status :=
  let* s := deref slave in
  match state s with
  | SLAVE_REQUEST_TO_LAUNCH
  | SLAVE_REQUEST_TO_TERMINATE
  | SLAVE_TERMINATED => ret LB_STATUS_ERROR_INVALID
  | SLAVE_RESUMED
  | SLAVE_REQUEST_TO_RESUME => ret LB_STATUS_SUCCESS
  | _ =>
      let* timestamp := ask (util_timestamp P) in
      let* packet := ask (alloc_ok P) in            (* packet_create("resume", "d", timestamp) *)
      if negb packet then log (ErrPrint "Failed to prepare param\n") >> ret LB_STATUS_ERROR_FAULT
      else
        store slave (set_state SLAVE_REQUEST_TO_RESUME) >>
        log (slave_rpc_request slave "resume" timestamp) >>
        let* r := ask (slave_rpc_async_request P) in
        ret (RPC_STATUS r)
  end.

Definition slave_pause (slave : slave_ptr) : M lb_status :=
  let* s := deref slave in
  match state s with
  | SLAVE_REQUEST_TO_LAUNCH
  | SLAVE_REQUEST_TO_TERMINATE
  | SLAVE_TERMINATED => ret LB_STATUS_ERROR_INVALID
  | SLAVE_PAUSED
  | SLAVE_REQUEST_TO_PAUSE => ret LB_STATUS_SUCCESS
  | _ =>
      let* timestamp := ask (util_timestamp P) in
      let* packet := ask (alloc_ok P) in            (* packet_create("pause", "d", timestamp) *)
      if negb packet then log (ErrPrint "Failed to prepare param\n") >> ret LB_STATUS_ERROR_FAULT
      else
        store slave (set_state SLAVE_REQUEST_TO_PAUSE) >>
        log (slave_rpc_request slave "pause" timestamp) >>
        let* r := ask (slave_rpc_async_request P) in
        ret (RPC_STATUS r)
  end.

(** The acknowledgement of a resume request: [packet] is [None] for a
    [NULL] packet, [Some None] when [packet_get] fails, [Some (Some r)]
    for the status [r]. *)
Definition resume_cb (slave : slave_ptr) (packet : option (option Z)) : M unit :=
  let* s := deref slave in
  if slave_state_eqb (state s) SLAVE_REQUEST_TO_TERMINATE then ret tt
  else
    match packet with
    | None =>
        log (ErrPrint "Failed to change the state of the slave\n") >>
        store slave (set_state SLAVE_PAUSED)
    | Some None => log (ErrPrint "Invalid parameter\n")
    | Some (Some r) =>
        if r =? 0 then
          store slave (set_state SLAVE_RESUMED) >>
          log (slave_rpc_ping_thaw slave) >>
          invoke_resumed_cb slave
        else ret tt
    end.

Definition pause_cb (slave : slave_ptr) (packet : option (option Z)) : M unit :=
  let* s := deref slave in
  if slave_state_eqb (state s) SLAVE_REQUEST_TO_TERMINATE then ret tt
  else
    match packet with
    | None =>
        log (ErrPrint "Failed to change the state of the slave\n") >>
        store slave (set_state SLAVE_RESUMED)
    | Some None => log (ErrPrint "Invalid parameter\n")
    | Some (Some r) =>
        if r =? 0 then
          store slave (set_state SLAVE_PAUSED) >>
          log (slave_rpc_ping_freeze slave) >>
          invoke_paused_cb slave
        else ret tt
    end.

(** [slave_activated]; [stamp_activated_at] is the block under
    [#if defined(_USE_ECORE_TIME_GET)] that fills [activated_at]. *)
Definition slave_activated (stamp_activated_at : slave_ptr -> M unit)
    (slave : slave_ptr) : M lb_status :=
  store slave (set_state SLAVE_RESUMED) >>
  let* paused := ask (xmonitor_is_paused P) in
  (if paused then slave_pause slave >> ret tt else ret tt) >>
  let* s := deref slave in
  (if secured s =? 1 then
     let* t := timer_add (SLAVE_TTL P) slave_ttl_cb_fn slave in
     store slave (set_ttl_timer t) >>
     match t with
     | None => log (ErrPrint "Failed to create a TTL timer\n")
     | Some _ => ret tt
     end
   else ret tt) >>
  invoke_activate_cb slave >>
  slave_set_reactivation slave 0 >>
  slave_set_reactivate_instances slave 0 >>
  stamp_activated_at slave >>
  timer_clear activate_timer set_activate_timer slave >>
  timer_clear relaunch_timer set_relaunch_timer slave >>
  ret LB_STATUS_SUCCESS.

Definition slave_deactivated (slave : slave_ptr) : M slave_ptr :=
  store slave (set_pid (-1)) >>
  store slave (set_state SLAVE_TERMINATED) >>
  timer_clear ttl_timer set_ttl_timer slave >>
  timer_clear activate_timer set_activate_timer slave >>
  timer_clear relaunch_timer set_relaunch_timer slave >>
  let* reactivate := invoke_deactivate_cb slave in
  let* slave := slave_unref slave in
  if N.eqb slave NULL then ret slave
  else
    let* need := slave_need_to_reactivate slave in
    if negb (reactivate =? 0) && negb (need =? 0) then
      let* r := slave_activate slave in
      (match r with
       | LB_STATUS_ERROR_ALREADY => ret tt
       | _ => if lb_is_error r then log (ErrPrint "Failed to reactivate a slave\n") else ret tt
       end) >>
      ret slave
    else
      let* li := slave_loaded_instance slave in
      if li =? 0 then slave_unref slave else ret slave.

Definition slave_deactivate (slave : slave_ptr) : M slave_ptr :=
  let* act := slave_is_activated slave in
  if negb act then
    log (ErrPrint "Slave is already deactivated\n") >>
    let* li := slave_loaded_instance slave in
    if li =? 0 then slave_unref slave else ret slave
  else
    store slave (set_state SLAVE_REQUEST_TO_TERMINATE) >>
    let* pd := slave_pid slave in
    if 0 <? pd then
      log (aul_terminate_pid_call pd) >>
      let* r := ask (aul_terminate_pid P) in
      if r <? 0 then
        log (ErrPrint "Terminate slave(%s) failed. pid %d (%d)\n") >>
        slave_deactivated slave
      else ret slave
    else ret slave.

(** [slave_deactivated_by_fault]; [fast_crash_check] is the block under
    [#if defined(_USE_ECORE_TIME_GET)], which measures the time since the
    activation and yields the locals [(reactivate, reactivate_instances)]. *)
Definition slave_deactivated_by_fault (fast_crash_check : slave_ptr -> M (Z * Z))
    (slave : slave_ptr) : M slave_ptr :=
  let* act := slave_is_activated slave in
  if negb act then
    let* li := slave_loaded_instance slave in
    if li =? 0 then slave_unref slave else ret slave
  else
    store slave (fun s => set_fault_count (int_incr (fault_count s)) s) >>
    fault_check_pkgs slave >>
    let* pd := slave_pid slave in
    (if 0 <? pd then
       log (aul_terminate_pid_call pd) >>
       let* r := ask (aul_terminate_pid P) in
       if r <? 0 then log (ErrPrint "Terminate failed, pid %d\n") else ret tt
     else ret tt) >>
    let* flags := fast_crash_check slave in
    slave_set_reactivation slave (fst flags) >>
    slave_set_reactivate_instances slave (snd flags) >>
    slave_deactivated slave.

Fixpoint slave_find_available_loop (abi_req : string) (secured_req network_req : Z)
    (l : list slave_ptr) : M slave_ptr :=
  match l with
  | [] => ret NULL
  | slave :: l' =>
      let* s := deref slave in
      if negb (secured s =? secured_req) then
        slave_find_available_loop abi_req secured_req network_req l'
      else if slave_state_eqb (state s) SLAVE_REQUEST_TO_TERMINATE
              && (loaded_instance s =? 0) then
        slave_find_available_loop abi_req secured_req network_req l'
      else if negb (strcaseeq (abi s) abi_req) then
        slave_find_available_loop abi_req secured_req network_req l'
      else if negb (secured s =? 0) then
        if loaded_package s =? 0 then ret slave
        else slave_find_available_loop abi_req secured_req network_req l'
      else if network s =? network_req then
        if strcaseeq abi_req (DEFAULT_ABI P) then
          if loaded_package s <? SLAVE_MAX_LOAD P then ret slave
          else slave_find_available_loop abi_req secured_req network_req l'
        else ret slave
      else slave_find_available_loop abi_req secured_req network_req l'
  end.

Definition slave_find_available (abi_req : string) (secured_req network_req : Z)
  : M slave_ptr :=
  let* w := get in
  slave_find_available_loop abi_req secured_req network_req (slave_list w).

Definition slave_load_package (slave : slave_ptr) : M unit :=
  store slave (fun s => set_loaded_package (int_incr (loaded_package s)) s).

Definition slave_unload_package (slave : slave_ptr) : M unit :=
  let* wrong :=
    if N.eqb slave NULL then ret true
    else let* s := deref slave in ret (loaded_package s =? 0) in
  if wrong then log (ErrPrint "Slave loaded package is not correct\n")
  else store slave (fun s => set_loaded_package (int_decr (loaded_package s)) s).

Definition slave_load_instance (slave : slave_ptr) : M unit :=
  store slave (fun s => set_loaded_instance (int_incr (loaded_instance s)) s).

Definition slave_unload_instance (slave : slave_ptr) : M slave_ptr :=
  let* wrong :=
    if N.eqb slave NULL then ret true
    else let* s := deref slave in ret (loaded_instance s =? 0) in
  if wrong then log (ErrPrint "Slave loaded instance is not correct\n") >> ret slave
  else
    store slave (fun s => set_loaded_instance (int_decr (loaded_instance s)) s) >>
    let* s := deref slave in
    let* act := slave_is_activated slave in
    if (loaded_instance s =? 0) && act then
      slave_set_reactivation slave 0 >>
      slave_set_reactivate_instances slave 0 >>
      slave_deactivate slave
    else ret slave.

Definition slave_ttl_cb (slave : slave_ptr) : M bool :=
  store slave (set_ttl_timer None) >>
  slave_set_reactivation slave 0 >>
  slave_set_reactivate_instances slave 1 >>
  slave_deactivate slave >>
  ret false.                                         (* ECORE_CALLBACK_CANCEL *)

(** [if (slave_pid(slave) > 0) { aul_terminate_pid(slave_pid(slave)); }] *)
Definition terminate_if_running (slave : slave_ptr) : M unit :=
  let* pd := slave_pid slave in
  if 0 <? pd then
    log (aul_terminate_pid_call pd) >>
    let* r := ask (aul_terminate_pid P) in
    if r <? 0 then log (ErrPrint "Terminate failed, pid %d (reason: %d)\n") else ret tt
  else ret tt.

Definition activate_timer_cb (slave : slave_ptr) : M bool :=
  timer_clear relaunch_timer set_relaunch_timer slave >>
  store slave (fun s => set_fault_count (int_incr (fault_count s)) s) >>
  invoke_fault_cb slave >>
  slave_set_reactivation slave 0 >>
  slave_set_reactivate_instances slave 0 >>
  store slave (set_activate_timer None) >>
  terminate_if_running slave >>
  log (CRITICAL_LOG "Slave is not activated in %lf sec (slave: %s)\n") >>
  slave_deactivated slave >>
  ret false.



(** ** slave_life.c: event callbacks, private data, lookups *)

(** The [switch (event)] of [slave_event_callback_add] and
    [slave_event_callback_del]: the list of the slave an event kind
    selects. *)
Definition event_list (kind : slave_event) : slave_node -> list event :=
  match kind with
  | SLAVE_EVENT_ACTIVATE => event_activate_list
  | SLAVE_EVENT_DEACTIVATE => event_deactivate_list
  | SLAVE_EVENT_DELETE => event_delete_list
  | SLAVE_EVENT_FAULT => event_fault_list
  | SLAVE_EVENT_PAUSE => event_pause_list
  | SLAVE_EVENT_RESUME => event_resume_list
  end.

Definition set_event_list (kind : slave_event) : list event -> slave_node -> slave_node :=
  match kind with
  | SLAVE_EVENT_ACTIVATE => set_event_activate_list
  | SLAVE_EVENT_DEACTIVATE => set_event_deactivate_list
  | SLAVE_EVENT_DELETE => set_event_delete_list
  | SLAVE_EVENT_FAULT => set_event_fault_list
  | SLAVE_EVENT_PAUSE => set_event_pause_list
  | SLAVE_EVENT_RESUME => set_event_resume_list
  end.

(** The addresses of the event nodes a slave holds. *)
Definition event_addresses (s : slave_node) : list N :=
  map ev_addr (event_activate_list s ++ event_deactivate_list s ++ event_delete_list s
               ++ event_fault_list s ++ event_pause_list s ++ event_resume_list s).

(** The address [calloc] hands out for an event node: one that no event
    node of any slave has. *)
Definition fresh_event_address (w : world) : N :=
  N.succ (map_fold (fun _ s top => N.max (foldr N.max 0%N (event_addresses s)) top)
            0%N (slaves w)).

(** [slave_event_callback_add]; [kind] is [None] for a value of
    [enum slave_event] that no [case] names. *)
Definition slave_event_callback_add (slave : slave_ptr) (kind : option slave_event)
    (cb data_ : N) : M lb_status :=
  let* mem := ask (alloc_ok P) in                  (* calloc(1, sizeof( *ev)) *)
  if negb mem then log (ErrPrint "Heap: %s\n") >> ret LB_STATUS_ERROR_MEMORY
  else
    let* w := get in
    let ev := {| ev_addr := fresh_event_address w; ev_slave := slave;
                 evt_cb := cb; cbdata := data_ |} in
    match kind with
    | Some kind =>
        (* Use the eina_list_prepend API. *)
        store slave (fun s => set_event_list kind (ev :: event_list kind s) s) >>
        ret LB_STATUS_SUCCESS
    | None => ret LB_STATUS_ERROR_INVALID            (* default: DbgFree(ev) *)
    end.

(** [if (ev->evt_cb == cb && ev->cbdata == data)]: the first such node. *)
Fixpoint find_event (cb data_ : N) (l : list event) : option event :=
  match l with
  | [] => None
  | ev :: l' =>
      if N.eqb (evt_cb ev) cb && N.eqb (cbdata ev) data_ then Some ev
      else find_event cb data_ l'
  end.

Definition slave_event_callback_del (slave : slave_ptr) (kind : option slave_event)
    (cb data_ : N) : M lb_status :=
  match kind with
  | Some kind =>
      let* s := deref slave in
      match find_event cb data_ (event_list kind s) with
      | Some ev =>
          store slave (fun s => set_event_list kind
                                  (eina_list_remove event_eqb (event_list kind s) ev) s) >>
          ret LB_STATUS_SUCCESS
      | None => ret LB_STATUS_ERROR_NOT_EXIST
      end
  | None => ret LB_STATUS_ERROR_INVALID
  end.

Definition slave_set_data (slave : slave_ptr) (tag_ : string) (data_ : N) : M lb_status :=
  let* mem := ask (alloc_ok P) in                  (* calloc(1, sizeof( *priv)) *)
  if negb mem then log (ErrPrint "Heap: %s\n") >> ret LB_STATUS_ERROR_MEMORY else
  let* dup := ask (alloc_ok P) in                  (* strdup(tag) *)
  if negb dup then log (ErrPrint "Heap: %s\n") >> ret LB_STATUS_ERROR_MEMORY else
  store slave (fun s => set_data_list (data_list s ++ [{| tag := tag_; data := data_ |}]) s) >>
  ret LB_STATUS_SUCCESS.

(** [if (!strcmp(priv->tag, tag))]: the first such node. *)
Fixpoint find_data (tag_ : string) (l : list priv_data) : option priv_data :=
  match l with
  | [] => None
  | priv :: l' => if String.eqb (tag priv) tag_ then Some priv else find_data tag_ l'
  end.

(** [eina_list_remove(slave->data_list, priv)] for the node [priv] the
    loop of [slave_del_data] stops at: a node before it with the same
    address would be the same node, with the same tag, and the loop
    would have stopped there; so the node removed is the first one with
    the tag. *)
Fixpoint remove_data (tag_ : string) (l : list priv_data) : list priv_data :=
  match l with
  | [] => []
  | priv :: l' => if String.eqb (tag priv) tag_ then l' else priv :: remove_data tag_ l'
  end.

(** [slave_del_data] and [slave_data] answer the pointer stored, [NULL]
    when no node has the tag. *)
Definition slave_del_data (slave : slave_ptr) (tag_ : string) : M N :=
  let* s := deref slave in
  match find_data tag_ (data_list s) with
  | Some priv =>
      store slave (fun s => set_data_list (remove_data tag_ (data_list s)) s) >>
      ret (data priv)
  | None => ret NULL
  end.

Definition slave_data (slave : slave_ptr) (tag_ : string) : M N :=
  let* s := deref slave in
  match find_data tag_ (data_list s) with
  | Some priv => ret (data priv)
  | None => ret NULL
  end.

Fixpoint slave_find_by_pid_loop (pid_ : Z) (l : list slave_ptr) : M slave_ptr :=
  match l with
  | [] => ret NULL
  | slave :: l' =>
      let* pd := slave_pid slave in
      if pd =? pid_ then ret slave else slave_find_by_pid_loop pid_ l'
  end.

Definition slave_find_by_pid (pid_ : Z) : M slave_ptr :=
  let* w := get in slave_find_by_pid_loop pid_ (slave_list w).

Fixpoint slave_find_by_name_loop (name_ : string) (l : list slave_ptr) : M slave_ptr :=
  match l with
  | [] => ret NULL
  | slave :: l' =>
      let* nm := slave_name slave in
      if String.eqb nm name_ then ret slave else slave_find_by_name_loop name_ l'
  end.

Definition slave_find_by_name (name_ : string) : M slave_ptr :=
  let* w := get in slave_find_by_name_loop name_ (slave_list w).

(** [strcmp(slave_pkgname(slave), pkgname)] reads through the pointer
    [slave_pkgname] answers: a [NULL] there is undefined behaviour. *)
Fixpoint slave_find_by_pkgname_loop (pkgname_ : string) (l : list slave_ptr)
  : M slave_ptr :=
  match l with
  | [] => ret NULL
  | slave :: l' =>
      let* pn := slave_pkgname slave in
      match pn with
      | None => fun _ => None
      | Some pn =>
          if String.eqb pn pkgname_ then
            let* pd := slave_pid slave in
            if pd =? -1 then ret slave else slave_find_by_pkgname_loop pkgname_ l'
          else slave_find_by_pkgname_loop pkgname_ l'
      end
  end.

Definition slave_find_by_pkgname (pkgname_ : string) : M slave_ptr :=
  let* w := get in slave_find_by_pkgname_loop pkgname_ (slave_list w).

Definition slave_is_secured (slave : slave_ptr) : M Z :=
  let* s := deref slave in ret (secured s).

Definition slave_abi (slave : slave_ptr) : M string :=
  let* s := deref slave in ret (abi s).

Definition slave_set_pid (slave : slave_ptr) (pid_ : Z) : M lb_status :=
  if N.eqb slave NULL then ret LB_STATUS_ERROR_INVALID
  else store slave (set_pid pid_) >> ret LB_STATUS_SUCCESS.

Definition slave_state_string (slave : slave_ptr) : M string :=
  let* s := deref slave in
  ret (match state s with
       | SLAVE_REQUEST_TO_LAUNCH => "RequestToLaunch"
       | SLAVE_REQUEST_TO_TERMINATE => "RequestToTerminate"
       | SLAVE_TERMINATED => "Terminated"
       | SLAVE_REQUEST_TO_PAUSE => "RequestToPause"
       | SLAVE_REQUEST_TO_RESUME => "RequestToResume"
       | SLAVE_PAUSED => "Paused"
       | SLAVE_RESUMED => "Resumed"
       | SLAVE_ERROR => "Error"
       end).

Definition slave_fault_count (slave : slave_ptr) : M Z :=
  let* s := deref slave in ret (fault_count s).

Definition slave_network (slave : slave_ptr) : M Z :=
  let* s := deref slave in ret (network s).

Definition slave_set_network (slave : slave_ptr) (network_ : Z) : M unit :=
  store slave (set_network network_).

(** The observers of the display state registered for every slave. *)
Definition xmonitor_pause_cb (slave : slave_ptr) : M lb_status :=
  slave_pause slave >> ret LB_STATUS_SUCCESS.

Definition xmonitor_resume_cb (slave : slave_ptr) : M lb_status :=
  slave_resume slave >> ret LB_STATUS_SUCCESS.

(** ** slave_life.c: all the slaves at once *)

(** The loop of [slave_deactivate_all]. [EINA_LIST_FOREACH_SAFE] holds
    the node after the current one; [slave_deactivate] unlinks no node
    but the one of its own slave, so the loop visits the slaves the
    list had when it was entered. *)
Fixpoint slave_deactivate_all_loop (reactivate reactivate_instances_ : Z)
    (pending : list slave_ptr) (cnt : Z) : M Z :=
  match pending with
  | [] => ret cnt
  | slave :: pending' =>
      slave_set_reactivate_instances slave reactivate_instances_ >>
      slave_set_reactivation slave reactivate >>
      let* r := slave_deactivate slave in
      (if N.eqb r NULL
       then modify (fun w => set_slave_list (eina_list_remove N.eqb (slave_list w) slave) w)
       else ret tt) >>
      slave_deactivate_all_loop reactivate reactivate_instances_ pending' (int_incr cnt)
  end.

Definition slave_deactivate_all (reactivate reactivate_instances_ : Z) : M Z :=
  modify (fun w => set_deactivate_all_refcnt (int_incr (deactivate_all_refcnt w)) w) >>
  let* w := get in
  if 1 <? deactivate_all_refcnt w then ret 0
  else slave_deactivate_all_loop reactivate reactivate_instances_ (slave_list w) 0.

Fixpoint slave_activate_all_loop (pending : list slave_ptr) (cnt : Z) : M Z :=
  match pending with
  | [] => ret cnt
  | slave :: pending' =>
      slave_activate slave >>
      slave_activate_all_loop pending' (int_incr cnt)
  end.

Definition slave_activate_all : M Z :=
  modify (fun w => set_deactivate_all_refcnt (int_decr (deactivate_all_refcnt w)) w) >>
  let* w := get in
  if 0 <? deactivate_all_refcnt w then ret 0
  else slave_activate_all_loop (slave_list w) 0.

End Supervisor.

(** ** The two builds of the time measurements *)

(** [_USE_ECORE_TIME_GET] defined: [activated_at] is a [double]. *)
Definition stamp_activated_at_ecore (P : platform) (slave : slave_ptr) : M Q unit :=
  let* now := ask (ecore_time_get P) in
  store slave (set_activated_at now).

Definition fast_crash_check_ecore (P : platform) (slave : slave_ptr) : M Q (Z * Z) :=
  let* faulted_at := ask (ecore_time_get P) in
  let* s := deref slave in
  if negb (Qle_bool (MINIMUM_REACTIVATION_TIME P) (faulted_at - activated_at s)) then
    store slave (fun s => set_critical_fault_count (int_incr (critical_fault_count s)) s) >>
    let* s := deref slave in
    if (loaded_instance s =? 0) || (SLAVE_MAX_LOAD P <=? critical_fault_count s) then
      log (ErrPrint "Reactivation time is too fast and frequently occurred - Stop to auto reactivation\n") >>
      store slave (set_critical_fault_count 0) >>
      invoke_fault_cb P slave >>
      ret (0, 0)
    else
      store slave (set_critical_fault_count 0) >>
      ret (1, 1)
  else
    log (ErrPrint "Failed to get time of day: %s\n") >>
    ret (1, 1).

(** [_USE_ECORE_TIME_GET] not defined: [activated_at] is a
    [struct timeval]. *)
Definition stamp_activated_at_timeval (P : platform) (slave : slave_ptr)
  : M timeval unit :=
  let* tod := ask (gettimeofday P) in
  match tod with
  | Some now => store slave (set_activated_at now)
  | None =>
      log (ErrPrint "Failed to get time of day: %s\n") >>
      store slave (set_activated_at {| tv_sec := 0; tv_usec := 0 |})
  end.

Definition fast_crash_check_timeval (P : platform) (slave : slave_ptr)
  : M timeval (Z * Z) :=
  let* tod := ask (gettimeofday P) in
  match tod with
  | Some faulted_at =>
      let* s := deref slave in
      let rtv := timersub faulted_at (activated_at s) in
      if negb (Qle_bool (MINIMUM_REACTIVATION_TIME P) (inject_Z (tv_sec rtv))) then
        store slave (fun s => set_critical_fault_count (int_incr (critical_fault_count s)) s) >>
        let* s := deref slave in
        if (loaded_instance s =? 0) || (SLAVE_MAX_LOAD P <=? critical_fault_count s) then
          log (ErrPrint "Reactivation time is too fast and frequently occurred - Stop to auto reactivation\n") >>
          store slave (set_critical_fault_count 0) >>
          invoke_fault_cb P slave >>
          ret (0, 0)
        else ret (1, 1)
      else
        store slave (set_critical_fault_count 0) >>
        ret (1, 1)
  | None =>
      log (ErrPrint "Failed to get time of day: %s\n") >>
      ret (1, 1)
  end.

Definition slave_activated_ecore (P : platform) :=
  slave_activated P (stamp_activated_at_ecore P).
Definition slave_activated_timeval (P : platform) :=
  slave_activated P (stamp_activated_at_timeval P).
Definition slave_deactivated_by_fault_ecore (P : platform) :=
  slave_deactivated_by_fault P (fast_crash_check_ecore P).
Definition slave_deactivated_by_fault_timeval (P : platform) :=
  slave_deactivated_by_fault P (fast_crash_check_timeval P).

(** * Vocabulary of the statements *)

(** The triples [(package, file, function)] broadcast to the clients, in
    the order of the trace. *)
Fixpoint broadcasts (tr : list effect) : list (string * string * string) :=
  match tr with
  | [] => []
  | client_broadcast pkgname filename func :: tr' =>
      (pkgname, filename, func) :: broadcasts tr'
  | _ :: tr' => broadcasts tr'
  end.

(** The triples dumped to the critical log, in the order of the trace. *)
Fixpoint fault_dumps (tr : list effect) : list (string * string * string) :=
  match tr with
  | [] => []
  | dump_fault_info _ _ pkgname filename func :: tr' =>
      (pkgname, filename, func) :: fault_dumps tr'
  | _ :: tr' => fault_dumps tr'
  end.

Definition call_triple (info : fault_info) : string * string * string :=
  (fi_pkgname info, fi_filename info, fi_func info).

Section Vocabulary.
Context {time_t : Type}.
Implicit Types (w : world time_t) (s : slave_node time_t).

(** [slave] is the address of the slave object [s]. *)
Definition live w (slave : slave_ptr) s : Prop :=
  slave <> NULL /\ slaves w !! slave = Some s.

(** Every address in the registry list holds a slave object. *)
Definition registry_ok w : Prop :=
  forall slave, In slave (slave_list w) ->
    slave <> NULL /\ exists s, slaves w !! slave = Some s.

(** [m] started in [w] has a result, and the result satisfies [Q]. *)
Definition wp {A} (m : M time_t A) (Q : A -> world time_t -> Prop) w : Prop :=
  match m w with
  | Some (a, w') => Q a w'
  | None => False
  end.

(** The five conditions of the selection of a slave, in the words of the
    specification: the secured flag equals the request; the slave is not
    both requested to terminate and without instances; its abi matches
    the request, whatever the case of the letters; a secured slave has no
    package loaded; any other slave has the requested network flag, and
    either an abi that differs from the default one (whatever the case) or
    fewer than [SLAVE_MAX_LOAD] packages loaded. *)
Definition available (P : platform) (abi_req : string) (secured_req network_req : Z)
    s : bool :=
  (secured s =? secured_req)
  && negb (slave_state_eqb (state s) SLAVE_REQUEST_TO_TERMINATE && (loaded_instance s =? 0))
  && strcaseeq (abi s) abi_req
  && (if secured s =? 0
      then (network s =? network_req)
           && (negb (strcaseeq (abi s) (DEFAULT_ABI P))
               || (loaded_package s <? SLAVE_MAX_LOAD P))
      else loaded_package s =? 0).

(** The slave at [slave] is one [slave_find_available] may choose. *)
Definition available_at (P : platform) (abi_req : string) (secured_req network_req : Z)
    w (slave : slave_ptr) : Prop :=
  exists s, slaves w !! slave = Some s
            /\ available P abi_req secured_req network_req s = true.

(** The records of the call list that belong to [slave] and name a
    registered package. *)
Definition blamable (P : platform) (slave : slave_ptr) (info : fault_info) : bool :=
  N.eqb (fi_slave info) slave && package_find P (fi_pkgname info).

(** A record of the call list answers [fault_func_ret(slave, pkgname,
    filename, func)]. *)
Definition same_call (slave : slave_ptr) (pkgname filename func : string)
    (info : fault_info) : bool :=
  N.eqb (fi_slave info) slave
  && String.eqb (fi_pkgname info) pkgname
  && String.eqb (fi_filename info) filename
  && String.eqb (fi_func info) func.

(** The two load counters of a record are [n] and [m]. *)
Definition counts (n m : Z) s : Prop :=
  loaded_instance s = n /\ loaded_package s = m.

(** The slave at [slave] is there, with the load counters [n] and [m]. *)
Definition keeps (slave : slave_ptr) (n m : Z) w : Prop :=
  exists s, live w slave s /\ counts n m s.

(** If a slave is at [slave], its load counters are [n] and [m]. *)
Definition keeps_if (slave : slave_ptr) (n m : Z) w : Prop :=
  forall s, slaves w !! slave = Some s -> counts n m s.

(** What an operation that may destroy the slave answers: the slave,
    still there with its counters, or [NULL]. *)
Definition kept_or_gone (slave : slave_ptr) (n m : Z) (r : slave_ptr) w : Prop :=
  (r = slave /\ keeps slave n m w) \/ (r = NULL /\ keeps_if slave n m w).

(** [w] differs from [w0] by nothing the fault attribution looks at: the
    slave objects and the call list are the same, and what was added to
    the trace holds no broadcast and no dump of fault information. *)
Definition quiet w0 w : Prop :=
  slaves w = slaves w0
  /\ call_list w = call_list w0
  /\ exists errs, trace w = trace w0 ++ errs
                  /\ broadcasts errs = [] /\ fault_dumps errs = [].

(** No byte of [str] is [c]. *)
Fixpoint string_free_of (c : ascii) (str : string) : bool :=
  match str with
  | EmptyString => true
  | String x rest => negb (Ascii.eqb x c) && string_free_of c rest
  end.

End Vocabulary.

(** * Concrete scenarios *)

(** A launcher whose answers [-3], [-5], [-6] and [-9] ask for another
    try, whose other negative answers are fatal, and whose other answers
    are process ids. *)
Definition demo_aul_class (r : Z) : launch_class :=
  if (r =? -3) || (r =? -5) || (r =? -6) || (r =? -9) then LAUNCH_RETRY
  else if r <? 0 then LAUNCH_FATAL
  else LAUNCH_DONE.

(** A platform with usual values of the tunables, where no allocation fails, the
    clocks advance by a millisecond per question, packages "foo" and "bar"
    are registered, the launcher answers a fresh process id, and the
    observer at address [7] asks for a reactivation. *)
Definition demo_platform : platform :=
  {| SLAVE_LOG_PATH := "/opt/usr/share/live_magazine/log";
     SLAVE_MAX_LOAD := 30;
     SLAVE_RELAUNCH_COUNT := 3;
     DEFAULT_ABI := "c";
     DEBUG_MODE := 0;
     SLAVE_TTL := 30;
     SLAVE_ACTIVATE_TIME := 30;
     SLAVE_RELAUNCH_TIME := 3;
     MINIMUM_REACTIVATION_TIME := 10;
     SLAVE_NEED_TO_REACTIVATE := 100;
     BUFSIZ := Nat.pow 2 13;
     alloc_ok := fun _ => true;
     util_timestamp := fun t => Z.of_nat t # 1000;
     ecore_time_get := fun t => Z.of_nat t # 1000;
     gettimeofday := fun t => Some {| tv_sec := Z.of_nat t / 1000;
                                      tv_usec := (Z.of_nat t mod 1000) * 1000 |};
     package_find := fun pkg => String.eqb pkg "foo" || String.eqb pkg "bar";
     package_find_by_secured_slave := fun _ => None;
     package_set_fault_info_result := fun _ => 0;
     aul_launch_app := fun t => 200 + Z.of_nat t;
     aul_class := demo_aul_class;
     aul_terminate_pid := fun _ => 0;
     evt_cb_result := fun _ cb => if N.eqb cb 7 then 100 else 0;
     slave_rpc_async_request := fun _ => 0;
     xmonitor_is_paused := fun _ => false |}.

(** The same platform where only package "foo" is registered. *)
Definition foo_platform : platform :=
  {| SLAVE_LOG_PATH := SLAVE_LOG_PATH demo_platform;
     SLAVE_MAX_LOAD := SLAVE_MAX_LOAD demo_platform;
     SLAVE_RELAUNCH_COUNT := SLAVE_RELAUNCH_COUNT demo_platform;
     DEFAULT_ABI := DEFAULT_ABI demo_platform;
     DEBUG_MODE := DEBUG_MODE demo_platform;
     SLAVE_TTL := SLAVE_TTL demo_platform;
     SLAVE_ACTIVATE_TIME := SLAVE_ACTIVATE_TIME demo_platform;
     SLAVE_RELAUNCH_TIME := SLAVE_RELAUNCH_TIME demo_platform;
     MINIMUM_REACTIVATION_TIME := MINIMUM_REACTIVATION_TIME demo_platform;
     SLAVE_NEED_TO_REACTIVATE := SLAVE_NEED_TO_REACTIVATE demo_platform;
     BUFSIZ := BUFSIZ demo_platform;
     alloc_ok := alloc_ok demo_platform;
     util_timestamp := util_timestamp demo_platform;
     ecore_time_get := ecore_time_get demo_platform;
     gettimeofday := gettimeofday demo_platform;
     package_find := fun pkg => String.eqb pkg "foo";
     package_find_by_secured_slave := package_find_by_secured_slave demo_platform;
     package_set_fault_info_result := package_set_fault_info_result demo_platform;
     aul_launch_app := aul_launch_app demo_platform;
     aul_class := aul_class demo_platform;
     aul_terminate_pid := aul_terminate_pid demo_platform;
     evt_cb_result := evt_cb_result demo_platform;
     slave_rpc_async_request := slave_rpc_async_request demo_platform;
     xmonitor_is_paused := xmonitor_is_paused demo_platform |}.

(** A slave of the given state, process id and counters, with one
    observer of its deactivation (at [7]) and one of its faults (at [9]). *)
Definition demo_slave {time_t} (st : enum_slave_state) (pd refs instances packages : Z)
    (at_ : time_t) : slave_node time_t :=
  {| name := "slave.1"; abi := "c"; pkgname := "com.samsung.data-provider-slave";
     secured := 0; refcnt := refs; fault_count := 0; critical_fault_count := 0;
     state := st; network := 0;
     loaded_instance := instances; loaded_package := packages;
     reactivate_instances := 0; reactivate_slave := 0;
     pid := pd;
     event_activate_list := [];
     event_deactivate_list := [ {| ev_addr := 70%N; ev_slave := 1%N; evt_cb := 7%N; cbdata := 0%N |} ];
     event_delete_list := [];
     event_fault_list := [ {| ev_addr := 90%N; ev_slave := 1%N; evt_cb := 9%N; cbdata := 0%N |} ];
     event_pause_list := [];
     event_resume_list := [];
     data_list := [];
     ttl_timer := None; activate_timer := Some 5%nat; relaunch_timer := None;
     relaunch_count := 3;
     activated_at := at_ |}.

(** A world whose registry holds the one slave [s], at address [1], with
    the given call list and crash-log directory. *)
Definition demo_world {time_t} (s : slave_node time_t) (calls : list fault_info)
    (dir : gmap string string) : world time_t :=
  {| slave_list := [1%N];
     deactivate_all_refcnt := 0;
     slaves := {[ 1%N := s ]};
     call_list := calls;
     fault_mark_count := Z.of_nat (length calls);
     files := dir;
     tick := 0;
     trace := [] |}.

(** The path of the crash log of process [200]. *)
Definition demo_log_path : string := "/opt/usr/share/live_magazine/log/slave.200".

(** Two call records: one of the slave at [1], in package "foo", and a
    later one of the slave at [2], in package "bar". *)
Definition foo_call : fault_info :=
  {| fi_slave := 1%N; fi_timestamp := 0; fi_pkgname := "foo";
     fi_filename := "f.c"; fi_func := "do_work" |}.

Definition bar_call_of_other : fault_info :=
  {| fi_slave := 2%N; fi_timestamp := 0; fi_pkgname := "bar";
     fi_filename := "g.c"; fi_func := "other" |}.

(** A later call record of the slave at [1], in package "bar". *)
Definition bar_call : fault_info :=
  {| fi_slave := 1%N; fi_timestamp := 0; fi_pkgname := "bar";
     fi_filename := "g.c"; fi_func := "other" |}.

(** A running slave at address [1], process [200], resumed, with one
    instance and one package loaded. *)
Definition running_slave : slave_node Q :=
  demo_slave SLAVE_RESUMED 200 2 1 1 0%Q.

(** The slave at [1] crashes [n] times; after each crash but the last it
    says hello again.  [crash] and [hello] are [slave_deactivated_by_fault]
    and [slave_activated] of one build. *)
Fixpoint crash_storm {time_t}
    (crash : slave_ptr -> M time_t slave_ptr) (hello : slave_ptr -> M time_t lb_status)
    (n : nat) (w : world time_t) : option (world time_t) :=
  match n with
  | O => Some w
  | S n' =>
      match crash 1%N w with
      | Some (_, w1) =>
          match n' with
          | O => Some w1
          | S _ =>
              match hello 1%N w1 with
              | Some (_, w2) => crash_storm crash hello n' w2
              | None => None
              end
          end
      | None => None
      end
  end.

(** How often the launcher was called, and how often the observer at
    [cb] was called. *)
Fixpoint launch_count (tr : list effect) : nat :=
  match tr with
  | [] => O
  | aul_launch_app_call _ _ :: tr' => S (launch_count tr')
  | _ :: tr' => launch_count tr'
  end.

Fixpoint evt_cb_count (cb : N) (tr : list effect) : nat :=
  match tr with
  | [] => O
  | evt_cb_call cb' _ _ :: tr' =>
      if N.eqb cb' cb then S (evt_cb_count cb tr') else evt_cb_count cb tr'
  | _ :: tr' => evt_cb_count cb tr'
  end.

(** The running slave of the build without [_USE_ECORE_TIME_GET]. *)
Definition running_slave_timeval : slave_node timeval :=
  demo_slave SLAVE_RESUMED 200 2 1 1 {| tv_sec := 0; tv_usec := 0 |}.

(** A crash log that holds the line of scenario 3 of the specification,
    with its newline. *)
Definition log_with_newline : gmap string string :=
  {[ demo_log_path := "liblive-foo.so" +:+ String LF "" ]}.

(** A crash log that holds the name of the library and nothing else. *)
Definition log_without_newline : gmap string string :=
  {[ demo_log_path := "liblive-foo.so" ]}.

(** The world before any slave is created. *)
Definition empty_world {time_t} : world time_t :=
  {| slave_list := []; deactivate_all_refcnt := 0; slaves := ∅;
     call_list := []; fault_mark_count := 0; files := ∅; tick := 0; trace := [] |}.

(** Two slaves are created, "first" and then "second", of the default
    abi and without security or network; then a slave is looked for. *)
Definition two_slaves_then_find : M Q slave_ptr :=
  let* a := slave_create demo_platform 0%Q "first" 0 "c" "pkg.first" 0 in
  let* b := slave_create demo_platform 0%Q "second" 0 "C" "pkg.second" 0 in
  slave_find_available demo_platform "c" 0 0.

(** * More vocabulary and scenarios *)

Section V.
Context {time_t : Type}.
Implicit Types (w : world time_t) (s : slave_node time_t).
Definition marks_balanced w : Prop :=
  fault_mark_count w = Z.of_nat (length (call_list w)).
End V.


(** The calls of the observers [l], in the order of the list. *)
Definition evt_cb_calls (l : list event) : list effect :=
  map (fun ev => evt_cb_call (evt_cb ev) (ev_slave ev) (cbdata ev)) l.

(** The list [current] of a slave after the observers [pending] have been
    called one after the other from the instant [t] on: the node of an
    observer that answers a negative value is taken off the list. *)
Fixpoint after_calls (P : platform) (t : nat) (current pending : list event)
  : list event :=
  match pending with
  | [] => current
  | ev :: pending' =>
      after_calls P (S t)
        (if evt_cb_result P t (evt_cb ev) <? 0
         then eina_list_remove event_eqb current ev else current)
        pending'
  end.

(** The observers of [l], called from the instant [t] on, that do not
    answer a negative value. *)
Fixpoint survivors (P : platform) (t : nat) (l : list event) : list event :=
  match l with
  | [] => []
  | ev :: l' =>
      if evt_cb_result P t (evt_cb ev) <? 0 then survivors P (S t) l'
      else ev :: survivors P (S t) l'
  end.

(** The number of observers of [l], called from the instant [t] on, that
    answer [SLAVE_NEED_TO_REACTIVATE], added to [acc]. *)
Fixpoint reactivation_votes (P : platform) (t : nat) (l : list event) (acc : Z) : Z :=
  match l with
  | [] => acc
  | ev :: l' =>
      let r := evt_cb_result P t (evt_cb ev) in
      reactivation_votes P (S t) l'
        (if r <? 0 then acc
         else if r =? SLAVE_NEED_TO_REACTIVATE P then int_incr acc else acc)
  end.

(** The registrations of the pair [(cb, data_)] in a list of observers. *)
Definition registrations (cb data_ : N) (l : list event) : nat :=
  length (List.filter (fun ev => N.eqb (evt_cb ev) cb && N.eqb (cbdata ev) data_) l).

Section MoreVocabulary.
Context {time_t : Type}.
Implicit Types (w : world time_t) (s : slave_node time_t).

(** [field] and [set_field] read and write one list of observers of a
    slave record, and nothing else of it. *)
Definition is_list_field (field : slave_node time_t -> list event)
    (set_field : list event -> slave_node time_t -> slave_node time_t) : Prop :=
  (forall l s, field (set_field l s) = l)
  /\ (forall l l' s, set_field l (set_field l' s) = set_field l s)
  /\ (forall s, set_field (field s) s = s).

End MoreVocabulary.

(** The answers of the observers of [l], called from the instant [t] on. *)
Fixpoint answers (P : platform) (t : nat) (l : list event) : list Z :=
  match l with
  | [] => []
  | ev :: l' => evt_cb_result P t (evt_cb ev) :: answers P (S t) l'
  end.

Section MoreVocabulary2.
Context {time_t : Type}.

(** The function of slave_life.c that calls the observers of an event
    kind. *)
Definition invoke_event_cb (P : platform) (kind : slave_event) (slave : slave_ptr)
  : M time_t unit :=
  match kind with
  | SLAVE_EVENT_ACTIVATE => invoke_activate_cb P slave
  | SLAVE_EVENT_DEACTIVATE => invoke_deactivate_cb P slave >> ret tt
  | SLAVE_EVENT_DELETE => invoke_delete_cb P slave
  | SLAVE_EVENT_FAULT => invoke_fault_cb P slave
  | SLAVE_EVENT_PAUSE => invoke_paused_cb P slave
  | SLAVE_EVENT_RESUME => invoke_resumed_cb P slave
  end.

End MoreVocabulary2.

Section RegistryVocabulary.
Context {time_t : Type}.
Implicit Types (w : world time_t) (s : slave_node time_t).

(** [r] is the first slave of the list [l] whose record satisfies [sel],
    or [NULL] when the list has none. *)
Definition first_in w (sel : slave_node time_t -> bool) (l : list slave_ptr)
    (r : slave_ptr) : Prop :=
  (r = NULL
   /\ forall p s, In p l -> slaves w !! p = Some s -> sel s = false)
  \/ (exists before after s,
        l = before ++ r :: after
        /\ live w r s /\ sel s = true
        /\ forall p s', In p before -> slaves w !! p = Some s' -> sel s' = false).

End RegistryVocabulary.

(** The deletion of a timer a slave holds, if it holds one. *)
Definition timer_deletion (timer : option Ecore_Timer) : list effect :=
  match timer with
  | Some t => [ecore_timer_del t]
  | None => []
  end.

Section StampVocabulary.
Context {time_t : Type}.

(** What the block that fills [activated_at] does in either build: it
    asks the clock once, writes [activated_at] and nothing else of the
    slave, and may report an error. *)
Definition only_stamps (stamp : slave_ptr -> M time_t unit) : Prop :=
  forall slave (w : world time_t) s,
    live w slave s ->
    exists at_ errs,
      stamp slave w
      = Some (tt, set_tick (1 + tick w)
                    (set_trace (trace w ++ errs)
                       (set_slaves (<[slave := set_activated_at at_ s]> (slaves w)) w))).

End StampVocabulary.

Section RestVocabulary.
Context {time_t : Type}.

(** A slave at rest: terminated, without process and without timers. *)
Definition at_rest (s : slave_node time_t) : Prop :=
  state s = SLAVE_TERMINATED /\ pid s = -1
  /\ ttl_timer s = None /\ activate_timer s = None /\ relaunch_timer s = None.

End RestVocabulary.

Section TraceVocabulary.
Context {time_t : Type}.

(** Nothing is taken back from the trace: [w'] has the trace of [w] and
    what was done since. *)
Definition trace_grows (w w' : world time_t) : Prop :=
  exists added, trace w' = trace w ++ added.

End TraceVocabulary.

Section LaunchVocabulary.
Context {time_t : Type}.

(** From [w] to [w'] the trace has only grown, and the launcher was not
    called. *)
Definition no_launch (w w' : world time_t) : Prop :=
  exists added, trace w' = trace w ++ added /\ launch_count added = 0%nat.

End LaunchVocabulary.

(** The records of the call list that belong to other slaves than
    [slave], in the order of the list. *)
Definition calls_of_others (slave : slave_ptr) (l : list fault_info) : list fault_info :=
  List.filter (fun i => negb (N.eqb (fi_slave i) slave)) l.

Section FrameVocabulary.
Context {time_t : Type}.

(** From [w] to [w'] nothing of the registry has changed but the object
    of [slave]: the other slaves, the registry list and the counter of
    the requests to stop all the slaves are the same. *)
Definition same_but (slave : slave_ptr) (w w' : world time_t) : Prop :=
  (forall p, p <> slave -> slaves w' !! p = slaves w !! p)
  /\ slave_list w' = slave_list w
  /\ deactivate_all_refcnt w' = deactivate_all_refcnt w.

(** From [w] to [w'] the slave at [slave] has been destroyed: its
    address holds nothing, it is off the registry list, and the other
    slaves are as they were. *)
Definition destroyed (slave : slave_ptr) (w w' : world time_t) : Prop :=
  (forall p, p <> slave -> slaves w' !! p = slaves w !! p)
  /\ slaves w' !! slave = None
  /\ slave_list w' = eina_list_remove N.eqb (slave_list w) slave
  /\ deactivate_all_refcnt w' = deactivate_all_refcnt w.

End FrameVocabulary.

Section FrameVocabulary2.
Context {time_t : Type}.

(** From [w] to [w'] the other slaves are as they were, the registry
    list is the same or has lost [slave], and the counter of the requests
    to stop all the slaves is the same. *)
Definition touches_only (slave : slave_ptr) (w w' : world time_t) : Prop :=
  (forall p, p <> slave -> slaves w' !! p = slaves w !! p)
  /\ (slave_list w' = slave_list w
      \/ slave_list w' = eina_list_remove N.eqb (slave_list w) slave)
  /\ deactivate_all_refcnt w' = deactivate_all_refcnt w.

End FrameVocabulary2.


(** * Proofs *)

Ltac munfold :=
  unfold bind, ret, log, modify, ask, get, deref, store.

(** Run the monadic code of the goal as far as the facts [Hn] (the slave
    address is not [NULL]) and [Hs] (what the heap holds there) allow. *)
Ltac mrun Hn Hs :=
  repeat (progress (munfold; cbn; rewrite ?Hn, ?Hs, ?lookup_insert_eq)).

(** ** The early returns of the supervisor *)

Section SlaveLifeFacts.
Context {time_t : Type}.
Implicit Types (w : world time_t) (s : slave_node time_t).

Lemma live_not_null w slave s : live w slave s -> N.eqb slave NULL = false.
Proof. intros [H _]. by apply N.eqb_neq. Qed.

Lemma int_decr_exact z : INT_MIN < z <= INT_MAX -> int_decr z = z - 1.
Proof.
  unfold int_decr, int_wrap, INT_MIN, INT_MAX. intros H.
  rewrite Z.mod_small; lia.
Qed.

Lemma int_incr_exact z : INT_MIN <= z < INT_MAX -> int_incr z = z + 1.
Proof.
  unfold int_incr, int_wrap, INT_MIN, INT_MAX. intros H.
  rewrite Z.mod_small; lia.
Qed.

Lemma int_decr_one : int_decr 1 = 0.
Proof. reflexivity. Qed.

(** C7. [slave_activate] is idempotent: on a slave that has a process id,
    and on a slave that was requested to launch, it answers
    [LB_STATUS_ERROR_ALREADY]; nothing is done to the outside (the trace
    is the same, so the launcher is not called and no timer is touched),
    the registry is the same, and the record keeps its state, its process
    id, its reference count and its three timers; the reactivation flag is
    set when the slave has a process id and is requested to terminate. *)
Theorem slave_activate_idempotent (P : platform) w slave s :
  live w slave s ->
  pid s <> -1 \/ state s = SLAVE_REQUEST_TO_LAUNCH ->
  exists w' s',
    slave_activate P slave w = Some (LB_STATUS_ERROR_ALREADY, w')
    /\ trace w' = trace w
    /\ slave_list w' = slave_list w
    /\ slaves w' !! slave = Some s'
    /\ state s' = state s /\ pid s' = pid s /\ refcnt s' = refcnt s
    /\ ttl_timer s' = ttl_timer s
    /\ activate_timer s' = activate_timer s
    /\ relaunch_timer s' = relaunch_timer s
    /\ reactivate_slave s' =
         (if negb (pid s =? -1) && slave_state_eqb (state s) SLAVE_REQUEST_TO_TERMINATE
          then 1 else reactivate_slave s).
Proof.
  intros Hl Hc. pose proof (live_not_null _ _ _ Hl) as Hn. destruct Hl as [_ Hs].
  destruct (Z.eqb_spec (pid s) (-1)) as [Hp|Hp].
  - destruct Hc as [Hc|Hc]; [done|].
    exists w, s. unfold slave_activate, slave_pid, slave_state.
    mrun Hn Hs. rewrite Hp, Hc. cbn. done.
  - apply Z.eqb_neq in Hp.
    destruct (slave_state_eqb (state s) SLAVE_REQUEST_TO_TERMINATE) eqn:Hst.
    + exists (set_slaves (<[slave := set_reactivate_slave 1 s]> (slaves w)) w),
             (set_reactivate_slave 1 s).
      unfold slave_activate, slave_pid, slave_state, slave_set_reactivation.
      mrun Hn Hs. rewrite Hp. mrun Hn Hs. rewrite Hst. mrun Hn Hs. done.
    + exists w, s. unfold slave_activate, slave_pid, slave_state.
      mrun Hn Hs. rewrite Hp. mrun Hn Hs. rewrite Hst. cbn. done.
Qed.

(** C8. [slave_resume] on a slave that is resumed or requested to resume,
    and [slave_pause] on a slave that is paused or requested to pause,
    answer [LB_STATUS_SUCCESS]; on a slave requested to launch, requested
    to terminate or terminated both answer [LB_STATUS_ERROR_INVALID]; in
    all these cases the world is left as it was: no request is sent and
    no record changes. *)
Theorem slave_resume_pause_settled (P : platform) w slave s :
  live w slave s ->
  (state s = SLAVE_RESUMED \/ state s = SLAVE_REQUEST_TO_RESUME ->
     slave_resume P slave w = Some (LB_STATUS_SUCCESS, w))
  /\ (state s = SLAVE_PAUSED \/ state s = SLAVE_REQUEST_TO_PAUSE ->
     slave_pause P slave w = Some (LB_STATUS_SUCCESS, w))
  /\ (state s = SLAVE_REQUEST_TO_LAUNCH \/ state s = SLAVE_REQUEST_TO_TERMINATE
      \/ state s = SLAVE_TERMINATED ->
     slave_resume P slave w = Some (LB_STATUS_ERROR_INVALID, w)
     /\ slave_pause P slave w = Some (LB_STATUS_ERROR_INVALID, w)).
Proof.
  intros Hl. pose proof (live_not_null _ _ _ Hl) as Hn. destruct Hl as [_ Hs].
  unfold slave_resume, slave_pause.
  repeat split; intros; mrun Hn Hs;
    repeat match goal with H : _ \/ _ |- _ => destruct H end;
    match goal with H : state s = _ |- _ => rewrite H end; reflexivity.
Qed.

(** C9. Dropping the last reference of a slave that still has a process
    id reports an error and destroys nothing: [slave_unref] answers
    [NULL], the only thing done to the outside is the error line
    ["Slave is not deactivated"] (no timer is deleted, no observer is
    called), the registry list is the same, and the heap still holds the
    record, changed only in its reference count, which is [0]. *)
Theorem slave_unref_refuses_running_slave (P : platform) w slave s :
  live w slave s ->
  refcnt s = 1 ->
  pid s <> -1 ->
  slave_unref P slave w =
    Some (NULL,
          set_trace (trace w ++ [ErrPrint "Slave is not deactivated\n"])
            (set_slaves (<[slave := set_refcnt 0 s]> (slaves w)) w)).
Proof.
  intros Hl Hr Hp. pose proof (live_not_null _ _ _ Hl) as Hn. destruct Hl as [_ Hs].
  apply Z.eqb_neq in Hp.
  unfold slave_unref, destroy_slave_node, slave_pid.
  repeat (mrun Hn Hs; rewrite ?Hr, ?Hp, ?int_decr_one). reflexivity.
Qed.

End SlaveLifeFacts.

(** ** Rules for [wp] *)

Section Wp.
Context {time_t : Type}.
Implicit Types (w : world time_t) (s : slave_node time_t).

Lemma wp_ret {A} (a : A) (Q : A -> world time_t -> Prop) w : Q a w -> wp (ret a) Q w.
Proof. done. Qed.

Lemma wp_bind {A B} (m : M time_t A) (k : A -> M time_t B) Q w :
  wp m (fun a w' => wp (k a) Q w') w -> wp (bind m k) Q w.
Proof. unfold wp, bind. destruct (m w) as [[a w']|]; done. Qed.

Lemma wp_mono {A} (m : M time_t A) (Q Q' : A -> world time_t -> Prop) w :
  wp m Q w -> (forall a w', Q a w' -> Q' a w') -> wp m Q' w.
Proof. unfold wp. destruct (m w) as [[a w']|]; auto. Qed.

Lemma wp_result {A} (m : M time_t A) Q w :
  wp m Q w -> exists a w', m w = Some (a, w') /\ Q a w'.
Proof. unfold wp. destruct (m w) as [[a w']|]; [eauto|done]. Qed.

Lemma wp_modify (f : world time_t -> world time_t) (Q : unit -> world time_t -> Prop) w :
  Q tt (f w) -> wp (modify f) Q w.
Proof. done. Qed.

Lemma wp_get (Q : world time_t -> world time_t -> Prop) w : Q w w -> wp get Q w.
Proof. done. Qed.

Lemma wp_deref_live (Q : slave_node time_t -> world time_t -> Prop) w slave s :
  live w slave s -> Q s w -> wp (deref slave) Q w.
Proof.
  intros [Hn Hs] H. unfold wp, deref. apply N.eqb_neq in Hn. by rewrite Hn, Hs.
Qed.

Lemma wp_store_live (f : slave_node time_t -> slave_node time_t)
    (Q : unit -> world time_t -> Prop) w slave s :
  live w slave s ->
  Q tt (set_slaves (<[slave := f s]> (slaves w)) w) ->
  wp (store slave f) Q w.
Proof.
  intros [Hn Hs] H. unfold wp, store, bind, deref, modify.
  apply N.eqb_neq in Hn. by rewrite Hn, Hs.
Qed.

End Wp.

(** ** The load counters are not touched by the deactivation of a slave

    Every step of [slave_deactivate] and of what it calls leaves the two
    load counters of the record as they are, as long as the record is
    there; and every step has a result. *)

Section Counters.
Context {time_t : Type}.
Variable P : platform.
Variable slave : slave_ptr.
Variables n m : Z.
Implicit Types (w : world time_t) (s : slave_node time_t).

Local Abbreviation counts := (counts n m).
Local Abbreviation keeps := (keeps slave n m).
Local Abbreviation keeps_if := (keeps_if slave n m).
Local Abbreviation kept_or_gone := (kept_or_gone slave n m).

Lemma keeps_weaken w : keeps w -> keeps_if w.
Proof. intros (s & [_ Hs] & Hc) s' Hs'. congruence. Qed.

Lemma keep_log (e : effect) (Q : unit -> world time_t -> Prop) w :
  keeps w -> (forall w', keeps w' -> Q tt w') -> wp (log e) Q w.
Proof. intros K H. apply H. exact K. Qed.

Lemma keep_ask {A} (f : nat -> A) (Q : A -> world time_t -> Prop) w :
  keeps w -> (forall a w', keeps w' -> Q a w') -> wp (ask f) Q w.
Proof. intros K H. apply H. exact K. Qed.

Lemma keep_get (Q : world time_t -> world time_t -> Prop) w :
  keeps w -> (forall w0 w', keeps w' -> Q w0 w') -> wp get Q w.
Proof. intros K H. apply H. exact K. Qed.

Lemma keep_deref (Q : slave_node time_t -> world time_t -> Prop) w :
  keeps w -> (forall s, counts s -> Q s w) -> wp (deref slave) Q w.
Proof.
  intros (s & [Hn Hs] & Hc) H. unfold wp, deref.
  apply N.eqb_neq in Hn. rewrite Hn, Hs. by apply H.
Qed.

Lemma keep_store (f : slave_node time_t -> slave_node time_t)
    (Q : unit -> world time_t -> Prop) w :
  keeps w -> (forall s, counts s -> counts (f s)) ->
  (forall w', keeps w' -> Q tt w') -> wp (store slave f) Q w.
Proof.
  intros (s & [Hn Hs] & Hc) Hf H. unfold wp, store, bind, deref, modify.
  pose proof Hn as Hn'. apply N.eqb_neq in Hn'. rewrite Hn', Hs. apply H.
  exists (f s). split; [split; [done|]|by apply Hf]. cbn. apply lookup_insert_eq.
Qed.

Lemma keep_modify (f : world time_t -> world time_t) (Q : unit -> world time_t -> Prop) w :
  keeps w -> (forall w0, slaves (f w0) = slaves w0) ->
  (forall w', keeps w' -> Q tt w') -> wp (modify f) Q w.
Proof.
  intros (s & [Hn Hs] & Hc) Hf H. apply H. exists s. split; [split; [done|]|done].
  by rewrite Hf.
Qed.

Ltac keep_step :=
  lazymatch goal with
  | |- wp (ret _) _ _ => apply wp_ret
  | |- wp (bind _ _) _ _ => apply wp_bind
  | |- wp (log _) _ _ => apply keep_log; [assumption | intros ? ?]
  | |- wp (ask _) _ _ => apply keep_ask; [assumption | intros ? ? ?]
  | |- wp get _ _ => apply keep_get; [assumption | intros ? ? ?]
  | |- wp (modify _) _ _ => apply keep_modify; [assumption | intros ?; reflexivity | intros ? ?]
  | |- wp (deref slave) _ _ => apply keep_deref; [assumption | intros ? ?]
  | |- wp (store slave _) _ _ =>
      apply keep_store; [assumption | intros ? [? ?]; split; assumption | intros ? ?]
  | |- wp (if ?b then _ else _) _ _ => destruct b eqn:?
  | |- wp (match ?x with _ => _ end) _ _ => destruct x eqn:?
  end.

Lemma keep_timer_add interval cb (Q : option Ecore_Timer -> world time_t -> Prop) w :
  keeps w -> (forall t w', keeps w' -> Q t w') -> wp (timer_add P interval cb slave) Q w.
Proof. intros K H. unfold timer_add. repeat keep_step; auto. Qed.

Lemma keep_timer_clear field set_field (Q : unit -> world time_t -> Prop) w :
  keeps w -> (forall t s, counts s -> counts (set_field t s)) ->
  (forall w', keeps w' -> Q tt w') -> wp (timer_clear field set_field slave) Q w.
Proof.
  intros K Hf H. unfold timer_clear. repeat keep_step; auto.
  apply keep_store; auto.
Qed.


Lemma keep_invoke_cb_loop field set_field pending (Q : unit -> world time_t -> Prop) w :
  keeps w -> (forall l s, counts s -> counts (set_field l s)) ->
  (forall w', keeps w' -> Q tt w') ->
  wp (invoke_cb_loop P field set_field slave pending) Q w.
Proof.
  intros K Hf. revert Q w K.
  induction pending as [|ev pending IH]; intros Q w K H; cbn.
  - by apply H.
  - unfold call_evt_cb. repeat keep_step; auto.
    apply keep_store; auto.
Qed.

Lemma keep_invoke_cb field set_field (Q : unit -> world time_t -> Prop) w :
  keeps w -> (forall l s, counts s -> counts (set_field l s)) ->
  (forall w', keeps w' -> Q tt w') ->
  wp (invoke_cb P field set_field slave) Q w.
Proof.
  intros K Hf H. unfold invoke_cb. repeat keep_step.
  by apply keep_invoke_cb_loop.
Qed.

Lemma keep_invoke_deactivate_cb_loop pending votes (Q : Z -> world time_t -> Prop) w :
  keeps w -> (forall v w', keeps w' -> Q v w') ->
  wp (invoke_deactivate_cb_loop P slave pending votes) Q w.
Proof.
  revert votes Q w.
  induction pending as [|ev pending IH]; intros votes Q w K H; cbn.
  - by apply H.
  - unfold call_evt_cb. repeat keep_step; auto.
Qed.

Lemma keep_timer_del_if timer (Q : unit -> world time_t -> Prop) w :
  keeps w -> (forall w', keeps w' -> Q tt w') -> wp (timer_del_if timer) Q w.
Proof. intros K H. unfold timer_del_if. repeat keep_step; auto. Qed.

Lemma keep_destroy_slave_node (Q : unit -> world time_t -> Prop) w :
  keeps w -> (forall w', keeps_if w' -> Q tt w') ->
  wp (destroy_slave_node P slave) Q w.
Proof.
  intros K H. unfold destroy_slave_node, slave_pid. repeat keep_step.
  - apply H. by apply keeps_weaken.
  - unfold invoke_delete_cb. apply keep_invoke_cb; [done|by intros ? ? [? ?]|].
    intros w5 K5. repeat keep_step.
    apply keep_timer_del_if; [done|]. intros w8 K8. apply wp_bind.
    apply keep_timer_del_if; [done|]. intros w9 K9. apply wp_bind.
    apply keep_timer_del_if; [done|]. intros w10 K10.
    apply H. intros s' Hs'. cbn in Hs'. by rewrite lookup_delete_eq in Hs'.
Qed.

Lemma keep_slave_unref (Q : slave_ptr -> world time_t -> Prop) w :
  keeps w -> (forall r w', kept_or_gone r w' -> Q r w') ->
  wp (slave_unref P slave) Q w.
Proof.
  intros K H. pose proof K as (s0 & [Hn _] & _). apply N.eqb_neq in Hn.
  unfold slave_unref. rewrite Hn. repeat keep_step.
  - apply H. right. split; [done|]. by apply keeps_weaken.
  - apply keep_destroy_slave_node; [done|]. intros w3 K3.
    apply H. by right.
  - apply H. by left.
Qed.

Lemma keep_slave_ref (Q : slave_ptr -> world time_t -> Prop) w :
  keeps w -> (forall r w', keeps w' -> Q r w') -> wp (slave_ref slave) Q w.
Proof.
  intros K H. pose proof K as (s0 & [Hn _] & _). apply N.eqb_neq in Hn.
  unfold slave_ref. rewrite Hn. repeat keep_step. by apply H.
Qed.

Lemma keep_slave_activate (Q : lb_status -> world time_t -> Prop) w :
  keeps w -> (forall r w', keeps w' -> Q r w') -> wp (slave_activate P slave) Q w.
Proof.
  intros K H. pose proof K as (s0 & [Hn _] & _). apply N.eqb_neq in Hn.
  unfold slave_activate, slave_pid, slave_state, slave_set_reactivation.
  rewrite Hn.
  repeat first
    [ keep_step
    | apply keep_timer_add; [assumption | intros ? ? ?]
    | apply keep_slave_ref; [assumption | intros ? ? ?] ];
    by apply H.
Qed.

Lemma keep_slave_deactivated (Q : slave_ptr -> world time_t -> Prop) w :
  keeps w -> (forall r w', kept_or_gone r w' -> Q r w') ->
  wp (slave_deactivated P slave) Q w.
Proof.
  intros K H. pose proof K as (s0 & [Hn _] & _). apply N.eqb_neq in Hn.
  unfold slave_deactivated, invoke_deactivate_cb.
  repeat first
    [ keep_step
    | apply keep_timer_clear; [assumption | by intros ? ? [? ?] | intros ? ?]
    | apply keep_invoke_deactivate_cb_loop; [assumption | intros ? ? ?] ].
  apply keep_slave_unref; [done|]. intros r w7 [[-> K7]|[-> K7]].
  - rewrite Hn. unfold slave_need_to_reactivate, slave_loaded_instance.
    repeat first
      [ keep_step
      | apply keep_slave_activate; [assumption | intros ? ? ?] ];
      try (apply H; by left).
    apply keep_slave_unref; [done|]. intros; by apply H.
  - cbn. apply H. by right.
Qed.

Lemma keep_slave_deactivate (Q : slave_ptr -> world time_t -> Prop) w :
  keeps w -> (forall r w', kept_or_gone r w' -> Q r w') ->
  wp (slave_deactivate P slave) Q w.
Proof.
  intros K H.
  unfold slave_deactivate, slave_is_activated, slave_loaded_instance, slave_pid.
  repeat first
    [ keep_step
    | apply keep_slave_unref; [assumption | intros ? ? ?]
    | apply keep_slave_deactivated; [assumption | intros ? ? ?] ];
    try (apply H; first [assumption | by left]).
Qed.

Lemma keep_slave_unload_instance w s :
  live w slave s ->
  0 < loaded_instance s <= INT_MAX ->
  loaded_instance s - 1 = n ->
  loaded_package s = m ->
  wp (slave_unload_instance P slave) kept_or_gone w.
Proof.
  intros Hl H0 Hi Hp. pose proof Hl as [Hn Hs]. apply N.eqb_neq in Hn.
  unfold slave_unload_instance. rewrite Hn.
  apply wp_bind, wp_bind. eapply wp_deref_live; [exact Hl|].
  replace (loaded_instance s =? 0) with false by (symmetry; apply Z.eqb_neq; lia).
  cbn beta iota. apply wp_bind. eapply wp_store_live; [exact Hl|].
  rewrite int_decr_exact by (unfold INT_MIN; lia).
  set (w1 := set_slaves _ w).
  assert (K1 : keeps w1).
  { exists (set_loaded_instance (loaded_instance s - 1) s). split; [split|].
    - by destruct Hl.
    - cbn. apply lookup_insert_eq.
    - by split. }
  clearbody w1. clear Hl Hs H0 Hi Hp. revert w1 K1. intros w1 K1.
  unfold slave_is_activated, slave_set_reactivation, slave_set_reactivate_instances.
  repeat first
    [ keep_step
    | apply keep_slave_deactivate; [assumption | intros ? ? ?] ];
    first [assumption | by left].
Qed.

(** The fault manager does not touch the slave objects. *)

Lemma keep_unlink path (Q : Z -> world time_t -> Prop) w :
  keeps w -> (forall r w', keeps w' -> Q r w') -> wp (unlink path) Q w.
Proof. intros K H. unfold unlink. repeat keep_step; by apply H. Qed.

Lemma keep_check_log_file (Q : option string -> world time_t -> Prop) w :
  keeps w -> (forall r w', keeps w' -> Q r w') -> wp (check_log_file P slave) Q w.
Proof.
  intros K H. unfold check_log_file, slave_pid.
  repeat first [ keep_step | apply keep_unlink; [assumption | intros ? ? ?] ];
    by apply H.
Qed.

Lemma keep_fault_broadcast_info pkgname filename func (Q : unit -> world time_t -> Prop) w :
  keeps w -> (forall w', keeps w' -> Q tt w') ->
  wp (fault_broadcast_info P pkgname filename func) Q w.
Proof. intros K H. unfold fault_broadcast_info. repeat keep_step; by apply H. Qed.

Lemma keep_check_call_marks pending checked kept
    (Q : list fault_info -> world time_t -> Prop) w :
  keeps w -> (forall r w', keeps w' -> Q r w') ->
  wp (check_call_marks P slave pending checked kept) Q w.
Proof.
  revert checked kept Q w.
  induction pending as [|info pending IH]; intros checked kept Q w K H; cbn.
  - by apply H.
  - destruct (N.eqb_spec (fi_slave info) slave) as [->|_]; [|by apply IH].
    unfold slave_name, slave_pid.
    repeat first
      [ keep_step
      | apply keep_fault_broadcast_info; [assumption | intros ? ?] ];
      by apply IH.
Qed.

Lemma clear_log_file_count (Q : unit -> world time_t -> Prop) w :
  keeps w -> fault_mark_count w = 0 ->
  (forall w', keeps w' -> fault_mark_count w' = 0 -> Q tt w') ->
  wp (clear_log_file P slave) Q w.
Proof.
  intros K H0 H. pose proof K as (s & [Hn Hs] & Hc). apply N.eqb_neq in Hn.
  unfold wp, clear_log_file, slave_pid, unlink. mrun Hn Hs.
  destruct (files w !! log_filename P (pid s)); cbn; by apply H.
Qed.

Lemma blame_package_count pkgname w :
  keeps w ->
  wp (blame_package P slave pkgname) (fun r w' => r = 0 /\ fault_mark_count w' = 0) w.
Proof.
  intros K. unfold blame_package, slave_name, slave_pid.
  repeat lazymatch goal with
         | |- wp (modify (set_fault_mark_count 0)) _ _ => fail
         | _ => first [ keep_step
                      | apply keep_fault_broadcast_info; [assumption | intros ? ?] ]
         end.
  apply wp_modify. apply wp_bind.
  apply clear_log_file_count; [|done|].
  { match goal with K : keeps ?w |- keeps (_ ?w) => destruct K as (s' & ? & ?) end.
    by exists s'. }
  intros wz Kz Hz. by apply wp_bind, wp_modify, wp_ret.
Qed.

Lemma fault_check_pkgs_count w :
  keeps w ->
  wp (fault_check_pkgs P slave) (fun r w' => r = 0 /\ fault_mark_count w' = 0) w.
Proof.
  intros K. unfold fault_check_pkgs. apply wp_bind.
  apply keep_check_log_file; [done|]. intros r w1 K1.
  repeat lazymatch goal with
         | |- wp (blame_package _ _ _) _ _ => fail
         | |- wp (bind get _) _ _ => fail
         | _ => keep_step
         end;
    try by apply blame_package_count.
  all: apply wp_bind, wp_get, wp_bind.
  all: apply keep_check_call_marks; [done|]; intros kept w2 K2.
  all: apply wp_bind, wp_modify, wp_bind, wp_modify, wp_bind.
  all: apply clear_log_file_count; [|done|by intros; apply wp_ret].
  all: destruct K2 as (s' & ? & ?); by exists s'.
Qed.

End Counters.

(** ** The load counters *)

Section LoadCounters.
Context {time_t : Type}.
Implicit Types (w : world time_t) (s : slave_node time_t).

(** C10. The load counters do not go below zero through the unload
    operations: [slave_unload_package] on a slave without a loaded package
    and [slave_unload_instance] on a slave without a loaded instance only
    report an error and leave the world, hence the whole record, as it
    was; on a positive counter [slave_unload_package] takes one off and
    changes nothing else, and [slave_unload_instance] takes one off, and
    whatever the deactivation it may start does, the record, if it is
    still there afterwards, has that counter and the same package
    counter. *)
Theorem unload_keeps_counters_nonnegative (P : platform) w slave s :
  live w slave s ->
  (loaded_package s = 0 ->
     slave_unload_package slave w =
       Some (tt, set_trace (trace w ++ [ErrPrint "Slave loaded package is not correct\n"]) w))
  /\ (loaded_instance s = 0 ->
     slave_unload_instance P slave w =
       Some (slave,
             set_trace (trace w ++ [ErrPrint "Slave loaded instance is not correct\n"]) w))
  /\ (0 < loaded_package s <= INT_MAX ->
     slave_unload_package slave w =
       Some (tt, set_slaves (<[slave := set_loaded_package (loaded_package s - 1) s]>
                               (slaves w)) w)
     /\ 0 <= loaded_package s - 1)
  /\ (0 < loaded_instance s <= INT_MAX ->
     exists r w',
       slave_unload_instance P slave w = Some (r, w')
       /\ (r = slave \/ r = NULL)
       /\ 0 <= loaded_instance s - 1
       /\ forall s', slaves w' !! slave = Some s' ->
            loaded_instance s' = loaded_instance s - 1
            /\ loaded_package s' = loaded_package s).
Proof.
  intros Hl. pose proof (live_not_null _ _ _ Hl) as Hn. pose proof Hl as [_ Hs].
  split; [|split; [|split]].
  - intros H0. unfold slave_unload_package. mrun Hn Hs. rewrite H0. reflexivity.
  - intros H0. unfold slave_unload_instance. mrun Hn Hs. rewrite H0. reflexivity.
  - intros H0. split; [|lia]. unfold slave_unload_package. mrun Hn Hs.
    replace (loaded_package s =? 0) with false by (symmetry; apply Z.eqb_neq; lia).
    mrun Hn Hs. rewrite int_decr_exact by (unfold INT_MIN; lia). reflexivity.
  - intros H0.
    assert (Hwp : wp (slave_unload_instance P slave)
                    (kept_or_gone slave (loaded_instance s - 1) (loaded_package s)) w)
      by (by apply (keep_slave_unload_instance P slave _ _ w s)).
    apply wp_result in Hwp as (r & w' & E & [[-> K]|[-> K]]).
    + exists slave, w'. repeat split; [done|by left|lia|..];
        destruct K as (s1 & [_ Hs1] & [? ?]); congruence.
    + exists NULL, w'. repeat split; [done|by right|lia|..]; by destruct (K _ H).
Qed.

End LoadCounters.

(** ** The choice of a slave *)

Section Registry.
Context {time_t : Type}.
Implicit Types (w : world time_t) (s : slave_node time_t).

Lemma strcaseeq_right a b c :
  strcaseeq a b = true -> strcaseeq b c = strcaseeq a c.
Proof.
  revert b c. induction a as [|x a IH]; intros [|y b] [|z c]; cbn; try done.
  intros H. apply andb_true_iff in H as [Hxy Hab].
  apply Ascii.eqb_eq in Hxy. rewrite Hxy. f_equal. by apply IH.
Qed.

(** One turn of the loop of [slave_find_available] takes the slave
    exactly when [available] holds of it. *)
Lemma slave_find_available_loop_cons (P : platform) abi_req secured_req network_req
    w slave s l :
  live w slave s ->
  slave_find_available_loop P abi_req secured_req network_req (slave :: l) w =
    if available P abi_req secured_req network_req s then Some (slave, w)
    else slave_find_available_loop P abi_req secured_req network_req l w.
Proof.
  intros Hl. pose proof (live_not_null _ _ _ Hl) as Hn. destruct Hl as [_ Hs].
  cbn [slave_find_available_loop]. unfold available.
  munfold. rewrite Hn, Hs.
  destruct (secured s =? secured_req); cbn; [|done].
  destruct (slave_state_eqb (state s) SLAVE_REQUEST_TO_TERMINATE && (loaded_instance s =? 0));
    cbn; [done|].
  destruct (strcaseeq (abi s) abi_req) eqn:Habi; cbn; [|done].
  rewrite (strcaseeq_right _ _ (DEFAULT_ABI P) Habi).
  destruct (secured s =? 0); cbn.
  - destruct (network s =? network_req); cbn; [|done].
    destruct (strcaseeq (abi s) (DEFAULT_ABI P)); cbn; [|done].
    by destruct (loaded_package s <? SLAVE_MAX_LOAD P).
  - by destruct (loaded_package s =? 0).
Qed.

Lemma slave_find_available_loop_first (P : platform) abi_req secured_req network_req
    w l :
  (forall slave, In slave l -> slave <> NULL /\ exists s, slaves w !! slave = Some s) ->
  exists r,
    slave_find_available_loop P abi_req secured_req network_req l w = Some (r, w)
    /\ ((r = NULL
         /\ forall slave, In slave l ->
              ~ available_at P abi_req secured_req network_req w slave)
        \/ (exists before after,
              l = before ++ r :: after
              /\ available_at P abi_req secured_req network_req w r
              /\ forall slave, In slave before ->
                   ~ available_at P abi_req secured_req network_req w slave)).
Proof.
  induction l as [|slave l IH]; intros Hok.
  - exists NULL. split; [done|]. left. split; [done|]. intros ? [].
  - destruct (Hok slave) as (Hn & s & Hs); [by left|].
    rewrite (slave_find_available_loop_cons P _ _ _ w slave s l) by done.
    destruct (available P abi_req secured_req network_req s) eqn:Hav.
    + exists slave. split; [done|]. right. exists [], l. split; [done|].
      split; [by exists s|]. intros ? [].
    + destruct IH as (r & E & Hr); [intros; apply Hok; by right|].
      exists r. split; [done|].
      assert (Hno : ~ available_at P abi_req secured_req network_req w slave).
      { intros (s' & Hs' & Hav'). congruence. }
      destruct Hr as [[-> Hnone]|(before & after & -> & Hr & Hbefore)].
      * left. split; [done|]. intros p [<-|Hp]; [done|by apply Hnone].
      * right. exists (slave :: before), after. split; [done|]. split; [done|].
        intros p [<-|Hp]; [done|by apply Hbefore].
Qed.

(** C3. [slave_find_available] answers the first slave of the registry
    list, in the order of the list, that satisfies the five conditions of
    [available]; it answers [NULL] when no slave of the list satisfies
    them; and it changes nothing. *)
Theorem slave_find_available_first (P : platform) abi_req secured_req network_req w :
  registry_ok w ->
  exists r,
    slave_find_available P abi_req secured_req network_req w = Some (r, w)
    /\ ((r = NULL
         /\ forall slave, In slave (slave_list w) ->
              ~ available_at P abi_req secured_req network_req w slave)
        \/ (exists before after,
              slave_list w = before ++ r :: after
              /\ available_at P abi_req secured_req network_req w r
              /\ forall slave, In slave before ->
                   ~ available_at P abi_req secured_req network_req w slave)).
Proof.
  intros Hok. unfold slave_find_available. munfold.
  by apply slave_find_available_loop_first.
Qed.

End Registry.

(** ** The fault manager *)

Section FaultManagerFacts.
Context {time_t : Type}.
Implicit Types (w : world time_t) (s : slave_node time_t).

(** C4. Whatever the call list, the crash log and the counter are, and
    whichever of its three steps blames a package, [fault_check_pkgs] on a
    slave has a result, answers [0], and leaves [fault_mark_count] at
    zero. *)
Theorem fault_mark_count_zero_after_check (P : platform) w slave s :
  live w slave s ->
  exists w', fault_check_pkgs P slave w = Some (0, w') /\ fault_mark_count w' = 0.
Proof.
  intros Hl.
  assert (K : keeps slave (loaded_instance s) (loaded_package s) w).
  { exists s. split; [exact Hl|]. by split. }
  apply (fault_check_pkgs_count P) in K.
  apply wp_result in K as (r & w' & E & -> & H0). by exists w'.
Qed.

Lemma int_decr_incr z : int_range z -> int_decr (int_incr z) = z.
Proof.
  unfold int_range, int_decr, int_incr, int_wrap, INT_MIN, INT_MAX. intros H.
  destruct (Z.eq_dec z (2 ^ 31 - 1)) as [->|Hne]; [reflexivity|].
  rewrite (Z.mod_small (z + 1 - - 2 ^ 31)) by lia.
  rewrite Z.mod_small; lia.
Qed.

Lemma remove_first_call_continue slave pkgname filename func info :
  negb (N.eqb (fi_slave info) slave)
  || negb (String.eqb (fi_pkgname info) pkgname)
  || negb (String.eqb (fi_filename info) filename)
  || negb (String.eqb (fi_func info) func)
  = negb (same_call slave pkgname filename func info).
Proof.
  unfold same_call.
  destruct (N.eqb _ _), (String.eqb (fi_pkgname info) _),
    (String.eqb (fi_filename info) _), (String.eqb (fi_func info) _); reflexivity.
Qed.

Lemma remove_first_call_found slave pkgname filename func before old after :
  same_call slave pkgname filename func old = true ->
  (forall x, In x before -> same_call slave pkgname filename func x = false) ->
  remove_first_call slave pkgname filename func (before ++ old :: after)
  = Some (before ++ after).
Proof.
  intros Hold. induction before as [|x before IH]; intros Hb; cbn;
    rewrite remove_first_call_continue.
  - by rewrite Hold.
  - rewrite (Hb x) by (by left). cbn. rewrite IH; [done|]. intros; apply Hb; by right.
Qed.

Lemma same_call_refl slave pkgname filename func ts :
  same_call slave pkgname filename func
    {| fi_slave := slave; fi_timestamp := ts; fi_pkgname := pkgname;
       fi_filename := filename; fi_func := func |} = true.
Proof.
  unfold same_call. cbn. by rewrite N.eqb_refl, !String.eqb_refl.
Qed.

Lemma remove_first_call_some slave pkgname filename func l info :
  same_call slave pkgname filename func info = true ->
  exists l', remove_first_call slave pkgname filename func (l ++ [info]) = Some l'.
Proof.
  intros Hi. induction l as [|x l [l' IH]]; cbn; rewrite remove_first_call_continue.
  - rewrite Hi. by eexists.
  - destruct (same_call slave pkgname filename func x); cbn; [by eexists|].
    rewrite IH. by eexists.
Qed.

(** C5, as the code has it. [fault_func_call] followed by [fault_func_ret]
    with the same arguments brings [fault_mark_count] back to its value.
    The return takes the first record of the list that matches: when no
    record of the prior list matches the arguments, the call list is
    back to what it was; when one does, the first of them is taken out
    and the record just appended stays at the end. *)
Theorem call_then_return (P : platform) w slave pkgname filename func :
  (forall t, alloc_ok P t = true) ->
  int_range (fault_mark_count w) ->
  let info := {| fi_slave := slave; fi_timestamp := util_timestamp P (tick w + 4)%nat;
                 fi_pkgname := pkgname; fi_filename := filename; fi_func := func |} in
  exists w1 w2,
    fault_func_call P slave pkgname filename func w = Some (LB_STATUS_SUCCESS, w1)
    /\ call_list w1 = call_list w ++ [info]
    /\ fault_func_ret slave pkgname filename func w1 = Some (LB_STATUS_SUCCESS, w2)
    /\ fault_mark_count w2 = fault_mark_count w
    /\ ((forall x, In x (call_list w) -> same_call slave pkgname filename func x = false) ->
        call_list w2 = call_list w)
    /\ (forall before old after,
          call_list w = before ++ old :: after ->
          same_call slave pkgname filename func old = true ->
          (forall x, In x before -> same_call slave pkgname filename func x = false) ->
          call_list w2 = before ++ after ++ [info]).
Proof.
  intros Hal Hr info.
  assert (Hi : same_call slave pkgname filename func info = true)
    by apply same_call_refl.
  destruct (remove_first_call_some slave pkgname filename func (call_list w) info Hi)
    as [l' El].
  assert (Ht : S (S (S (S (tick w)))) = (tick w + 4)%nat) by lia.
  eexists _, _. split.
  { unfold fault_func_call. repeat (progress (munfold; cbn; rewrite ?Hal)). reflexivity. }
  cbn. rewrite !Ht. fold info. split; [done|]. split.
  { unfold fault_func_ret. munfold. cbn. rewrite ?Ht. fold info. rewrite El. cbn.
    reflexivity. }
  cbn. split; [by apply int_decr_incr|]. split.
  - intros Hnone.
    rewrite (remove_first_call_found _ _ _ _ (call_list w) info [] Hi Hnone) in El.
    rewrite app_nil_r in El. congruence.
  - intros before old after Hsplit Hold Hbefore.
    rewrite Hsplit, <- app_assoc in El. cbn in El.
    rewrite remove_first_call_found in El by done. congruence.
Qed.

Lemma broadcasts_app tr1 tr2 : broadcasts (tr1 ++ tr2) = broadcasts tr1 ++ broadcasts tr2.
Proof.
  induction tr1 as [|e tr1 IH]; [done|]. destruct e; cbn; by rewrite ?IH.
Qed.

Lemma fault_dumps_app tr1 tr2 :
  fault_dumps (tr1 ++ tr2) = fault_dumps tr1 ++ fault_dumps tr2.
Proof.
  induction tr1 as [|e tr1 IH]; [done|]. destruct e; cbn; by rewrite ?IH.
Qed.

Lemma check_call_marks_run (P : platform) slave s pending :
  (forall t, alloc_ok P t = true) ->
  forall checked kept w,
  live w slave s ->
  exists w' added,
    check_call_marks P slave pending checked kept w
    = Some (rev (List.filter (fun i => negb (blamable P slave i)) pending) ++ kept, w')
    /\ slaves w' = slaves w
    /\ files w' = files w
    /\ fault_mark_count w' = fault_mark_count w
    /\ trace w' = trace w ++ added
    /\ broadcasts added =
         (if checked then []
          else match List.filter (blamable P slave) pending with
               | [] => []
               | latest :: _ => [call_triple latest]
               end)
    /\ fault_dumps added =
         map call_triple
           (if checked then List.filter (blamable P slave) pending
            else tl (List.filter (blamable P slave) pending)).
Proof.
  intros Hal. induction pending as [|info pending IH]; intros checked kept w Hl.
  - exists w, []. cbn. rewrite app_nil_r. by destruct checked.
  - pose proof (live_not_null _ _ _ Hl) as Hn. pose proof Hl as [Hn' Hs].
    assert (Hb : blamable P slave info
                 = N.eqb (fi_slave info) slave && package_find P (fi_pkgname info))
      by reflexivity.
    cbn [check_call_marks List.filter]. rewrite Hb. clear Hb.
    destruct (N.eqb_spec (fi_slave info) slave) as [Heq|Hne]; cbn [andb negb].
    + destruct (package_find P (fi_pkgname info)) eqn:Hpf; cbn [negb].
      * destruct checked; cbn [negb].
        -- rewrite Heq. unfold slave_name, slave_pid. mrun Hn Hs.
           edestruct (IH true kept) as (w' & added & E & H1 & H2 & H3 & H4 & H5 & H6);
             [|rewrite E]. { split; [done|]. cbn. exact Hs. }
           exists w', (dump_fault_info (name s) (pid s) (fi_pkgname info)
                         (fi_filename info) (fi_func info) :: added).
           cbn in *. rewrite H4, <- app_assoc, H5, H6. done.
        -- unfold fault_broadcast_info. mrun Hn Hs. rewrite !Hal. mrun Hn Hs.
           edestruct (IH true kept) as (w' & added & E & H1 & H2 & H3 & H4 & H5 & H6);
             [|rewrite E]. { split; [done|]. cbn. exact Hs. }
           exists w', ([package_set_fault_info (fi_pkgname info) (fi_timestamp info)
                          (Some (fi_filename info)) (Some (fi_func info));
                        client_broadcast (fi_pkgname info) (fi_filename info) (fi_func info);
                        ErrPrint "Set fault %s(%d)\n"] ++ added).
           cbn in *. rewrite H4, <- !app_assoc, H5, H6. done.
      * mrun Hn Hs.
        edestruct (IH checked (info :: kept)) as (w' & added & E & H1 & H2 & H3 & H4 & H5 & H6);
          [|rewrite E]. { split; [done|]. cbn. exact Hs. }
        exists w', (ErrPrint "Failed to find a package %s\n" :: added).
        cbn in *. rewrite H4, <- !app_assoc, H5, H6. done.
    + edestruct (IH checked (info :: kept)) as (w' & added & E & H1 & H2 & H3 & H4 & H5 & H6);
        [exact Hl|rewrite E].
      exists w', added. cbn. rewrite <- app_assoc. done.
Qed.

Lemma quiet_refl w0 : quiet w0 w0.
Proof. repeat split. exists []. by rewrite app_nil_r. Qed.

Lemma quiet_log (e : effect) (Q : unit -> world time_t -> Prop) w0 w :
  quiet w0 w -> broadcasts [e] = [] -> fault_dumps [e] = [] ->
  (forall w', quiet w0 w' -> Q tt w') -> wp (log e) Q w.
Proof.
  intros (H1 & H2 & errs & H3 & H4 & H5) Hb Hd H. apply H.
  repeat split; try done. exists (errs ++ [e]). cbn.
  by rewrite H3, app_assoc, broadcasts_app, fault_dumps_app, H4, H5, Hb, Hd.
Qed.

Lemma quiet_ask {A} (f : nat -> A) (Q : A -> world time_t -> Prop) w0 w :
  quiet w0 w -> (forall a w', quiet w0 w' -> Q a w') -> wp (ask f) Q w.
Proof. intros K H. apply H. exact K. Qed.

Lemma quiet_unlink path (Q : Z -> world time_t -> Prop) w0 w :
  quiet w0 w -> (forall r w', quiet w0 w' -> Q r w') -> wp (unlink path) Q w.
Proof.
  intros K H. unfold unlink. apply wp_bind, wp_get.
  destruct (files w !! path); [|by apply wp_ret, H].
  apply wp_bind, wp_modify, wp_ret, H. exact K.
Qed.

(** The probe of the crash log broadcasts nothing and dumps nothing. *)
Lemma check_log_file_quiet (P : platform) w slave s :
  live w slave s ->
  wp (check_log_file P slave) (fun _ w1 => quiet w w1) w.
Proof.
  intros Hl. pose proof (quiet_refl w) as K.
  unfold check_log_file, slave_pid.
  apply wp_bind, wp_bind. eapply wp_deref_live; [exact Hl|].
  apply wp_ret, wp_bind, wp_get.
  repeat lazymatch goal with
         | |- wp (ret _) _ _ => apply wp_ret
         | |- wp (bind _ _) _ _ => apply wp_bind
         | |- wp (log _) _ _ => eapply quiet_log; [eassumption|done|done|intros ? ?]
         | |- wp (ask _) _ _ => eapply quiet_ask; [eassumption|intros ? ? ?]
         | |- wp (unlink _) _ _ => eapply quiet_unlink; [eassumption|intros ? ? ?]
         | |- wp (if ?b then _ else _) _ _ => destruct b eqn:?
         | |- wp (match ?x with _ => _ end) _ _ => destruct x eqn:?
         end; assumption.
Qed.

Lemma filter_others_of_unblamable (P : platform) slave l :
  List.filter (fun i => negb (N.eqb (fi_slave i) slave))
    (List.filter (fun i => negb (blamable P slave i)) l)
  = List.filter (fun i => negb (N.eqb (fi_slave i) slave)) l.
Proof.
  induction l as [|i l IH]; [done|]. cbn. unfold blamable at 1.
  destruct (N.eqb (fi_slave i) slave) eqn:E; cbn.
  - destruct (package_find P (fi_pkgname i)); cbn; rewrite ?E; cbn; exact IH.
  - rewrite E. cbn. by rewrite IH.
Qed.

(** C6, as the code has it. When neither the crash log nor the
    secured-slave rule names a registered package, [fault_check_pkgs]
    walks the call list from its last record: the fault is attributed to
    the most recent record of the crashing slave whose package is
    registered, and that record's package, file and function are
    broadcast; every other record of this slave whose package is
    registered is dumped as a false log; no record of this slave with a
    registered package is left in the call list, and the records of the
    other slaves are left as they were, in their order. *)
Theorem shadow_call_stack_attribution (P : platform) w slave s :
  (forall t, alloc_ok P t = true) ->
  live w slave s ->
  (forall r w1 pkg,
     check_log_file P slave w = Some (r, w1) -> r = Some pkg ->
     package_find P pkg = false) ->
  (forall pkg,
     package_find_by_secured_slave P slave = Some pkg -> package_find P pkg = false) ->
  exists w' added,
    fault_check_pkgs P slave w = Some (0, w')
    /\ trace w' = trace w ++ added
    /\ match rev (List.filter (blamable P slave) (call_list w)) with
       | [] => broadcasts added = [] /\ fault_dumps added = []
       | latest :: earlier =>
           broadcasts added = [call_triple latest]
           /\ fault_dumps added = map call_triple earlier
       end
    /\ (forall i, In i (call_list w') -> blamable P slave i = false)
    /\ List.filter (fun i => negb (N.eqb (fi_slave i) slave)) (call_list w')
       = List.filter (fun i => negb (N.eqb (fi_slave i) slave)) (call_list w)
    /\ fault_mark_count w' = 0.
Proof.
  intros Hal Hl Hlog Hsec.
  pose proof (live_not_null _ _ _ Hl) as Hn.
  destruct (wp_result _ _ _ (check_log_file_quiet P w slave s Hl))
    as (r1 & w1 & E1 & Hs1 & Hc1 & errs & Ht1 & Hb1 & Hd1).
  assert (Hl1 : live w1 slave s) by (destruct Hl; split; [done|by rewrite Hs1]).
  destruct (check_call_marks_run P slave s (rev (call_list w1)) Hal false [] w1 Hl1)
    as (w2 & added & E2 & Hs2 & Hf2 & Hm2 & Ht2 & Hb2 & Hd2).
  assert (Hs2' : slaves w2 !! slave = Some s) by (rewrite Hs2; apply Hl1).
  rewrite app_nil_r, filter_rev, rev_involutive, Hc1 in E2.
  rewrite filter_rev, Hc1 in Hb2, Hd2.
  assert (Hrun : exists w',
             fault_check_pkgs P slave w = Some (0, w')
             /\ trace w' = trace w2
             /\ call_list w' = List.filter (fun i => negb (blamable P slave i)) (call_list w)
             /\ fault_mark_count w' = 0).
  { unfold fault_check_pkgs. unfold bind at 1. rewrite E1.
    replace (match r1 with
             | Some pkgname => if package_find P pkgname then Some pkgname else None
             | None => None
             end) with (@None string)
      by (destruct r1 as [pkg|]; [by rewrite (Hlog _ _ pkg E1)|done]).
    replace (match package_find_by_secured_slave P slave with
             | Some pkgname => if package_find P pkgname then Some pkgname else None
             | None => None
             end) with (@None string)
      by (destruct (package_find_by_secured_slave P slave) as [pkg|];
          [by rewrite (Hsec pkg)|done]).
    unfold bind at 1, get. unfold bind at 1. rewrite Hc1, E2.
    unfold clear_log_file, slave_pid, unlink. mrun Hn Hs2'.
    destruct (files w2 !! log_filename P (pid s)); cbn; eexists; by repeat split. }
  destruct Hrun as (w' & E & Ht & Hc & Hm).
  exists w', (errs ++ added). split; [done|]. split; [by rewrite Ht, Ht2, Ht1, app_assoc|].
  rewrite broadcasts_app, fault_dumps_app, Hb1, Hd1, Hb2, Hd2. cbn [app].
  split; [by destruct (rev (List.filter (blamable P slave) (call_list w)))|].
  rewrite Hc. split; [|split; [apply filter_others_of_unblamable|done]].
  intros i Hi. apply filter_In in Hi as [_ Hi]. by apply negb_true_iff in Hi.
Qed.

Lemma string_app_cons c a b : String c a +:+ b = String c (a +:+ b).
Proof. reflexivity. Qed.

Lemma string_length_app a b :
  String.length (a +:+ b) = (String.length a + String.length b)%nat.
Proof.
  induction a as [|c a IH]; [done|]. rewrite string_app_cons. cbn. by f_equal.
Qed.

Lemma string_free_of_app c a b :
  string_free_of c (a +:+ b) = string_free_of c a && string_free_of c b.
Proof.
  induction a as [|x a IH]; [done|]. rewrite string_app_cons. cbn.
  by rewrite IH, andb_assoc.
Qed.

Lemma fgets_bytes_whole room content :
  string_free_of LF content = true ->
  (String.length content <= room)%nat ->
  fgets_bytes room content = content.
Proof.
  revert room. induction content as [|c content IH]; intros room Hfree Hlen.
  - by destruct room.
  - destruct room as [|room]; [cbn in Hlen; lia|]. cbn in *.
    apply andb_true_iff in Hfree as [Hc Hfree]. apply negb_true_iff in Hc.
    rewrite Hc. f_equal. apply IH; [done|lia].
Qed.

Lemma cstr_whole buf : string_free_of NUL buf = true -> cstr buf = buf.
Proof.
  induction buf as [|c buf IH]; cbn; [done|]. intros Hfree.
  apply andb_true_iff in Hfree as [Hc Hfree]. apply negb_true_iff in Hc.
  rewrite Hc. f_equal. by apply IH.
Qed.

Lemma string_drop_app a b : string_drop (String.length a) (a +:+ b) = b.
Proof.
  induction a as [|c a IH]; [by destruct b|]. rewrite string_app_cons. exact IH.
Qed.

Lemma string_take_app a b : string_take (String.length a) (a +:+ b) = a.
Proof.
  induction a as [|c a IH]; [by destruct b|]. rewrite string_app_cons. cbn.
  by f_equal.
Qed.

Lemma remove_calls_of_filter slave pending kept :
  remove_calls_of slave pending kept
  = rev (List.filter (fun i => negb (N.eqb (fi_slave i) slave)) pending) ++ kept.
Proof.
  revert kept. induction pending as [|i pending IH]; intros kept; cbn; [done|].
  destruct (negb (N.eqb (fi_slave i) slave)); rewrite IH; [|done].
  cbn. by rewrite <- app_assoc.
Qed.

(** The probe of the crash log on a file that holds exactly
    ["liblive-" pkg ".so"]. *)
Lemma check_log_file_match (P : platform) w slave s pkg :
  (forall t, alloc_ok P t = true) ->
  live w slave s ->
  files w !! log_filename P (pid s) = Some ("liblive-" +:+ pkg +:+ ".so") ->
  pkg <> "" ->
  string_free_of NUL pkg = true ->
  string_free_of LF pkg = true ->
  (String.length pkg + 11 < BUFSIZ P)%nat ->
  check_log_file P slave w =
    Some (Some pkg,
          set_tick (S (tick w))
            (set_files (delete (log_filename P (pid s)) (files w)) w)).
Proof.
  intros Hal Hl Hf Hne Hnul Hlf Hlen.
  pose proof (live_not_null _ _ _ Hl) as Hn. destruct Hl as [_ Hs].
  set (content := "liblive-" +:+ pkg +:+ ".so") in *.
  assert (Hfg : fgets (BUFSIZ P) content = Some content).
  { change (fgets (BUFSIZ P) content) with (Some (fgets_bytes (BUFSIZ P - 1) content)).
    f_equal. apply fgets_bytes_whole.
    - unfold content. rewrite !string_free_of_app, Hlf. reflexivity.
    - unfold content. rewrite !string_length_app. cbn. lia. }
  assert (Hcs : cstr content = content).
  { apply cstr_whole. unfold content. rewrite !string_free_of_app, Hnul. reflexivity. }
  assert (Hps : pattern_scan "liblive-" content = 8%nat) by reflexivity.
  assert (Hdrop : string_drop 8 content = pkg +:+ ".so") by reflexivity.
  assert (Hi : Z.of_nat (String.length (pkg +:+ ".so")) - 3
               = Z.of_nat (String.length pkg))
    by (rewrite string_length_app; cbn; lia).
  assert (Hpos : (0 < String.length pkg)%nat) by (destruct pkg; [done|cbn; lia]).
  unfold check_log_file, slave_pid, unlink. munfold. rewrite Hn, Hs.
  cbv beta iota zeta. rewrite Hf, Hfg, Hcs, Hps.
  change (String.length "liblive-") with 8%nat. cbn [Nat.eqb negb].
  rewrite Hdrop, Hi, Nat2Z.id, string_drop_app, string_take_app.
  replace (Z.of_nat (String.length pkg) <=? 0) with false
    by (symmetry; apply Z.leb_gt; lia).
  cbn [String.eqb Ascii.eqb Bool.eqb orb negb andb]. cbv beta iota.
  rewrite Hf. cbn. rewrite Hal. reflexivity.
Qed.

(** C1, as the code has it. When the crash log of the slave holds
    ["liblive-" pkg ".so"] and nothing after it (no newline), with a
    package name [pkg] that is not empty and names a registered package,
    [fault_check_pkgs] blames [pkg]: it records the fault on the package,
    dumps and broadcasts [(pkg, "", "")] and nothing else, takes every
    record of this slave out of the call list, leaves the other records
    in their order, sets [fault_mark_count] to zero and deletes the log
    file.  The call list is only purged: the walk of the last step, which
    would broadcast a record of the list, does not take place. *)
Theorem log_file_attribution (P : platform) w slave s pkg :
  (forall t, alloc_ok P t = true) ->
  live w slave s ->
  files w !! log_filename P (pid s) = Some ("liblive-" +:+ pkg +:+ ".so") ->
  pkg <> "" ->
  string_free_of NUL pkg = true ->
  string_free_of LF pkg = true ->
  (String.length pkg + 11 < BUFSIZ P)%nat ->
  package_find P pkg = true ->
  exists w',
    fault_check_pkgs P slave w = Some (0, w')
    /\ trace w' = trace w ++
         [ package_set_fault_info pkg (util_timestamp P (S (tick w))) None None;
           dump_fault_info (name s) (pid s) pkg "" "";
           ErrPrint "Set fault %s(%d)\n";
           client_broadcast pkg "" "" ]
    /\ broadcasts (trace w') = broadcasts (trace w) ++ [(pkg, "", "")]
    /\ call_list w' =
         List.filter (fun i => negb (N.eqb (fi_slave i) slave)) (call_list w)
    /\ fault_mark_count w' = 0
    /\ files w' = delete (log_filename P (pid s)) (files w)
    /\ slaves w' = slaves w.
Proof.
  intros Hal Hl Hf Hne Hnul Hlf Hlen Hpf.
  pose proof (live_not_null _ _ _ Hl) as Hn. pose proof Hl as [_ Hs].
  unfold fault_check_pkgs. unfold bind at 1.
  rewrite (check_log_file_match P w slave s pkg) by done. rewrite Hpf.
  unfold blame_package, fault_broadcast_info, clear_log_file, unlink,
    slave_name, slave_pid.
  repeat (mrun Hn Hs; rewrite ?Hal, ?lookup_delete_eq).
  eexists. split; [reflexivity|]. cbn.
  rewrite remove_calls_of_filter, app_nil_r, filter_rev, rev_involutive.
  rewrite <- !app_assoc. cbn. repeat split.
  rewrite broadcasts_app. reflexivity.
Qed.

End FaultManagerFacts.

(** ** The count of fast crashes, in the two builds *)

(** Without [_USE_ECORE_TIME_GET]: a crash measured within
    [MINIMUM_REACTIVATION_TIME] of the activation, on a slave with loaded
    instances and below the threshold, adds one to [critical_fault_count]
    and keeps the reactivation. *)
Lemma fast_crash_check_timeval_counts (P : platform) (w : world timeval) slave s now :
  live w slave s ->
  gettimeofday P (tick w) = Some now ->
  Qle_bool (MINIMUM_REACTIVATION_TIME P)
    (inject_Z (tv_sec (timersub now (activated_at s)))) = false ->
  loaded_instance s <> 0 ->
  int_incr (critical_fault_count s) < SLAVE_MAX_LOAD P ->
  fast_crash_check_timeval P slave w =
    Some ((1, 1),
          set_slaves
            (<[slave := set_critical_fault_count (int_incr (critical_fault_count s)) s]>
               (slaves w))
            (set_tick (S (tick w)) w)).
Proof.
  intros Hl Hnow Hfast Hli Hc.
  pose proof (live_not_null _ _ _ Hl) as Hn. destruct Hl as [_ Hs].
  apply Z.eqb_neq in Hli. apply Z.leb_gt in Hc.
  unfold fast_crash_check_timeval.
  repeat (mrun Hn Hs; rewrite ?Hnow, ?Hfast, ?Hli, ?Hc). reflexivity.
Qed.

(** With [_USE_ECORE_TIME_GET]: the same crash leaves
    [critical_fault_count] at zero, whatever it was. *)
Lemma fast_crash_check_ecore_forgets (P : platform) (w : world Q) slave s :
  live w slave s ->
  Qle_bool (MINIMUM_REACTIVATION_TIME P)
    (ecore_time_get P (tick w) - activated_at s) = false ->
  loaded_instance s <> 0 ->
  int_incr (critical_fault_count s) < SLAVE_MAX_LOAD P ->
  fast_crash_check_ecore P slave w =
    Some ((1, 1),
          set_slaves
            (<[slave := set_critical_fault_count 0
                          (set_critical_fault_count (int_incr (critical_fault_count s)) s)]>
               (<[slave := set_critical_fault_count (int_incr (critical_fault_count s)) s]>
                  (slaves w)))
            (set_tick (S (tick w)) w)).
Proof.
  intros Hl Hfast Hli Hc.
  pose proof (live_not_null _ _ _ Hl) as Hn. destruct Hl as [_ Hs].
  apply Z.eqb_neq in Hli. apply Z.leb_gt in Hc.
  unfold fast_crash_check_ecore.
  repeat (mrun Hn Hs; rewrite ?Hfast, ?Hli, ?Hc). reflexivity.
Qed.

(** * The scenarios, evaluated *)

Lemma demo_alloc_ok : forall t, alloc_ok demo_platform t = true.
Proof. reflexivity. Qed.

Lemma demo_world_live {time_t} (s : slave_node time_t) calls dir :
  live (demo_world s calls dir) 1%N s.
Proof. split; [discriminate|reflexivity]. Qed.

Lemma demo_world_registry_ok {time_t} (s : slave_node time_t) calls dir :
  registry_ok (demo_world s calls dir).
Proof.
  intros slave [<-|[]]. split; [discriminate|]. exists s. reflexivity.
Qed.

(** C2, where the code departs from the claim.  In the build with
    [_USE_ECORE_TIME_GET], with [SLAVE_MAX_LOAD] set to 30, a slave
    with a loaded instance crashes 30 times in a row, each time a few
    milliseconds after its activation (the whole storm takes less than
    ten seconds of the platform's clock).  After the thirtieth crash the
    fast crashes were never counted: [critical_fault_count] is zero, both
    reactivation flags are set, the observer of faults (at [9]) was never
    called, and the launcher was called a thirtieth time: the slave is
    requested to launch again. *)
Theorem fast_crash_storm_ecore :
  exists w' s',
    crash_storm (slave_deactivated_by_fault_ecore demo_platform)
      (slave_activated_ecore demo_platform) 30 (demo_world running_slave [] ∅) = Some w'
    /\ Z.of_nat (tick w') < 10000
    /\ slaves w' !! 1%N = Some s'
    /\ fault_count s' = 30
    /\ critical_fault_count s' = 0
    /\ reactivate_slave s' = 1
    /\ reactivate_instances s' = 1
    /\ state s' = SLAVE_REQUEST_TO_LAUNCH
    /\ evt_cb_count 9 (trace w') = 0%nat
    /\ launch_count (trace w') = 30%nat.
Proof.
  eexists _, _. split; [vm_compute; reflexivity|].
  split; [vm_compute; reflexivity|]. split; [vm_compute; reflexivity|].
  vm_compute. repeat split.
Qed.

(** The same storm in the build without [_USE_ECORE_TIME_GET]: the
    thirtieth crash reaches the threshold, both reactivation flags are
    cleared, the observer of faults is called once, and the launcher is
    not called again: the slave stays terminated. *)
Lemma fast_crash_storm_timeval :
  exists w' s',
    crash_storm (slave_deactivated_by_fault_timeval demo_platform)
      (slave_activated_timeval demo_platform) 30
      (demo_world running_slave_timeval [] ∅) = Some w'
    /\ Z.of_nat (tick w') < 10000
    /\ slaves w' !! 1%N = Some s'
    /\ fault_count s' = 30
    /\ reactivate_slave s' = 0
    /\ reactivate_instances s' = 0
    /\ state s' = SLAVE_TERMINATED
    /\ evt_cb_count 9 (trace w') = 1%nat
    /\ launch_count (trace w') = 29%nat.
Proof.
  eexists _, _. split; [vm_compute; reflexivity|].
  split; [vm_compute; reflexivity|]. split; [vm_compute; reflexivity|].
  vm_compute. repeat split.
Qed.

(** And one crash short of the threshold, in that build, the count stands
    at 29. *)
Lemma fast_crash_storm_timeval_counts :
  exists w' s',
    crash_storm (slave_deactivated_by_fault_timeval demo_platform)
      (slave_activated_timeval demo_platform) 29
      (demo_world running_slave_timeval [] ∅) = Some w'
    /\ slaves w' !! 1%N = Some s'
    /\ critical_fault_count s' = 29
    /\ reactivate_slave s' = 1
    /\ evt_cb_count 9 (trace w') = 0%nat.
Proof.
  eexists _, _. split; [vm_compute; reflexivity|].
  split; [vm_compute; reflexivity|]. vm_compute. repeat split.
Qed.

(** C1, counterexample.  The crash log of process [200] holds the line of
    scenario 3 with its newline, package "foo" is registered, and the call
    list holds one record of the slave, in package "bar": what is
    broadcast is not [("foo", "", "")]. *)
Lemma log_line_with_newline_is_not_matched :
  ~ (exists w',
       fault_check_pkgs demo_platform 1%N
         (demo_world running_slave [bar_call] log_with_newline) = Some (0, w')
       /\ broadcasts (trace w') = [("foo", "", "")]).
Proof.
  intros (w' & E & Hb). vm_compute in E. injection E as <-.
  vm_compute in Hb. discriminate.
Qed.

(** What is broadcast there is the record of the call list, found by
    the walk of the last step; the log file is deleted at the end. *)
Lemma log_line_with_newline_falls_to_call_list :
  exists w',
    fault_check_pkgs demo_platform 1%N
      (demo_world running_slave [bar_call] log_with_newline) = Some (0, w')
    /\ trace w' = [ ErrPrint "Extension is not matched\n";
                    package_set_fault_info "bar" 0 (Some "g.c") (Some "other");
                    client_broadcast "bar" "g.c" "other";
                    ErrPrint "Set fault %s(%d)\n" ]
    /\ files w' !! demo_log_path = None.
Proof. eexists. split; [vm_compute; reflexivity|]. vm_compute. by split. Qed.

(** C1, witness: the same log without the newline. *)
Lemma log_file_attribution_witness :
  exists w',
    fault_check_pkgs demo_platform 1%N
      (demo_world running_slave [foo_call; bar_call_of_other] log_without_newline)
    = Some (0, w')
    /\ broadcasts (trace w') = [("foo", "", "")]
    /\ call_list w' = [bar_call_of_other]
    /\ files w' !! demo_log_path = None.
Proof.
  destruct (log_file_attribution demo_platform
              (demo_world running_slave [foo_call; bar_call_of_other] log_without_newline)
              1%N running_slave "foo")
    as (w' & E & _ & Hb & Hc & _ & Hf & _).
  - exact demo_alloc_ok.
  - apply demo_world_live.
  - vm_compute. reflexivity.
  - discriminate.
  - reflexivity.
  - reflexivity.
  - vm_compute. lia.
  - reflexivity.
  - exists w'. split; [exact E|]. split; [exact Hb|]. split; [exact Hc|].
    rewrite Hf. vm_compute. reflexivity.
Defined.

(** C3, witness: a registry with one resumed slave of abi "c", asked for
    abi "C". *)
Lemma slave_find_available_first_witness :
  exists r,
    slave_find_available demo_platform "C" 0 0 (demo_world running_slave [] ∅)
    = Some (r, demo_world running_slave [] ∅).
Proof.
  destruct (slave_find_available_first demo_platform "C" 0 0
              (demo_world running_slave [] ∅)) as (r & E & _).
  - apply demo_world_registry_ok.
  - exists r. exact E.
Defined.

(** C4, witness. *)
Lemma fault_mark_count_zero_after_check_witness :
  exists w',
    fault_check_pkgs demo_platform 1%N
      (demo_world running_slave [foo_call; bar_call] ∅) = Some (0, w')
    /\ fault_mark_count w' = 0.
Proof.
  apply (fault_mark_count_zero_after_check demo_platform
           (demo_world running_slave [foo_call; bar_call] ∅) 1%N running_slave).
  apply demo_world_live.
Defined.

(** C5, counterexample.  The call list holds a record of the slave at [1]
    for [("foo", "f.c", "do_work")], then a record of another slave.  A
    call and a return with these arguments do not bring the list back:
    the old record is taken out and the new one stays at the end. *)
Lemma call_then_return_moves_record :
  ~ (exists w1 w2,
       fault_func_call demo_platform 1%N "foo" "f.c" "do_work"
         (demo_world running_slave [foo_call; bar_call_of_other] ∅)
       = Some (LB_STATUS_SUCCESS, w1)
       /\ fault_func_ret 1%N "foo" "f.c" "do_work" w1 = Some (LB_STATUS_SUCCESS, w2)
       /\ call_list w2 = [foo_call; bar_call_of_other]).
Proof.
  intros (w1 & w2 & E1 & E2 & Hc). vm_compute in E1. injection E1 as <-.
  vm_compute in E2. injection E2 as <-. vm_compute in Hc. discriminate.
Qed.

(** C5, witness. *)
Lemma call_then_return_witness :
  exists w1 w2,
    fault_func_call demo_platform 1%N "foo" "f.c" "do_work"
      (demo_world running_slave [bar_call_of_other] ∅) = Some (LB_STATUS_SUCCESS, w1)
    /\ fault_func_ret 1%N "foo" "f.c" "do_work" w1 = Some (LB_STATUS_SUCCESS, w2)
    /\ fault_mark_count w2 = 1
    /\ call_list w2 = [bar_call_of_other].
Proof.
  destruct (call_then_return demo_platform
              (demo_world running_slave [bar_call_of_other] ∅)
              1%N "foo" "f.c" "do_work")
    as (w1 & w2 & E1 & _ & E2 & Hm & Hc & _).
  - exact demo_alloc_ok.
  - vm_compute. split; discriminate.
  - exists w1, w2. split; [exact E1|]. split; [exact E2|]. split; [exact Hm|].
    apply Hc. intros x [<-|[]]. reflexivity.
Defined.

(** C6, counterexample.  Only package "foo" is registered; the slave at
    [1] entered "foo" and then "bar", and there is no crash log.  The
    fault is not attributed to the most recent record, and the records of
    the slave are not all taken out. *)
Lemma shadow_call_stack_skips_unregistered :
  ~ (exists w',
       fault_check_pkgs foo_platform 1%N
         (demo_world running_slave [foo_call; bar_call] ∅) = Some (0, w')
       /\ broadcasts (trace w') = [call_triple bar_call]
       /\ List.filter (fun i => N.eqb (fi_slave i) 1%N) (call_list w') = []).
Proof.
  intros (w' & E & Hb & _). vm_compute in E. injection E as <-.
  vm_compute in Hb. discriminate.
Qed.

(** There the older record is blamed, and the most recent one stays in
    the call list. *)
Lemma shadow_call_stack_blames_registered :
  exists w',
    fault_check_pkgs foo_platform 1%N
      (demo_world running_slave [foo_call; bar_call] ∅) = Some (0, w')
    /\ broadcasts (trace w') = [call_triple foo_call]
    /\ call_list w' = [bar_call].
Proof. eexists. split; [vm_compute; reflexivity|]. vm_compute. by split. Qed.

(** C6, witness: scenario 4 of the specification. *)
Lemma shadow_call_stack_attribution_witness :
  exists w',
    fault_check_pkgs demo_platform 1%N
      (demo_world running_slave [foo_call; bar_call] ∅) = Some (0, w')
    /\ broadcasts (trace w') = [call_triple bar_call]
    /\ fault_dumps (trace w') = [call_triple foo_call]
    /\ call_list w' = [].
Proof.
  destruct (shadow_call_stack_attribution demo_platform
              (demo_world running_slave [foo_call; bar_call] ∅) 1%N running_slave)
    as (w' & added & E & Ht & Hm & Hnone & _).
  - exact demo_alloc_ok.
  - apply demo_world_live.
  - intros r w1 pkg E ->. vm_compute in E. discriminate.
  - intros pkg E. vm_compute in E. discriminate.
  - exists w'. split; [exact E|]. cbn in Ht, Hm. destruct Hm as [Hb Hd].
    rewrite Ht. split; [exact Hb|]. split; [exact Hd|].
    destruct (call_list w') as [|i l] eqn:Hl; [reflexivity|].
    assert (Hi : blamable demo_platform 1%N i = false) by (apply Hnone; by left).
    pose proof E as E'. vm_compute in E'. injection E' as <-.
    vm_compute in Hl. discriminate.
Defined.

(** C7, witness: a resumed slave with process [200]. *)
Lemma slave_activate_idempotent_witness :
  exists w',
    slave_activate demo_platform 1%N (demo_world running_slave [] ∅)
    = Some (LB_STATUS_ERROR_ALREADY, w')
    /\ trace w' = [].
Proof.
  destruct (slave_activate_idempotent demo_platform
              (demo_world running_slave [] ∅) 1%N running_slave)
    as (w' & s' & E & Ht & _).
  - apply demo_world_live.
  - left. discriminate.
  - exists w'. split; [exact E|exact Ht].
Defined.

(** C8, witness: resuming a resumed slave. *)
Lemma slave_resume_pause_settled_witness :
  slave_resume demo_platform 1%N (demo_world running_slave [] ∅)
  = Some (LB_STATUS_SUCCESS, demo_world running_slave [] ∅).
Proof.
  apply (slave_resume_pause_settled demo_platform
           (demo_world running_slave [] ∅) 1%N running_slave).
  - apply demo_world_live.
  - left. reflexivity.
Defined.

(** C9, witness: the last reference of a slave with process [200]. *)
Lemma slave_unref_refuses_running_slave_witness :
  exists w',
    slave_unref demo_platform 1%N
      (demo_world (demo_slave SLAVE_RESUMED 200 1 1 1 0%Q) [] ∅) = Some (NULL, w')
    /\ slave_list w' = [1%N]
    /\ trace w' = [ErrPrint "Slave is not deactivated\n"].
Proof.
  eexists. split.
  - apply (slave_unref_refuses_running_slave demo_platform
             (demo_world (demo_slave SLAVE_RESUMED 200 1 1 1 0%Q) [] ∅) 1%N
             (demo_slave SLAVE_RESUMED 200 1 1 1 0%Q)).
    + apply demo_world_live.
    + reflexivity.
    + discriminate.
  - split; reflexivity.
Defined.

(** C10, witness: unloading a package from a slave that has none. *)
Lemma unload_keeps_counters_nonnegative_witness :
  slave_unload_package 1%N (demo_world (demo_slave SLAVE_RESUMED 200 2 1 0 0%Q) [] ∅)
  = Some (tt,
          set_trace [ErrPrint "Slave loaded package is not correct\n"]
            (demo_world (demo_slave SLAVE_RESUMED 200 2 1 0 0%Q) [] ∅)).
Proof.
  apply (unload_keeps_counters_nonnegative demo_platform
           (demo_world (demo_slave SLAVE_RESUMED 200 2 1 0 0%Q) [] ∅) 1%N
           (demo_slave SLAVE_RESUMED 200 2 1 0 0%Q)).
  - apply demo_world_live.
  - reflexivity.
Defined.

(** A crash log that names a package that is not registered ("baz") is
    consumed, and nothing is blamed for it: the call list decides. *)
Lemma log_file_of_unregistered_package_falls_through :
  exists w',
    fault_check_pkgs demo_platform 1%N
      (demo_world running_slave [bar_call] {[ demo_log_path := "liblive-baz.so" ]})
    = Some (0, w')
    /\ broadcasts (trace w') = [call_triple bar_call]
    /\ files w' !! demo_log_path = None.
Proof. eexists. split; [vm_compute; reflexivity|]. vm_compute. by split. Qed.

(** The registry list is in the order of creation, and the slave created
    first is the one found. *)
Lemma registry_is_in_creation_order :
  exists w',
    two_slaves_then_find empty_world = Some (1%N, w')
    /\ slave_list w' = [1%N; 2%N]
    /\ name <$> slaves w' !! 1%N = Some "first"
    /\ name <$> slaves w' !! 2%N = Some "second".
Proof. eexists. split; [vm_compute; reflexivity|]. vm_compute. by repeat split. Qed.

(** * Further properties of the code *)
Section FaultManagerMore.
Context {time_t : Type}.
Variable P : platform.
Implicit Types (w : world time_t) (s : slave_node time_t).

Lemma remove_first_call_none slave pkgname filename func l :
  remove_first_call slave pkgname filename func l = None <->
  Forall (fun info => same_call slave pkgname filename func info = false) l.
Proof.
  induction l as [|info l IH]; cbn.
  - split; [constructor|done].
  - rewrite Forall_cons. unfold same_call at 1.
    destruct (N.eqb (fi_slave info) slave), (String.eqb (fi_pkgname info) pkgname),
      (String.eqb (fi_filename info) filename), (String.eqb (fi_func info) func); cbn;
      rewrite ?fmap_None, ?IH; intuition congruence.
Qed.


Lemma remove_first_call_length slave pkgname filename func l l' :
  remove_first_call slave pkgname filename func l = Some l' ->
  length l = S (length l').
Proof.
  revert l'. induction l as [|info l IH]; cbn; [done|]. intros l'.
  case_match.
  - destruct (remove_first_call slave pkgname filename func l) as [k|]; cbn; [|done].
    intros [= <-]. cbn. f_equal. by apply IH.
  - by intros [= <-].
Qed.

(** A return mark that no record of the call list answers is refused:
    [fault_func_ret] answers [LB_STATUS_ERROR_NOT_EXIST] and changes
    neither the call list nor the counter of marks. *)
Lemma fault_func_ret_unmatched w slave pkgname filename func :
  Forall (fun info => same_call slave pkgname filename func info = false) (call_list w) ->
  fault_func_ret slave pkgname filename func w = Some (LB_STATUS_ERROR_NOT_EXIST, w).
Proof.
  intros H. apply remove_first_call_none in H.
  unfold fault_func_ret. munfold. cbn. by rewrite H.
Qed.

(** X1. As long as the counter of marks equals the length of the call list,
    a call mark and a return mark both answer and leave it so: the
    counter goes up with a record appended and down with a record
    removed, and stays when nothing is recorded or removed.  A return
    mark that no record of the call list answers is refused with
    [LB_STATUS_ERROR_NOT_EXIST], and nothing changes. *)
Theorem call_marks_stay_balanced w slave pkgname filename func :
  marks_balanced w ->
  Z.of_nat (length (call_list w)) < INT_MAX ->
  (exists r w', fault_func_call P slave pkgname filename func w = Some (r, w')
                /\ marks_balanced w')
  /\ (exists r w', fault_func_ret slave pkgname filename func w = Some (r, w')
                /\ marks_balanced w'
                /\ (Forall (fun info => same_call slave pkgname filename func info = false)
                           (call_list w) ->
                    r = LB_STATUS_ERROR_NOT_EXIST /\ w' = w)).
Proof.
  unfold marks_balanced. intros Hb Hr. split.
  - unfold fault_func_call. munfold. cbn.
    destruct (alloc_ok P (tick w)); cbn; [|by eauto].
    destruct (alloc_ok P (S (tick w))); cbn; [|by eauto].
    destruct (alloc_ok P (S (S (tick w)))); cbn; [|by eauto].
    destruct (alloc_ok P (S (S (S (tick w))))); cbn; [|by eauto].
    do 2 eexists. split; [reflexivity|]. cbn.
    rewrite Hb, int_incr_exact, length_app; cbn; unfold INT_MIN; lia.
  - assert (exists r w', fault_func_ret slave pkgname filename func w = Some (r, w')
                         /\ marks_balanced w') as (r & w' & E & Hb').
    { unfold fault_func_ret, marks_balanced. munfold. cbn.
      destruct (remove_first_call _ _ _ _ _) as [l|] eqn:Hl; cbn; [|by eauto].
      do 2 eexists. split; [reflexivity|]. cbn.
      apply remove_first_call_length in Hl.
      rewrite Hb, int_decr_exact, Hl; unfold INT_MIN, INT_MAX in *; lia. }
    exists r, w'. split; [done|]. split; [done|]. intros Hno.
    rewrite (fault_func_ret_unmatched _ _ _ _ _ Hno) in E. by injection E as <- <-.
Qed.


Lemma pattern_scan_full pattern str :
  Nat.eqb (String.length pattern) (pattern_scan pattern str) = true ->
  str = pattern +:+ string_drop (String.length pattern) str.
Proof.
  revert str. induction pattern as [|p pattern IH]; intros str; [by destruct str|].
  destruct str as [|c str]; cbn; [done|].
  destruct (Ascii.eqb_spec p c) as [->|]; [|done]. cbn. intros H.
  rewrite string_app_cons. f_equal. by apply IH.
Qed.

Lemma string_take_drop n str : string_take n str +:+ string_drop n str = str.
Proof.
  revert str. induction n as [|n IH]; intros [|c str]; try done.
  cbn. rewrite string_app_cons. f_equal. apply IH.
Qed.

Lemma string_take_length n str :
  (n <= String.length str)%nat -> String.length (string_take n str) = n.
Proof.
  revert str. induction n as [|n IH]; intros [|c str]; cbn; try done; try lia.
  intros H. f_equal. apply IH. lia.
Qed.

(** X2. [check_log_file] names a package only when the first line of the
    crash log, up to its end or its first NUL, is exactly ["liblive-"],
    the package name and [".so"], with a package name that is not empty;
    the crash log is then deleted. *)
Theorem check_log_file_names_the_line w slave pkg w' :
  check_log_file P slave w = Some (Some pkg, w') ->
  exists s content buf,
    slaves w !! slave = Some s
    /\ files w !! log_filename P (pid s) = Some content
    /\ fgets (BUFSIZ P) content = Some buf
    /\ cstr buf = "liblive-" +:+ pkg +:+ ".so"
    /\ pkg <> ""
    /\ files w' = delete (log_filename P (pid s)) (files w).
Proof.
  unfold check_log_file, slave_pid, unlink. munfold. cbv beta iota zeta.
  destruct (N.eqb slave NULL); [done|].
  destruct (slaves w !! slave) as [s|] eqn:Hs; [|done]. cbv beta iota zeta.
  destruct (files w !! log_filename P (pid s)) as [content|] eqn:Hf; [|done].
  destruct (fgets (BUFSIZ P) content) as [buf|] eqn:Hg; [|done].
  destruct (Nat.eqb _ _) eqn:Hp; [|done]. cbv beta iota zeta.
  apply Nat.eqb_eq in Hp as Hi. rewrite <- Hi.
  apply pattern_scan_full in Hp.
  set (ptr := string_drop (String.length "liblive-") (cstr buf)) in *. clearbody ptr.
  destruct (Z.leb_spec (Z.of_nat (String.length ptr) - 3) 0) as [|Hlen]; [done|].
  destruct (String.eqb_spec (string_drop (Z.to_nat (Z.of_nat (String.length ptr) - 3)) ptr) ".so")
    as [Hso|]; [|done].
  cbn [orb negb]. cbv beta iota zeta. rewrite Hf. cbv beta iota zeta.
  cbn [Z.ltb Z.compare]. cbv beta iota zeta. 
  destruct (alloc_ok P _); [|done]. intros [= <- <-].
  exists s, content, buf. repeat split; try done.
  - rewrite Hp at 1. f_equal.
    rewrite <- (string_take_drop (Z.to_nat (Z.of_nat (String.length ptr) - 3)) ptr) at 1.
    by rewrite Hso.
  - intros H.
    pose proof (string_take_length (Z.to_nat (Z.of_nat (String.length ptr) - 3)) ptr) as Hk.
    rewrite H in Hk. cbn [String.length] in Hk. lia.
Qed.


Lemma so_is_no_newline a b : a +:+ ".so" = b +:+ String LF "" -> False.
Proof.
  revert b. induction a as [|x a IH]; intros b.
  - destruct b as [|? [|? [|? [|? b]]]]; done.
  - destruct b as [|y b]; rewrite !string_app_cons.
    + intros [= _ H]. by destruct a.
    + intros [= _ H]. by apply IH in H.
Qed.

(** X3. A first line of the crash log that ends with a newline is never
    matched: [check_log_file] names no package, reports the mismatch and
    leaves the crash log in place. *)
Theorem check_log_file_rejects_newline w slave s content buf line :
  live w slave s ->
  files w !! log_filename P (pid s) = Some content ->
  fgets (BUFSIZ P) content = Some buf ->
  cstr buf = line +:+ String LF "" ->
  check_log_file P slave w
  = Some (None,
          set_trace (trace w ++ [ErrPrint (if Nat.eqb 8 (pattern_scan "liblive-" (cstr buf))
                                           then "Extension is not matched\n"
                                           else "Pattern is not matched: %d\n")]) w).
Proof.
  intros Hl Hf Hg Hline.
  pose proof (live_not_null _ _ _ Hl) as Hn. destruct Hl as [_ Hs].
  unfold check_log_file, slave_pid, unlink. munfold. rewrite Hn, Hs.
  cbv beta iota zeta. rewrite Hf, Hg.
  change (String.length "liblive-") with 8%nat.
  destruct (Nat.eqb 8 _) eqn:Hp; [|done]. cbn [negb]. cbv beta iota zeta.
  apply Nat.eqb_eq in Hp as Hi. rewrite <- Hi.
  apply (pattern_scan_full "liblive-") in Hp.
  change (String.length "liblive-") with 8%nat in Hp.
  remember (string_drop 8 (cstr buf)) as ptr eqn:E. clear E.
  destruct (Z.leb_spec (Z.of_nat (String.length ptr) - 3) 0) as [|Hlen]; [done|].
  destruct (String.eqb_spec (string_drop (Z.to_nat (Z.of_nat (String.length ptr) - 3)) ptr) ".so")
    as [Hso|]; [|done].
  exfalso.
  rewrite <- (string_take_drop (Z.to_nat (Z.of_nat (String.length ptr) - 3)) ptr), Hso in Hp.
  rewrite Hline in Hp. symmetry in Hp.
  destruct line as [|? [|? [|? [|? [|? [|? [|? [|? line]]]]]]]]; try done.
  rewrite !string_app_cons in Hp. injection Hp as _ _ _ _ _ _ _ _ Hp.
  change ("" +:+ ?a) with a in Hp. by apply so_is_no_newline in Hp.
Qed.

(** X4. [fault_info_set] always answers, never touches the slaves or the call
    list, and does nothing at all for a package that is not registered;
    the counter of marks goes up exactly when it answers
    [LB_STATUS_SUCCESS], in which case the fault is dumped to the
    critical log; otherwise nothing is broadcast and nothing is dumped. *)
Theorem fault_info_set_outcomes w slave s pkgname id func :
  live w slave s ->
  exists r w' added,
    fault_info_set P slave pkgname id func w = Some (r, w')
    /\ slaves w' = slaves w /\ call_list w' = call_list w
    /\ trace w' = trace w ++ added
    /\ (package_find P pkgname = false -> r = LB_STATUS_ERROR_NOT_EXIST /\ w' = w)
    /\ (r = LB_STATUS_SUCCESS ->
        fault_mark_count w' = int_incr (fault_mark_count w)
        /\ fault_dumps added = [(pkgname, id, func)])
    /\ (r <> LB_STATUS_SUCCESS ->
        fault_mark_count w' = fault_mark_count w /\ broadcasts added = []
        /\ fault_dumps added = []).
Proof.
  intros Hl. pose proof (live_not_null _ _ _ Hl) as Hn. destruct Hl as [_ Hs].
  unfold fault_info_set, fault_broadcast_info, slave_name, slave_pid.
  destruct (package_find P pkgname) eqn:Hpk; cbn [negb].
  2:{ exists LB_STATUS_ERROR_NOT_EXIST, w, []. rewrite app_nil_r. done. }
  mrun Hn Hs.
  destruct (package_set_fault_info_result P (S (tick w)) <? 0) eqn:Hr.
  { eexists _, _, _. split; [reflexivity|]. cbn. done. }
  mrun Hn Hs.
  destruct (alloc_ok P (S (S (tick w)))); mrun Hn Hs;
    (eexists _, _, _; split; [reflexivity|]; cbn; rewrite <- ?app_assoc; cbn; done).
Qed.

End FaultManagerMore.

Section ObserverFacts.
Context {time_t : Type}.
Variable P : platform.
Implicit Types (w : world time_t) (s : slave_node time_t).

Lemma event_list_is_list_field (kind : slave_event) :
  is_list_field (time_t := time_t) (event_list kind) (set_event_list kind).
Proof. destruct kind; (split; [|split]); intros; try reflexivity; by destruct s. Qed.

Lemma world_eta w :
  set_tick (tick w) (set_trace (trace w) (set_slaves (slaves w) w)) = w.
Proof. by destruct w. Qed.

Lemma eina_list_remove_absent {A} (same : A -> A -> bool) l x :
  eina_list_data_find same l x = false -> eina_list_remove same l x = l.
Proof.
  induction l as [|y l IH]; cbn; [done|]. destruct (same y x); [done|].
  intros H. f_equal. by apply IH.
Qed.

(** The loop over the observers, run: every observer of [pending] is
    called, each at its own instant, and the list of the slave loses the
    nodes of those that answer a negative value. *)
Lemma invoke_cb_loop_run field set_field slave pending : forall w s,
  is_list_field field set_field ->
  live w slave s ->
  invoke_cb_loop P field set_field slave pending w
  = Some (tt, set_tick (length pending + tick w)
                (set_trace (trace w ++ evt_cb_calls pending)
                   (set_slaves
                      (<[slave := set_field (after_calls P (tick w) (field s) pending) s]>
                         (slaves w)) w))).
Proof.
  induction pending as [|ev pending IH]; intros w s Hf Hl.
  - destruct Hf as (_ & _ & L3). destruct Hl as [_ Hs]. cbn.
    rewrite L3, insert_id, app_nil_r by done. unfold ret. by rewrite world_eta.
  - pose proof (live_not_null _ _ _ Hl) as Hn. pose proof Hl as [Hnn Hs].
    pose proof Hf as (L1 & L2 & L3).
    cbn [invoke_cb_loop after_calls]. unfold call_evt_cb. mrun Hn Hs.
    destruct (evt_cb_result P (tick w) (evt_cb ev) <? 0) eqn:Hr.
    + mrun Hn Hs.
      destruct (eina_list_data_find event_eqb (field s) ev) eqn:Hfind.
      * mrun Hn Hs.
        rewrite (IH _ (set_field (eina_list_remove event_eqb (field s) ev) s)); [|done|].
        2:{ split; [done|]. cbn. by rewrite lookup_insert_eq. }
        cbn. rewrite L1, L2, insert_insert_eq, <- app_assoc, Nat.add_succ_r. done.
      * rewrite (eina_list_remove_absent _ _ _ Hfind).
        mrun Hn Hs. rewrite (IH _ s); [|done|by split].
        cbn. rewrite <- app_assoc, Nat.add_succ_r. done.
    + mrun Hn Hs. rewrite (IH _ s); [|done|by split].
      cbn. rewrite <- app_assoc, Nat.add_succ_r. done.
Qed.


Lemma invoke_cb_run field set_field slave w s :
  is_list_field field set_field ->
  live w slave s ->
  invoke_cb P field set_field slave w
  = Some (tt, set_tick (length (field s) + tick w)
                (set_trace (trace w ++ evt_cb_calls (field s))
                   (set_slaves
                      (<[slave := set_field (after_calls P (tick w) (field s) (field s)) s]>
                         (slaves w)) w))).
Proof.
  intros Hf Hl. pose proof (live_not_null _ _ _ Hl) as Hn. pose proof Hl as [_ Hs].
  unfold invoke_cb. mrun Hn Hs. by apply invoke_cb_loop_run.
Qed.

Lemma eina_list_remove_middle kept ev pending :
  ev_addr ev ∉ map ev_addr kept ->
  eina_list_remove event_eqb (kept ++ ev :: pending) ev = kept ++ pending.
Proof.
  induction kept as [|x kept IH]; cbn; intros H.
  - unfold event_eqb. by rewrite N.eqb_refl.
  - apply not_elem_of_cons in H as [H1 H2].
    unfold event_eqb at 1. destruct (N.eqb_spec (ev_addr x) (ev_addr ev)); [done|].
    f_equal. by apply IH.
Qed.

Lemma after_calls_survivors pending : forall t kept,
  NoDup (map ev_addr (kept ++ pending)) ->
  after_calls P t (kept ++ pending) pending = kept ++ survivors P t pending.
Proof.
  induction pending as [|ev pending IH]; intros t kept Hd; cbn; [done|].
  destruct (evt_cb_result P t (evt_cb ev) <? 0).
  - rewrite map_app in Hd. cbn in Hd.
    apply NoDup_app in Hd as (Hk & Hx & Hp).
    apply NoDup_cons in Hp as [Hev Hp].
    rewrite eina_list_remove_middle.
    + apply IH. rewrite map_app. apply NoDup_app. split; [done|]. split; [|done].
      intros a Ha Hb. apply (Hx a Ha). by right.
    + intros Ha. apply (Hx _ Ha). by left.
  - replace (kept ++ ev :: pending) with ((kept ++ [ev]) ++ pending)
      by (by rewrite <- app_assoc).
    rewrite IH; [by rewrite <- app_assoc|]. by rewrite <- app_assoc.
Qed.

Lemma invoke_deactivate_cb_loop_run slave pending : forall w s acc,
  live w slave s ->
  invoke_deactivate_cb_loop P slave pending acc w
  = Some (reactivation_votes P (tick w) pending acc,
          set_tick (length pending + tick w)
            (set_trace (trace w ++ evt_cb_calls pending)
               (set_slaves
                  (<[slave := set_event_deactivate_list
                                (after_calls P (tick w) (event_deactivate_list s) pending) s]>
                     (slaves w)) w))).
Proof.
  induction pending as [|ev pending IH]; intros w s acc Hl.
  - destruct Hl as [_ Hs]. cbn.
    replace (set_event_deactivate_list (event_deactivate_list s) s) with s by (by destruct s).
    rewrite insert_id, app_nil_r by done. unfold ret. by rewrite world_eta.
  - pose proof (live_not_null _ _ _ Hl) as Hn. pose proof Hl as [Hnn Hs].
    cbn [invoke_deactivate_cb_loop after_calls reactivation_votes]. unfold call_evt_cb.
    mrun Hn Hs.
    destruct (evt_cb_result P (tick w) (evt_cb ev) <? 0) eqn:Hr.
    + mrun Hn Hs.
      destruct (eina_list_data_find event_eqb (event_deactivate_list s) ev) eqn:Hfind.
      * mrun Hn Hs.
        rewrite (IH _ (set_event_deactivate_list
                         (eina_list_remove event_eqb (event_deactivate_list s) ev) s)).
        2:{ split; [done|]. cbn. by rewrite lookup_insert_eq. }
        cbn. rewrite insert_insert_eq, <- app_assoc, Nat.add_succ_r. done.
      * rewrite (eina_list_remove_absent _ _ _ Hfind).
        mrun Hn Hs. rewrite (IH _ s) by (by split).
        cbn. rewrite <- app_assoc, Nat.add_succ_r. done.
    + mrun Hn Hs.
      destruct (evt_cb_result P (tick w) (evt_cb ev) =? SLAVE_NEED_TO_REACTIVATE P);
        rewrite (IH _ s) by (by split); cbn; rewrite <- app_assoc, Nat.add_succ_r; done.
Qed.


Lemma invoke_deactivate_cb_run slave w s :
  live w slave s ->
  invoke_deactivate_cb P slave w
  = Some (reactivation_votes P (tick w) (event_deactivate_list s) 0,
          set_tick (length (event_deactivate_list s) + tick w)
            (set_trace (trace w ++ evt_cb_calls (event_deactivate_list s))
               (set_slaves
                  (<[slave := set_event_deactivate_list
                                (after_calls P (tick w) (event_deactivate_list s)
                                   (event_deactivate_list s)) s]>
                     (slaves w)) w))).
Proof.
  intros Hl. pose proof (live_not_null _ _ _ Hl) as Hn. pose proof Hl as [_ Hs].
  unfold invoke_deactivate_cb. mrun Hn Hs. by apply invoke_deactivate_cb_loop_run.
Qed.

Lemma invoke_event_cb_run kind slave w s :
  live w slave s ->
  invoke_event_cb P kind slave w
  = Some (tt, set_tick (length (event_list kind s) + tick w)
                (set_trace (trace w ++ evt_cb_calls (event_list kind s))
                   (set_slaves
                      (<[slave := set_event_list kind
                                    (after_calls P (tick w) (event_list kind s)
                                       (event_list kind s)) s]>
                         (slaves w)) w))).
Proof.
  intros Hl.
  destruct kind; cbn [invoke_event_cb];
    try (apply (invoke_cb_run _ _ _ _ _ (event_list_is_list_field SLAVE_EVENT_ACTIVATE) Hl));
    try (apply (invoke_cb_run _ _ _ _ _ (event_list_is_list_field SLAVE_EVENT_DELETE) Hl));
    try (apply (invoke_cb_run _ _ _ _ _ (event_list_is_list_field SLAVE_EVENT_FAULT) Hl));
    try (apply (invoke_cb_run _ _ _ _ _ (event_list_is_list_field SLAVE_EVENT_PAUSE) Hl));
    try (apply (invoke_cb_run _ _ _ _ _ (event_list_is_list_field SLAVE_EVENT_RESUME) Hl)).
  unfold bind at 1. by rewrite (invoke_deactivate_cb_run _ _ _ Hl).
Qed.

(** X5. Every observer of an event kind is called once, in the order of the
    list of the slave; the list loses the observers that answer a
    negative value and keeps the others in their order. *)
Theorem observers_called_in_list_order kind w slave s :
  live w slave s ->
  NoDup (map ev_addr (event_list kind s)) ->
  exists w',
    invoke_event_cb P kind slave w = Some (tt, w')
    /\ trace w' = trace w ++ evt_cb_calls (event_list kind s)
    /\ slaves w' = <[slave := set_event_list kind
                                (survivors P (tick w) (event_list kind s)) s]> (slaves w)
    /\ slave_list w' = slave_list w.
Proof.
  intros Hl Hd. eexists. split; [by apply invoke_event_cb_run|].
  pose proof (after_calls_survivors (event_list kind s) (tick w) [] Hd) as H.
  cbn in *. by rewrite H.
Qed.

Lemma reactivation_votes_count l : forall t acc,
  0 <= SLAVE_NEED_TO_REACTIVATE P ->
  INT_MIN <= acc ->
  acc + Z.of_nat (length l) <= INT_MAX ->
  reactivation_votes P t l acc
  = acc + Z.of_nat (length (List.filter (fun r => r =? SLAVE_NEED_TO_REACTIVATE P)
                              (answers P t l))).
Proof.
  induction l as [|ev l IH]; intros t acc Hpos Hlo Hhi; cbn; [lia|].
  cbn in Hhi.
  destruct (Z.ltb_spec (evt_cb_result P t (evt_cb ev)) 0) as [Hneg|Hneg].
  - destruct (Z.eqb_spec (evt_cb_result P t (evt_cb ev)) (SLAVE_NEED_TO_REACTIVATE P));
      [lia|]. apply IH; lia.
  - destruct (Z.eqb_spec (evt_cb_result P t (evt_cb ev)) (SLAVE_NEED_TO_REACTIVATE P)).
    + rewrite IH; rewrite ?int_incr_exact; cbn [length]; lia.
    + apply IH; lia.
Qed.

(** X6. [invoke_deactivate_cb] calls every observer of the deactivation, in
    the order of the list, and answers how many of them asked for the
    slave to be activated again. *)
Theorem deactivate_observers_vote w slave s :
  live w slave s ->
  0 <= SLAVE_NEED_TO_REACTIVATE P ->
  Z.of_nat (length (event_deactivate_list s)) <= INT_MAX ->
  exists w',
    invoke_deactivate_cb P slave w
    = Some (Z.of_nat (length (List.filter (fun r => r =? SLAVE_NEED_TO_REACTIVATE P)
                                (answers P (tick w) (event_deactivate_list s)))), w')
    /\ trace w' = trace w ++ evt_cb_calls (event_deactivate_list s).
Proof.
  intros Hl Hpos Hlen. rewrite (invoke_deactivate_cb_run _ _ _ Hl).
  rewrite reactivation_votes_count by (unfold INT_MIN; lia).
  eexists. split; reflexivity.
Qed.

End ObserverFacts.

Section RegistrationFacts.
Context {time_t : Type}.
Variable P : platform.
Implicit Types (w : world time_t) (s : slave_node time_t).

Lemma set_event_list_same kind s : set_event_list kind (event_list kind s) s = s.
Proof. by destruct kind, s. Qed.

Lemma event_list_set kind l s : event_list kind (set_event_list kind l s) = l.
Proof. by destruct kind. Qed.

Lemma set_event_list_twice kind l l' s :
  set_event_list kind l (set_event_list kind l' s) = set_event_list kind l s.
Proof. by destruct kind. Qed.

Lemma event_list_other kind k l s :
  k <> kind -> event_list k (set_event_list kind l s) = event_list k s.
Proof. by destruct kind, k. Qed.

(** X7. An observer registered and then unregistered leaves the slave as it
    was, whatever else is registered: the registration is put at the head
    of the list, where the removal finds it first. *)
Theorem callback_add_del_round_trip w slave s kind cb data_ :
  live w slave s ->
  alloc_ok P (tick w) = true ->
  exists w1 w2,
    slave_event_callback_add P slave (Some kind) cb data_ w = Some (LB_STATUS_SUCCESS, w1)
    /\ slave_event_callback_del slave (Some kind) cb data_ w1 = Some (LB_STATUS_SUCCESS, w2)
    /\ slaves w2 = slaves w
    /\ slave_list w2 = slave_list w
    /\ trace w2 = trace w.
Proof.
  intros Hl Hal. pose proof (live_not_null _ _ _ Hl) as Hn. destruct Hl as [_ Hs].
  unfold slave_event_callback_add, slave_event_callback_del.
  mrun Hn Hs. rewrite Hal. mrun Hn Hs.
  eexists. eexists. split; [reflexivity|].
  mrun Hn Hs. rewrite event_list_set. cbn [find_event evt_cb cbdata].
  rewrite !N.eqb_refl. mrun Hn Hs.
  split; [reflexivity|]. cbn.
  rewrite event_list_set. cbn. unfold event_eqb at 1. cbn. rewrite N.eqb_refl.
  rewrite set_event_list_twice, set_event_list_same, insert_insert_eq, insert_id; done.
Qed.

Lemma find_event_none cb data_ l :
  find_event cb data_ l = None <-> registrations cb data_ l = 0%nat.
Proof.
  unfold registrations. induction l as [|ev l IH]; cbn; [done|].
  destruct (N.eqb (evt_cb ev) cb && N.eqb (cbdata ev) data_); cbn; [done|exact IH].
Qed.

Lemma find_event_remove cb data_ l ev :
  NoDup (map ev_addr l) ->
  find_event cb data_ l = Some ev ->
  registrations cb data_ l = S (registrations cb data_ (eina_list_remove event_eqb l ev)).
Proof.
  unfold registrations. induction l as [|x l IH]; cbn; [done|].
  intros Hd Hf. apply NoDup_cons in Hd as [Hx Hd].
  destruct (N.eqb (evt_cb x) cb && N.eqb (cbdata x) data_) eqn:Hm.
  - injection Hf as <-. unfold event_eqb. by rewrite N.eqb_refl.
  - unfold event_eqb at 1.
    destruct (N.eqb_spec (ev_addr x) (ev_addr ev)) as [Heq|Hne].
    + exfalso. apply Hx. rewrite Heq. clear -Hf.
      induction l as [|y l IH]; cbn in *; [done|].
      destruct (N.eqb (evt_cb y) cb && N.eqb (cbdata y) data_).
      * injection Hf as ->. by left.
      * right. by apply IH.
    + cbn. rewrite Hm. by apply IH.
Qed.

(** X8. [slave_event_callback_del] takes one registration of the pair away,
    and answers [LB_STATUS_ERROR_NOT_EXIST], with nothing changed, when
    the pair is not registered for the event kind; the lists of the other
    kinds are never touched. *)
Theorem callback_del_takes_one_registration w slave s kind cb data_ :
  live w slave s ->
  NoDup (map ev_addr (event_list kind s)) ->
  (registrations cb data_ (event_list kind s) = 0%nat
   /\ slave_event_callback_del slave (Some kind) cb data_ w
      = Some (LB_STATUS_ERROR_NOT_EXIST, w))
  \/ (exists s',
        slave_event_callback_del slave (Some kind) cb data_ w
        = Some (LB_STATUS_SUCCESS, set_slaves (<[slave := s']> (slaves w)) w)
        /\ registrations cb data_ (event_list kind s)
           = S (registrations cb data_ (event_list kind s'))
        /\ forall k, k <> kind -> event_list k s' = event_list k s).
Proof.
  intros Hl Hd. pose proof (live_not_null _ _ _ Hl) as Hn. destruct Hl as [_ Hs].
  unfold slave_event_callback_del. mrun Hn Hs.
  destruct (find_event cb data_ (event_list kind s)) as [ev|] eqn:Hf.
  - right. mrun Hn Hs. eexists. split; [reflexivity|]. split.
    + rewrite event_list_set. by apply find_event_remove.
    + intros k Hk. by apply event_list_other.
  - left. by apply find_event_none in Hf.
Qed.

(** X9. The observers of an event kind are called newest registration first. *)
Theorem newest_observer_is_called_first w slave s kind cb data_ :
  live w slave s ->
  alloc_ok P (tick w) = true ->
  exists w1 w2,
    slave_event_callback_add P slave (Some kind) cb data_ w = Some (LB_STATUS_SUCCESS, w1)
    /\ invoke_event_cb P kind slave w1 = Some (tt, w2)
    /\ trace w2 = trace w ++ evt_cb_call cb slave data_ :: evt_cb_calls (event_list kind s).
Proof.
  intros Hl Hal. pose proof (live_not_null _ _ _ Hl) as Hn. pose proof Hl as [Hnn Hs].
  unfold slave_event_callback_add.
  mrun Hn Hs. rewrite Hal. mrun Hn Hs.
  eexists. eexists. split; [reflexivity|].
  erewrite invoke_event_cb_run.
  2:{ split; [done|]. cbn. by rewrite lookup_insert_eq. }
  split; [reflexivity|]. cbn. by rewrite event_list_set.
Qed.

Lemma find_data_app tag_ l x :
  find_data tag_ (l ++ [x])
  = match find_data tag_ l with
    | Some priv => Some priv
    | None => if String.eqb (tag x) tag_ then Some x else None
    end.
Proof.
  induction l as [|y l IH]; cbn; [done|]. by destruct (String.eqb (tag y) tag_).
Qed.

Lemma remove_data_app tag_ l x :
  find_data tag_ l = None -> tag x = tag_ -> remove_data tag_ (l ++ [x]) = l.
Proof.
  intros H <-. induction l as [|y l IH]; cbn in *.
  - by rewrite String.eqb_refl.
  - destruct (String.eqb (tag y) (tag x)); [done|]. f_equal. by apply IH.
Qed.

(** X10. A tag is answered with the oldest data stored under it: data stored
    under a tag that is already there is shadowed by the older entry. *)
Theorem slave_data_oldest_entry_wins w slave s tag_ data_ :
  live w slave s ->
  alloc_ok P (tick w) = true ->
  alloc_ok P (S (tick w)) = true ->
  exists w1,
    slave_set_data P slave tag_ data_ w = Some (LB_STATUS_SUCCESS, w1)
    /\ slave_data slave tag_ w1
       = Some (match find_data tag_ (data_list s) with
               | Some priv => data priv
               | None => data_
               end, w1).
Proof.
  intros Hl H1 H2. pose proof (live_not_null _ _ _ Hl) as Hn. destruct Hl as [_ Hs].
  unfold slave_set_data, slave_data.
  mrun Hn Hs. rewrite H1. mrun Hn Hs. rewrite H2. mrun Hn Hs.
  eexists. split; [reflexivity|]. mrun Hn Hs.
  rewrite find_data_app. cbn. rewrite String.eqb_refl.
  by destruct (find_data tag_ (data_list s)).
Qed.

(** X11. Data stored under a tag that is not there and then taken away
    leaves the slave as it was, and is answered as it was stored; taking
    away a tag that is not there answers [NULL] and changes nothing. *)
Theorem slave_set_del_data_round_trip w slave s tag_ data_ :
  live w slave s ->
  find_data tag_ (data_list s) = None ->
  alloc_ok P (tick w) = true ->
  alloc_ok P (S (tick w)) = true ->
  slave_del_data slave tag_ w = Some (NULL, w)
  /\ exists w1 w2,
       slave_set_data P slave tag_ data_ w = Some (LB_STATUS_SUCCESS, w1)
       /\ slave_del_data slave tag_ w1 = Some (data_, w2)
       /\ slaves w2 = slaves w
       /\ trace w2 = trace w.
Proof.
  intros Hl Hnone H1 H2. pose proof (live_not_null _ _ _ Hl) as Hn. destruct Hl as [_ Hs].
  unfold slave_set_data, slave_del_data. split.
  - mrun Hn Hs. by rewrite Hnone.
  - mrun Hn Hs. rewrite H1. mrun Hn Hs. rewrite H2. mrun Hn Hs.
    eexists. eexists. split; [reflexivity|]. mrun Hn Hs.
    rewrite find_data_app, Hnone. cbn. rewrite String.eqb_refl. mrun Hn Hs.
    split; [reflexivity|]. cbn. rewrite remove_data_app by done.
    rewrite insert_insert_eq.
    replace (set_data_list (data_list s) _) with s by (by destruct s).
    by rewrite insert_id.
Qed.

End RegistrationFacts.

Section RegistryLookups.
Context {time_t : Type}.
Variable P : platform.
Implicit Types (w : world time_t) (s : slave_node time_t).

(** A loop that takes the first slave satisfying [sel] and goes on
    otherwise answers the first such slave of the list. *)
Lemma first_match_loop (loop : list slave_ptr -> M time_t slave_ptr)
    (sel : slave_node time_t -> bool) w :
  loop [] w = Some (NULL, w) ->
  (forall p l s, live w p s ->
     loop (p :: l) w = if sel s then Some (p, w) else loop l w) ->
  forall l,
    (forall p, In p l -> p <> NULL /\ exists s, slaves w !! p = Some s) ->
    exists r, loop l w = Some (r, w) /\ first_in w sel l r.
Proof.
  intros Hnil Hcons. induction l as [|p l IH]; intros Hok.
  - exists NULL. split; [done|]. left. split; [done|]. intros ? ? [].
  - destruct (Hok p) as (Hn & s & Hs); [by left|].
    rewrite (Hcons p l s) by done.
    destruct (sel s) eqn:Hsel.
    + exists p. split; [done|]. right. exists [], l, s. split; [done|].
      split; [done|]. split; [done|]. intros ? ? [].
    + destruct IH as (r & E & Hr); [intros; apply Hok; by right|].
      exists r. split; [done|].
      destruct Hr as [[-> Hnone]|(before & after & s' & -> & Hr & Hs' & Hbefore)].
      * left. split; [done|]. intros q sq [<-|Hq] Hsq; [congruence|by eapply Hnone].
      * right. exists (p :: before), after, s'. split; [done|]. split; [done|].
        split; [done|]. intros q sq [<-|Hq] Hsq; [congruence|by eapply Hbefore].
Qed.

(** X12. [slave_find_by_pid] and [slave_find_by_name] answer the first slave
    of the registry list with the process id, or with the name, and
    [NULL] when there is none; they change nothing. A process id of [-1]
    finds the first slave that has no process. *)
Theorem slave_find_by_key_first w pid_ name_ :
  registry_ok w ->
  (exists r, slave_find_by_pid pid_ w = Some (r, w)
             /\ first_in w (fun s => pid s =? pid_) (slave_list w) r)
  /\ (exists r, slave_find_by_name name_ w = Some (r, w)
                /\ first_in w (fun s => String.eqb (name s) name_) (slave_list w) r).
Proof.
  intros Hok. split.
  - unfold slave_find_by_pid. munfold.
    apply (first_match_loop (slave_find_by_pid_loop pid_)); [done| |exact Hok].
    intros p l s Hl. pose proof (live_not_null _ _ _ Hl) as Hn. destruct Hl as [_ Hs].
    cbn [slave_find_by_pid_loop]. unfold slave_pid. mrun Hn Hs.
    by destruct (pid s =? pid_).
  - unfold slave_find_by_name. munfold.
    apply (first_match_loop (slave_find_by_name_loop name_)); [done| |exact Hok].
    intros p l s Hl. pose proof (live_not_null _ _ _ Hl) as Hn. destruct Hl as [_ Hs].
    cbn [slave_find_by_name_loop]. unfold slave_name. mrun Hn Hs.
    by destruct (String.eqb (name s) name_).
Qed.

(** X13. [slave_find_by_pkgname] answers the first slave of the registry list
    that has the package name and no process, so never a slave that has
    a process; it answers [NULL] when there is none, and changes
    nothing. *)
Theorem slave_find_by_pkgname_first_idle w pkgname_ :
  registry_ok w ->
  exists r,
    slave_find_by_pkgname pkgname_ w = Some (r, w)
    /\ first_in w (fun s => String.eqb (pkgname s) pkgname_ && (pid s =? -1))
         (slave_list w) r.
Proof.
  intros Hok. unfold slave_find_by_pkgname. munfold.
  apply (first_match_loop (slave_find_by_pkgname_loop pkgname_)); [done| |exact Hok].
  intros p l s Hl. pose proof (live_not_null _ _ _ Hl) as Hn. destruct Hl as [_ Hs].
  cbn [slave_find_by_pkgname_loop]. unfold slave_pkgname, slave_pid. mrun Hn Hs.
  destruct (String.eqb (pkgname s) pkgname_); cbn; [|done]. mrun Hn Hs.
  by destruct (pid s =? -1).
Qed.


Lemma find_slave_loop_cons name_ w p l s :
  live w p s ->
  find_slave_loop name_ (p :: l) w
  = if String.eqb (name s) name_ then Some (p, w) else find_slave_loop name_ l w.
Proof.
  intros Hl. pose proof (live_not_null _ _ _ Hl) as Hn. destruct Hl as [_ Hs].
  cbn [find_slave_loop]. mrun Hn Hs. by destruct (String.eqb (name s) name_).
Qed.

(** X14. [slave_create] on a name the registry has answers the first slave of
    that name as it is: no slave is made, no reference is taken, and the
    abi, the package name and the network flag asked for are not looked
    at; a secured flag that differs is only reported. *)
Theorem slave_create_answers_existing_slave zeroed name_ is_secured abi_ pkgname_
    network_ w :
  registry_ok w ->
  (exists p s, In p (slave_list w) /\ slaves w !! p = Some s /\ name s = name_) ->
  exists r s,
    slave_create P zeroed name_ is_secured abi_ pkgname_ network_ w
    = Some (r, if secured s =? is_secured then w
               else set_trace (trace w ++ [ErrPrint "Exists slave and creating slave's security flag is not matched\n"]) w)
    /\ live w r s /\ name s = name_
    /\ first_in w (fun s => String.eqb (name s) name_) (slave_list w) r.
Proof.
  intros Hok (p & sp & Hin & Hsp & Hname).
  destruct (first_match_loop (find_slave_loop name_)
              (fun s => String.eqb (name s) name_) w) with (l := slave_list w)
    as (r & E & Hr); [done|by apply find_slave_loop_cons|exact Hok|].
  pose proof Hr as [[-> Hnone]|(before & after & s & Hlist & Hl & Hsel & Hbefore)].
  { exfalso. specialize (Hnone p sp Hin Hsp). cbn in Hnone.
    rewrite Hname, String.eqb_refl in Hnone. done. }
  exists r, s. pose proof (live_not_null _ _ _ Hl) as Hn. pose proof Hl as [_ Hs].
  apply String.eqb_eq in Hsel.
  split; [|done].
  unfold slave_create, find_slave. unfold bind at 1. unfold bind at 1, get at 1.
  rewrite E. mrun Hn Hs. by destruct (secured s =? is_secured).
Qed.

Lemma fresh_address_above (h : gmap N (slave_node time_t)) k s :
  h !! k = Some s -> (k <= map_fold (fun a _ top => N.max a top) 0%N h)%N.
Proof.
  revert k s.
  apply (map_fold_weak_ind
           (fun r (m : gmap N (slave_node time_t)) => forall k s, m !! k = Some s -> (k <= r)%N)).
  - intros k s H. by rewrite lookup_empty in H.
  - intros i x m r Hi IH k s Hk.
    destruct (decide (k = i)) as [->|Hne]; [lia|].
    rewrite lookup_insert_ne in Hk by done. specialize (IH _ _ Hk). lia.
Qed.

Lemma fresh_address_is_fresh w :
  fresh_address w <> NULL /\ slaves w !! fresh_address w = None.
Proof.
  unfold fresh_address, NULL. split; [lia|].
  destruct (slaves w !! _) as [s|] eqn:H; [|done].
  apply fresh_address_above in H. lia.
Qed.

Lemma slave_find_by_name_loop_skip name_ w l rest :
  (forall p, In p l -> exists s, live w p s /\ name s <> name_) ->
  slave_find_by_name_loop name_ (l ++ rest) w = slave_find_by_name_loop name_ rest w.
Proof.
  induction l as [|p l IH]; intros H; [done|].
  destruct (H p) as (s & Hl & Hname); [by left|].
  pose proof (live_not_null _ _ _ Hl) as Hn. destruct Hl as [_ Hs].
  cbn [app slave_find_by_name_loop]. unfold slave_name. mrun Hn Hs.
  apply String.eqb_neq in Hname. rewrite Hname. apply IH. intros; apply H; by right.
Qed.


Lemma find_slave_loop_none name_ w l :
  (forall p, In p l -> exists s, live w p s /\ name s <> name_) ->
  find_slave_loop name_ l w = Some (NULL, w).
Proof.
  induction l as [|p l IH]; intros H; [done|].
  destruct (H p) as (s & Hl & Hname); [by left|].
  rewrite (find_slave_loop_cons _ _ _ _ _ Hl).
  apply String.eqb_neq in Hname. rewrite Hname. apply IH. intros; apply H; by right.
Qed.

(** X15. [slave_create] on a name the registry does not have makes a slave at
    an address that held none, terminated, without a process, with one
    reference and the whole budget of launch retries, puts it at the end
    of the registry list and leaves the other slaves as they were; the
    slave is then the one [slave_find_by_name] answers. *)
Theorem slave_create_registers_new_name zeroed name_ is_secured abi_ pkgname_ network_ w :
  registry_ok w ->
  (forall p s, In p (slave_list w) -> slaves w !! p = Some s -> name s <> name_) ->
  (forall t, (tick w <= t < tick w + 4)%nat -> alloc_ok P t = true) ->
  exists slave w' s,
    slave_create P zeroed name_ is_secured abi_ pkgname_ network_ w = Some (slave, w')
    /\ slave <> NULL
    /\ slaves w !! slave = None
    /\ slaves w' = <[slave := s]> (slaves w)
    /\ slave_list w' = slave_list w ++ [slave]
    /\ registry_ok w'
    /\ name s = name_ /\ secured s = is_secured /\ abi s = abi_
    /\ pkgname s = pkgname_ /\ network s = network_
    /\ refcnt s = 1 /\ pid s = -1 /\ state s = SLAVE_TERMINATED
    /\ relaunch_count s = SLAVE_RELAUNCH_COUNT P
    /\ slave_find_by_name name_ w' = Some (slave, w').
Proof.
  intros Hok Hnew Hal.
  destruct (fresh_address_is_fresh w) as [Hnn Hfresh].
  assert (Hn : N.eqb (fresh_address w) NULL = false) by (by apply N.eqb_neq).
  assert (Hold : forall p, In p (slave_list w) ->
                   exists s, live w p s /\ name s <> name_).
  { intros p Hp. destruct (Hok p Hp) as (Hpn & s & Hs). exists s.
    split; [by split|]. by eapply Hnew. }
  exists (fresh_address w).
  unfold slave_create, find_slave. unfold bind at 1. unfold bind at 1, get at 1.
  rewrite (find_slave_loop_none _ _ _ Hold).
  unfold create_slave_node, slave_ref.
  munfold. cbn.
  rewrite (Hal (tick w)) by lia. cbn.
  rewrite (Hal (S (tick w))) by lia. cbn.
  rewrite (Hal (S (S (tick w)))) by lia. cbn.
  rewrite (Hal (S (S (S (tick w))))) by lia.
  cbn. change (fresh_address (set_tick _ _)) with (fresh_address w).
  remember (fresh_address w) as slave eqn:Eslave. clear Eslave.
  mrun Hn Hfresh.
  eexists _, _. split; [reflexivity|]. cbn.
  rewrite insert_insert_eq.
  split; [done|]. split; [done|]. split; [reflexivity|]. split; [done|].
  split.
  { intros p Hp. cbn in Hp. apply in_app_or in Hp as [Hp|[<-|[]]].
    - destruct (Hok p Hp) as (Hpn & s & Hs). split; [done|]. exists s. cbn.
      rewrite lookup_insert_ne; [done|]. intros <-. congruence.
    - split; [done|]. eexists. cbn. by rewrite lookup_insert_eq. }
  do 9 (split; [reflexivity|]).
  unfold slave_find_by_name. munfold. cbn.
  rewrite slave_find_by_name_loop_skip.
  - cbn [slave_find_by_name_loop]. unfold slave_name. munfold. cbn.
    rewrite Hn, lookup_insert_eq. cbn. by rewrite String.eqb_refl.
  - intros p Hp. destruct (Hold p Hp) as (s & [Hpn Hs] & Hname). exists s.
    split; [|done]. split; [done|]. cbn.
    rewrite lookup_insert_ne; [done|]. intros <-. congruence.
Qed.

End RegistryLookups.

Section ReferenceFacts.
Context {time_t : Type}.
Variable P : platform.
Implicit Types (w : world time_t) (s : slave_node time_t).

Lemma set_refcnt_same s : set_refcnt (refcnt s) s = s.
Proof. by destruct s. Qed.

(** X16. A reference taken and given back leaves the slave as it was; a
    reference given back on a slave that has none is refused: the count
    never goes below zero. *)
Theorem slave_ref_unref_round_trip w slave s :
  live w slave s ->
  (0 < refcnt s < INT_MAX ->
   exists w1, slave_ref slave w = Some (slave, w1)
              /\ slave_unref P slave w1 = Some (slave, set_slaves (slaves w) w1)
              /\ set_slaves (slaves w) w1 = w)
  /\ (refcnt s = 0 ->
      slave_unref P slave w
      = Some (NULL, set_trace (trace w ++ [ErrPrint "Slave refcnt is not valid\n"]) w)).
Proof.
  intros Hl. pose proof (live_not_null _ _ _ Hl) as Hn. destruct Hl as [_ Hs]. split.
  - intros Hr. unfold slave_ref, slave_unref. mrun Hn Hs.
    eexists. split; [reflexivity|]. mrun Hn Hs.
    rewrite int_incr_exact by (unfold INT_MIN; lia).
    replace (refcnt s + 1 =? 0) with false by (symmetry; apply Z.eqb_neq; lia).
    mrun Hn Hs. rewrite int_decr_exact by (unfold INT_MIN in *; lia).
    replace (refcnt s + 1 - 1) with (refcnt s) by lia.
    replace (refcnt s =? 0) with false by (symmetry; apply Z.eqb_neq; lia).
    replace (set_refcnt (refcnt s) (set_refcnt (refcnt s + 1) s)) with s
      by (by destruct s).
    rewrite insert_insert_eq, insert_id by done.
    split; [reflexivity|]. by destruct w.
  - intros Hr. unfold slave_unref. mrun Hn Hs. by rewrite Hr.
Qed.

(** X17. Giving back the last reference of a slave that has no process
    destroys it: the observers of the display state are unregistered,
    the observers of the deletion are called in the order of their list,
    the rpc side is closed, the slave is taken off the registry list,
    the timers it holds are deleted, and its address holds nothing any
    more. *)
Theorem slave_unref_destroys_idle_slave w slave s :
  live w slave s ->
  refcnt s = 1 ->
  pid s = -1 ->
  exists w',
    slave_unref P slave w = Some (NULL, w')
    /\ slaves w' = delete slave (slaves w)
    /\ slave_list w' = eina_list_remove N.eqb (slave_list w) slave
    /\ trace w' = trace w
                  ++ [xmonitor_del_event_callback XMONITOR_PAUSED slave;
                      xmonitor_del_event_callback XMONITOR_RESUMED slave]
                  ++ evt_cb_calls (event_delete_list s)
                  ++ [slave_rpc_fini slave]
                  ++ timer_deletion (ttl_timer s)
                  ++ timer_deletion (activate_timer s)
                  ++ timer_deletion (relaunch_timer s).
Proof.
  intros Hl Hr Hp. pose proof (live_not_null _ _ _ Hl) as Hn. pose proof Hl as [Hnn Hs].
  unfold slave_unref, destroy_slave_node, slave_pid, invoke_delete_cb.
  repeat (mrun Hn Hs; rewrite ?Hr, ?Hp, ?int_decr_one).
  erewrite invoke_cb_run;
    [|apply (event_list_is_list_field SLAVE_EVENT_DELETE)
     |split; [done|]; cbn; by rewrite lookup_insert_eq].
  mrun Hn Hs.
  unfold timer_del_if, timer_deletion.
  destruct (ttl_timer s), (activate_timer s), (relaunch_timer s); mrun Hn Hs;
    (eexists; split; [reflexivity|]; cbn;
     rewrite ?delete_insert_eq, <- ?app_assoc; cbn; done).
Qed.

(** X18. A request to stop all the slaves made while they are already
    stopped, and the request to start them that answers it, do nothing
    but count: both answer [0], no slave is touched, and the world is
    then as it was. *)
Theorem nested_deactivate_all_only_counts reactivate reactivate_instances_ w :
  1 <= deactivate_all_refcnt w < INT_MAX ->
  exists w1,
    slave_deactivate_all P reactivate reactivate_instances_ w = Some (0, w1)
    /\ deactivate_all_refcnt w1 = deactivate_all_refcnt w + 1
    /\ slaves w1 = slaves w /\ trace w1 = trace w
    /\ slave_activate_all P w1 = Some (0, w).
Proof.
  intros Hr. unfold slave_deactivate_all, slave_activate_all. munfold. cbn.
  rewrite int_incr_exact by (unfold INT_MIN; lia).
  replace (1 <? deactivate_all_refcnt w + 1) with true by (symmetry; apply Z.ltb_lt; lia).
  eexists. split; [reflexivity|]. cbn.
  rewrite int_decr_exact by (unfold INT_MIN, INT_MAX in *; lia).
  replace (deactivate_all_refcnt w + 1 - 1) with (deactivate_all_refcnt w) by lia.
  replace (0 <? deactivate_all_refcnt w) with true by (symmetry; apply Z.ltb_lt; lia).
  repeat split. by destruct w.
Qed.

End ReferenceFacts.

Section LifeCycle.
Context {time_t : Type}.
Variable P : platform.
Implicit Types (w : world time_t) (s : slave_node time_t).

Lemma slave_state_eqb_eq (a b : enum_slave_state) :
  slave_state_eqb a b = true <-> a = b.
Proof. destruct a, b; cbn; split; congruence. Qed.

Lemma world_eta_trace w : set_trace (trace w) (set_slaves (slaves w) w) = w.
Proof. by destruct w. Qed.

Lemma launch_count_app a b : launch_count (a ++ b) = (launch_count a + launch_count b)%nat.
Proof.
  induction a as [|e a IH]; [done|]. destruct e; cbn; rewrite ?IH; done.
Qed.

Lemma launch_count_calls l : launch_count (evt_cb_calls l) = 0%nat.
Proof. by induction l. Qed.

Lemma launch_count_timer_deletion t : launch_count (timer_deletion t) = 0%nat.
Proof. by destruct t. Qed.

Lemma no_launch_same w w' : trace w' = trace w -> no_launch w w'.
Proof. intros H. exists []. by rewrite app_nil_r. Qed.

Lemma no_launch_by w w' added :
  trace w' = trace w ++ added -> launch_count added = 0%nat -> no_launch w w'.
Proof. intros H H0. by exists added. Qed.

Lemma no_launch_trans w1 w2 w3 : no_launch w1 w2 -> no_launch w2 w3 -> no_launch w1 w3.
Proof.
  intros (a & Ha & Ha0) (b & Hb & Hb0). exists (a ++ b).
  by rewrite Hb, Ha, app_assoc, launch_count_app, Ha0, Hb0.
Qed.

Lemma no_launch_grows w w' : no_launch w w' -> trace_grows w w'.
Proof. intros (a & Ha & _). by exists a. Qed.

Ltac nolaunch :=
  first [ apply no_launch_same; reflexivity
        | eapply no_launch_by;
          [ cbn; rewrite <- ?app_assoc; reflexivity
          | rewrite ?launch_count_app, ?launch_count_calls, ?launch_count_timer_deletion;
            reflexivity ] ].

Lemma trace_grows_refl w : trace_grows w w.
Proof. exists []. by rewrite app_nil_r. Qed.

Lemma trace_grows_trans w1 w2 w3 :
  trace_grows w1 w2 -> trace_grows w2 w3 -> trace_grows w1 w3.
Proof. intros [a Ha] [b Hb]. exists (a ++ b). by rewrite Hb, Ha, app_assoc. Qed.

Lemma trace_grows_by w w' added : trace w' = trace w ++ added -> trace_grows w w'.
Proof. intros H. by exists added. Qed.

Lemma trace_grows_same w w' : trace w' = trace w -> trace_grows w w'.
Proof. intros H. exists []. by rewrite app_nil_r. Qed.

Ltac grows :=
  first [ apply trace_grows_same; reflexivity
        | eapply trace_grows_by; cbn; rewrite <- ?app_assoc; reflexivity ].

Lemma same_but_refl slave w : same_but slave w w.
Proof. done. Qed.

Lemma same_but_trans slave w1 w2 w3 :
  same_but slave w1 w2 -> same_but slave w2 w3 -> same_but slave w1 w3.
Proof.
  intros (H1 & H2 & H3) (K1 & K2 & K3). split; [|split; congruence].
  intros p Hp. by rewrite K1, H1.
Qed.

Lemma same_but_destroyed slave w1 w2 w3 :
  same_but slave w1 w2 -> destroyed slave w2 w3 -> destroyed slave w1 w3.
Proof.
  intros (H1 & H2 & H3) (K1 & K2 & K3 & K4). split; [|split; [done|split; congruence]].
  intros p Hp. by rewrite K1, H1.
Qed.

Lemma same_but_touches slave w w' : same_but slave w w' -> touches_only slave w w'.
Proof. intros (H1 & H2 & H3). split; [done|]. split; [by left|done]. Qed.

Lemma destroyed_touches slave w w' : destroyed slave w w' -> touches_only slave w w'.
Proof. intros (H1 & _ & H2 & H3). split; [done|]. split; [by right|done]. Qed.

Lemma same_but_then_touches slave w1 w2 w3 :
  same_but slave w1 w2 -> touches_only slave w2 w3 -> touches_only slave w1 w3.
Proof.
  intros (H1 & H2 & H3) (K1 & K2 & K3). split; [|split; [|congruence]].
  - intros p Hp. by rewrite K1, H1.
  - by rewrite <- H2.
Qed.

Lemma touches_then_same_but slave w1 w2 w3 :
  touches_only slave w1 w2 -> same_but slave w2 w3 -> touches_only slave w1 w3.
Proof.
  intros (H1 & H2 & H3) (K1 & K2 & K3). split; [|split; [|congruence]].
  - intros p Hp. by rewrite K1, H1.
  - by rewrite K2.
Qed.

(** A world that differs from [w] by the object of [slave] at most. *)
Ltac same_but_now :=
  split; [intros ? ?; cbn; by rewrite ?lookup_insert_ne by done|split; reflexivity].

(** What [slave_activate] leaves of a slave that has no process and is
    not requested to launch, whatever the launcher and the allocator
    answer. *)
Lemma slave_activate_post w slave s :
  live w slave s ->
  pid s = -1 ->
  state s <> SLAVE_REQUEST_TO_LAUNCH ->
  exists r w' s',
    slave_activate P slave w = Some (r, w')
    /\ live w' slave s'
    /\ same_but slave w w'
    /\ trace_grows w w'
    /\ ttl_timer s' = ttl_timer s
    /\ fault_count s' = fault_count s
    /\ (state s' = SLAVE_REQUEST_TO_LAUNCH
        \/ (state s' = state s /\ pid s' = -1
            /\ activate_timer s' = activate_timer s
            /\ (relaunch_timer s' = relaunch_timer s \/ relaunch_timer s' = None))).
Proof.
  intros Hl Hp Hst. pose proof (live_not_null _ _ _ Hl) as Hn. pose proof Hl as [Hnn Hs].
  assert (Hst' : slave_state_eqb (state s) SLAVE_REQUEST_TO_LAUNCH = false).
  { destruct (slave_state_eqb _ _) eqn:E; [|done]. by apply slave_state_eqb_eq in E. }
  unfold slave_activate, slave_pid, slave_state, slave_ref, timer_add.
  mrun Hn Hs. rewrite Hp. mrun Hn Hs. rewrite Hst'.
  repeat (mrun Hn Hs;
          try match goal with
              | |- context [DEBUG_MODE P =? 0] => destruct (DEBUG_MODE P =? 0) eqn:?
              | |- context [alloc_ok P ?t] => destruct (alloc_ok P t) eqn:?
              | |- context [aul_class P ?r] => destruct (aul_class P r) eqn:?
              end).
  all: eexists _, _, _; (split; [reflexivity|]);
    (split; [split; [done|]; cbn; apply lookup_insert_eq|]);
    (split; [same_but_now|]); (split; [grows|]); cbn; tauto.
Qed.


(** X20. [slave_activate] on a slave that has no process and is not requested
    to launch, when no allocation fails: the launcher is called once, and
    whatever it answers the slave is requested to launch, holds one more
    reference, has the whole budget of retries and a timer of its
    activation, and [LB_STATUS_SUCCESS] is answered; a fatal answer of
    the launcher leaves the slave without process, an answer that asks
    for another try is kept as the process id and arms the relaunch
    timer. *)
Theorem slave_activate_outcomes w slave s :
  live w slave s ->
  pid s = -1 ->
  state s <> SLAVE_REQUEST_TO_LAUNCH ->
  DEBUG_MODE P = 0 ->
  (forall t, alloc_ok P t = true) ->
  exists w' s' added,
    slave_activate P slave w = Some (LB_STATUS_SUCCESS, w')
    /\ slaves w' = <[slave := s']> (slaves w)
    /\ trace w' = trace w ++ added
    /\ launch_count added = 1%nat
    /\ state s' = SLAVE_REQUEST_TO_LAUNCH
    /\ refcnt s' = int_incr (refcnt s)
    /\ relaunch_count s' = SLAVE_RELAUNCH_COUNT P
    /\ activate_timer s' <> None
    /\ match aul_class P (aul_launch_app P (S (tick w))) with
       | LAUNCH_DONE =>
           pid s' = aul_launch_app P (S (tick w)) /\ relaunch_timer s' = relaunch_timer s
       | LAUNCH_RETRY =>
           pid s' = aul_launch_app P (S (tick w)) /\ relaunch_timer s' <> None
       | LAUNCH_FATAL => pid s' = -1 /\ relaunch_timer s' = relaunch_timer s
       end.
Proof.
  intros Hl Hp Hst Hdbg Hal.
  pose proof (live_not_null _ _ _ Hl) as Hn. pose proof Hl as [Hnn Hs].
  assert (Hst' : slave_state_eqb (state s) SLAVE_REQUEST_TO_LAUNCH = false).
  { destruct (slave_state_eqb _ _) eqn:E; [|done]. by apply slave_state_eqb_eq in E. }
  unfold slave_activate, slave_pid, slave_state, slave_ref, timer_add.
  mrun Hn Hs. rewrite Hp. mrun Hn Hs. rewrite Hst', Hdbg.
  repeat (mrun Hn Hs; rewrite ?Hal).
  destruct (aul_class P (aul_launch_app P (S (tick w)))) eqn:Hclass;
    repeat (mrun Hn Hs; rewrite ?Hal);
    eexists _, _, _; (split; [reflexivity|]); cbn;
    rewrite ?insert_insert_eq, <- ?app_assoc;
    (split; [reflexivity|]); (split; [reflexivity|]); cbn; done.
Qed.


Lemma timer_clear_run (field : slave_node time_t -> option Ecore_Timer)
    (set_field : option Ecore_Timer -> slave_node time_t -> slave_node time_t)
    slave w s :
  (forall s, set_field (field s) s = s) ->
  live w slave s ->
  timer_clear field set_field slave w
  = Some (tt, set_trace (trace w ++ timer_deletion (field s))
                (set_slaves (<[slave := set_field None s]> (slaves w)) w)).
Proof.
  intros Hsame Hl. pose proof (live_not_null _ _ _ Hl) as Hn. pose proof Hl as [Hnn Hs].
  unfold timer_clear. mrun Hn Hs.
  destruct (field s) as [t|] eqn:Hf; mrun Hn Hs; [done|].
  rewrite <- Hf, Hsame, insert_id, app_nil_r by done. by rewrite world_eta_trace.
Qed.


Ltac live_now := split; [done|]; cbn; by rewrite ?lookup_insert_eq.

(** X21. [slave_activated], the hello of a launched slave, when no allocation
    fails: the observers of the activation are called in the order of
    their list, the timers of the activation and of the relaunch are
    deleted and forgotten, both reactivation flags are cleared, a
    secured slave gets its timer of life, and the slave is resumed, or
    requested to pause when the display is off; the process id and the
    references are kept. *)
Theorem slave_activated_completes_the_launch stamp w slave s :
  only_stamps stamp ->
  live w slave s ->
  (forall t, alloc_ok P t = true) ->
  exists w' s',
    slave_activated P stamp slave w = Some (LB_STATUS_SUCCESS, w')
    /\ slaves w' = <[slave := s']> (slaves w)
    /\ (exists before errs,
          trace w' = trace w ++ before ++ evt_cb_calls (event_activate_list s) ++ errs
                     ++ timer_deletion (activate_timer s)
                     ++ timer_deletion (relaunch_timer s))
    /\ state s' = (if xmonitor_is_paused P (tick w)
                   then SLAVE_REQUEST_TO_PAUSE else SLAVE_RESUMED)
    /\ pid s' = pid s /\ refcnt s' = refcnt s
    /\ activate_timer s' = None /\ relaunch_timer s' = None
    /\ reactivate_slave s' = 0 /\ reactivate_instances s' = 0
    /\ (if secured s =? 1 then ttl_timer s' <> None else ttl_timer s' = ttl_timer s).
Proof.
  intros Hstamp Hl Hal.
  pose proof (live_not_null _ _ _ Hl) as Hn. pose proof Hl as [Hnn Hs].
  unfold slave_activated, slave_pause, timer_add, invoke_activate_cb,
    slave_set_reactivation, slave_set_reactivate_instances.
  mrun Hn Hs.
  destruct (xmonitor_is_paused P (tick w)); repeat (mrun Hn Hs; rewrite ?Hal);
    destruct (secured s =? 1); repeat (mrun Hn Hs; rewrite ?Hal);
    (erewrite invoke_cb_run;
       [|apply (event_list_is_list_field SLAVE_EVENT_ACTIVATE)|live_now]);
    mrun Hn Hs;
    match goal with
    | |- context [stamp slave ?W] =>
        edestruct (Hstamp slave W) as (at_ & errs & Est); [live_now|rewrite Est]
    end;
    mrun Hn Hs;
    (erewrite (timer_clear_run activate_timer set_activate_timer);
       [|by intros []|live_now]);
    mrun Hn Hs;
    (erewrite (timer_clear_run relaunch_timer set_relaunch_timer);
       [|by intros []|live_now]);
    eexists _, _; (split; [reflexivity|]); cbn;
    (split; [rewrite ?insert_insert_eq; reflexivity|]);
    (split; [rewrite <- ?app_assoc;
             first [by eexists [], errs | by eexists [_], errs | by eexists [_; _], errs]
            |]);
    cbn; done.
Qed.


(** X22. The handshake of a pause.  [slave_pause] on a slave that is resumed,
    or requested to resume, sends one request and leaves the slave
    requested to pause.  The acknowledgement with status [0] makes it
    paused, freezes the ping and calls the observers of the pause in the
    order of their list; a request that could not be sent puts the slave
    back to resumed; an acknowledgement with another status changes
    nothing, so the slave stays requested to pause. *)
Theorem pause_handshake w slave s :
  live w slave s ->
  state s = SLAVE_RESUMED \/ state s = SLAVE_REQUEST_TO_RESUME ->
  alloc_ok P (S (tick w)) = true ->
  exists w1,
    slave_pause P slave w
    = Some (RPC_STATUS (slave_rpc_async_request P (S (S (tick w)))), w1)
    /\ slaves w1 = <[slave := set_state SLAVE_REQUEST_TO_PAUSE s]> (slaves w)
    /\ trace w1 = trace w ++ [slave_rpc_request slave "pause" (util_timestamp P (tick w))]
    /\ (exists w2 s2,
          pause_cb P slave (Some (Some 0)) w1 = Some (tt, w2)
          /\ trace w2 = trace w1 ++ slave_rpc_ping_freeze slave
                                    :: evt_cb_calls (event_pause_list s)
          /\ slaves w2 !! slave = Some s2 /\ state s2 = SLAVE_PAUSED)
    /\ pause_cb P slave None w1
       = Some (tt, set_trace (trace w1 ++ [ErrPrint "Failed to change the state of the slave\n"])
                     (set_slaves (<[slave := set_state SLAVE_RESUMED s]> (slaves w)) w1))
    /\ (forall r, r <> 0 -> pause_cb P slave (Some (Some r)) w1 = Some (tt, w1)).
Proof.
  intros Hl Hst Hal.
  pose proof (live_not_null _ _ _ Hl) as Hn. pose proof Hl as [Hnn Hs].
  unfold pause_cb, invoke_paused_cb.
  assert (E : slave_pause P slave w
              = Some (RPC_STATUS (slave_rpc_async_request P (S (S (tick w)))),
                      set_tick (S (S (S (tick w))))
                        (set_trace (trace w ++ [slave_rpc_request slave "pause"
                                                  (util_timestamp P (tick w))])
                           (set_slaves (<[slave := set_state SLAVE_REQUEST_TO_PAUSE s]>
                                          (slaves w)) w)))).
  { unfold slave_pause. mrun Hn Hs.
    destruct Hst as [-> | ->]; mrun Hn Hs; rewrite Hal; mrun Hn Hs; done. }
  rewrite E. eexists. split; [reflexivity|].
  split; [reflexivity|]. split; [reflexivity|].
  split; [|split].
  - mrun Hn Hs.
    erewrite invoke_cb_run;
      [|apply (event_list_is_list_field SLAVE_EVENT_PAUSE)|live_now].
    eexists _, _. split; [reflexivity|]. cbn.
    rewrite <- app_assoc, lookup_insert_eq. done.
  - mrun Hn Hs. by rewrite insert_insert_eq.
  - intros r Hr. mrun Hn Hs. apply Z.eqb_neq in Hr. by rewrite Hr.
Qed.

(** X23. The handshake of a resume, likewise: one request, the slave
    requested to resume; status [0] makes it resumed, thaws the ping and
    calls the observers of the resume; a request that could not be sent
    puts the slave back to paused; another status changes nothing. *)
Theorem resume_handshake w slave s :
  live w slave s ->
  state s = SLAVE_PAUSED \/ state s = SLAVE_REQUEST_TO_PAUSE ->
  alloc_ok P (S (tick w)) = true ->
  exists w1,
    slave_resume P slave w
    = Some (RPC_STATUS (slave_rpc_async_request P (S (S (tick w)))), w1)
    /\ slaves w1 = <[slave := set_state SLAVE_REQUEST_TO_RESUME s]> (slaves w)
    /\ trace w1 = trace w ++ [slave_rpc_request slave "resume" (util_timestamp P (tick w))]
    /\ (exists w2 s2,
          resume_cb P slave (Some (Some 0)) w1 = Some (tt, w2)
          /\ trace w2 = trace w1 ++ slave_rpc_ping_thaw slave
                                    :: evt_cb_calls (event_resume_list s)
          /\ slaves w2 !! slave = Some s2 /\ state s2 = SLAVE_RESUMED)
    /\ resume_cb P slave None w1
       = Some (tt, set_trace (trace w1 ++ [ErrPrint "Failed to change the state of the slave\n"])
                     (set_slaves (<[slave := set_state SLAVE_PAUSED s]> (slaves w)) w1))
    /\ (forall r, r <> 0 -> resume_cb P slave (Some (Some r)) w1 = Some (tt, w1)).
Proof.
  intros Hl Hst Hal.
  pose proof (live_not_null _ _ _ Hl) as Hn. pose proof Hl as [Hnn Hs].
  unfold resume_cb, invoke_resumed_cb.
  assert (E : slave_resume P slave w
              = Some (RPC_STATUS (slave_rpc_async_request P (S (S (tick w)))),
                      set_tick (S (S (S (tick w))))
                        (set_trace (trace w ++ [slave_rpc_request slave "resume"
                                                  (util_timestamp P (tick w))])
                           (set_slaves (<[slave := set_state SLAVE_REQUEST_TO_RESUME s]>
                                          (slaves w)) w)))).
  { unfold slave_resume. mrun Hn Hs.
    destruct Hst as [-> | ->]; mrun Hn Hs; rewrite Hal; mrun Hn Hs; done. }
  rewrite E. eexists. split; [reflexivity|].
  split; [reflexivity|]. split; [reflexivity|].
  split; [|split].
  - mrun Hn Hs.
    erewrite invoke_cb_run;
      [|apply (event_list_is_list_field SLAVE_EVENT_RESUME)|live_now].
    eexists _, _. split; [reflexivity|]. cbn.
    rewrite <- app_assoc, lookup_insert_eq. done.
  - mrun Hn Hs. by rewrite insert_insert_eq.
  - intros r Hr. mrun Hn Hs. apply Z.eqb_neq in Hr. by rewrite Hr.
Qed.

(** X24. An acknowledgement that arrives when the slave is requested to
    terminate is ignored, whatever it says: the state is kept, the ping
    is not touched and no observer is called. *)
Theorem late_acknowledgement_is_ignored w slave s packet :
  live w slave s ->
  state s = SLAVE_REQUEST_TO_TERMINATE ->
  resume_cb P slave packet w = Some (tt, w)
  /\ pause_cb P slave packet w = Some (tt, w).
Proof.
  intros Hl Hst.
  pose proof (live_not_null _ _ _ Hl) as Hn. pose proof Hl as [Hnn Hs].
  unfold resume_cb, pause_cb. split; mrun Hn Hs; by rewrite Hst.
Qed.




(** The destruction of a slave that has no process, run. *)
Lemma destroy_slave_node_run w slave s :
  live w slave s ->
  pid s = -1 ->
  exists w',
    destroy_slave_node P slave w = Some (tt, w')
    /\ slaves w' = delete slave (slaves w)
    /\ slave_list w' = eina_list_remove N.eqb (slave_list w) slave
    /\ deactivate_all_refcnt w' = deactivate_all_refcnt w
    /\ trace w' = trace w
                  ++ [xmonitor_del_event_callback XMONITOR_PAUSED slave;
                      xmonitor_del_event_callback XMONITOR_RESUMED slave]
                  ++ evt_cb_calls (event_delete_list s)
                  ++ [slave_rpc_fini slave]
                  ++ timer_deletion (ttl_timer s)
                  ++ timer_deletion (activate_timer s)
                  ++ timer_deletion (relaunch_timer s).
Proof.
  intros Hl Hp. pose proof (live_not_null _ _ _ Hl) as Hn. pose proof Hl as [Hnn Hs].
  unfold destroy_slave_node, slave_pid, invoke_delete_cb.
  mrun Hn Hs. rewrite Hp. mrun Hn Hs.
  erewrite invoke_cb_run;
    [|apply (event_list_is_list_field SLAVE_EVENT_DELETE)|live_now].
  mrun Hn Hs.
  unfold timer_del_if, timer_deletion.
  destruct (ttl_timer s), (activate_timer s), (relaunch_timer s); mrun Hn Hs;
    (eexists; split; [reflexivity|]; cbn;
     rewrite ?delete_insert_eq, <- ?app_assoc; cbn; done).
Qed.

(** What [slave_unref] does to a slave that has no process. *)
Lemma slave_unref_idle_cases w slave s :
  live w slave s ->
  pid s = -1 ->
  (refcnt s = 0
   /\ slave_unref P slave w
      = Some (NULL, set_trace (trace w ++ [ErrPrint "Slave refcnt is not valid\n"]) w))
  \/ (refcnt s <> 0 /\ int_decr (refcnt s) = 0
      /\ exists w', slave_unref P slave w = Some (NULL, w')
                    /\ destroyed slave w w'
                    /\ no_launch w w')
  \/ (refcnt s <> 0 /\ int_decr (refcnt s) <> 0
      /\ slave_unref P slave w
         = Some (slave, set_slaves (<[slave := set_refcnt (int_decr (refcnt s)) s]>
                                      (slaves w)) w)).
Proof.
  intros Hl Hp. pose proof (live_not_null _ _ _ Hl) as Hn. pose proof Hl as [Hnn Hs].
  unfold slave_unref. mrun Hn Hs.
  destruct (Z.eqb_spec (refcnt s) 0) as [Hr|Hr]; [by left|right].
  mrun Hn Hs.
  destruct (Z.eqb_spec (int_decr (refcnt s)) 0) as [Hd|Hd]; [left|by right].
  split; [done|]. split; [done|].
  edestruct (destroy_slave_node_run
               (set_slaves (<[slave := set_refcnt (int_decr (refcnt s)) s]> (slaves w)) w)
               slave) as (w' & E & Hh & Hsl & Hda & Ht); [live_now|exact Hp|].
  rewrite E. exists w'. split; [done|]. split.
  - split; [|split; [|split; [exact Hsl|exact Hda]]].
    + intros p Hp'. rewrite Hh. cbn.
      by rewrite lookup_delete_ne, lookup_insert_ne by done.
    + rewrite Hh. apply lookup_delete_eq.
  - eapply no_launch_by; [exact Ht|].
    by rewrite !launch_count_app, launch_count_calls, !launch_count_timer_deletion.
Qed.

End LifeCycle.

Lemma stamp_activated_at_ecore_run (P : platform) (slave : slave_ptr) (w : world Q)
    (s : slave_node Q) :
  live w slave s ->
  stamp_activated_at_ecore P slave w
  = Some (tt, set_tick (1 + tick w)
                (set_trace (trace w ++ [])
                   (set_slaves (<[slave := set_activated_at (ecore_time_get P (tick w)) s]>
                                  (slaves w)) w))).
Proof.
  intros Hl. pose proof (live_not_null _ _ _ Hl) as Hn. pose proof Hl as [Hnn Hs].
  unfold stamp_activated_at_ecore. mrun Hn Hs. by rewrite app_nil_r.
Qed.

Lemma stamp_activated_at_timeval_run (P : platform) (slave : slave_ptr)
    (w : world timeval) (s : slave_node timeval) :
  live w slave s ->
  exists at_ errs,
    stamp_activated_at_timeval P slave w
    = Some (tt, set_tick (1 + tick w)
                  (set_trace (trace w ++ errs)
                     (set_slaves (<[slave := set_activated_at at_ s]> (slaves w)) w))).
Proof.
  intros Hl. pose proof (live_not_null _ _ _ Hl) as Hn. pose proof Hl as [Hnn Hs].
  unfold stamp_activated_at_timeval. mrun Hn Hs.
  destruct (gettimeofday P (tick w)); mrun Hn Hs.
  - eexists _, []. by rewrite app_nil_r.
  - by eexists _, [_].
Qed.


Section Deactivation.
Context {time_t : Type}.
Variable P : platform.
Implicit Types (w : world time_t) (s : slave_node time_t).

Ltac live_now := split; [done|]; cbn; by rewrite ?lookup_insert_eq.

Ltac same_but_now :=
  split; [intros ? ?; cbn; by rewrite ?lookup_insert_ne by done|split; reflexivity].

Ltac nolaunch :=
  first [ apply no_launch_same; reflexivity
        | eapply no_launch_by;
          [ cbn; rewrite <- ?app_assoc; reflexivity
          | rewrite ?launch_count_app, ?launch_count_calls, ?launch_count_timer_deletion;
            reflexivity ] ].

(** The two halves of [slave_deactivated]: the slave is put to rest and
    the observers vote; then the reference of the process is given back
    and the slave is launched again or let go. *)
Local Abbreviation put_to_rest :=
  (fun slave : slave_ptr =>
     let* _ := store slave (set_pid (-1)) in
     let* _ := store slave (set_state SLAVE_TERMINATED) in
     let* _ := timer_clear ttl_timer set_ttl_timer slave in
     let* _ := timer_clear activate_timer set_activate_timer slave in
     let* _ := timer_clear relaunch_timer set_relaunch_timer slave in
     invoke_deactivate_cb P slave).

Local Abbreviation let_go_or_relaunch :=
  (fun (slave : slave_ptr) (reactivate : Z) =>
     let* slave := slave_unref P slave in
     if N.eqb slave NULL then ret slave
     else
       let* need := slave_need_to_reactivate slave in
       if negb (reactivate =? 0) && negb (need =? 0) then
         let* r := slave_activate P slave in
         (match r with
          | LB_STATUS_ERROR_ALREADY => ret tt
          | _ => if lb_is_error r then log (ErrPrint "Failed to reactivate a slave\n")
                 else ret tt
          end) >>
         ret slave
       else
         let* li := slave_loaded_instance slave in
         if li =? 0 then slave_unref P slave else ret slave).

Lemma slave_deactivated_halves slave w :
  slave_deactivated P slave w
  = match put_to_rest slave w with
    | Some (reactivate, w1) => let_go_or_relaunch slave reactivate w1
    | None => None
    end.
Proof.
  unfold slave_deactivated, bind.
  destruct (store slave (set_pid (-1)) w) as [[[] w1]|]; [|done].
  destruct (store slave (set_state SLAVE_TERMINATED) w1) as [[[] w2]|]; [|done].
  destruct (timer_clear ttl_timer set_ttl_timer slave w2) as [[[] w3]|]; [|done].
  destruct (timer_clear activate_timer set_activate_timer slave w3) as [[[] w4]|]; [|done].
  destruct (timer_clear relaunch_timer set_relaunch_timer slave w4) as [[[] w5]|]; [|done].
  reflexivity.
Qed.

Lemma put_to_rest_run w slave s :
  live w slave s ->
  exists w1 s1,
    put_to_rest slave w
    = Some (reactivation_votes P (tick w) (event_deactivate_list s) 0, w1)
    /\ live w1 slave s1
    /\ same_but slave w w1
    /\ trace w1 = trace w ++ timer_deletion (ttl_timer s)
                  ++ timer_deletion (activate_timer s)
                  ++ timer_deletion (relaunch_timer s)
                  ++ evt_cb_calls (event_deactivate_list s)
    /\ at_rest s1
    /\ refcnt s1 = refcnt s /\ reactivate_slave s1 = reactivate_slave s
    /\ fault_count s1 = fault_count s.
Proof.
  intros Hl. pose proof (live_not_null _ _ _ Hl) as Hn. pose proof Hl as [Hnn Hs].
  mrun Hn Hs.
  erewrite (timer_clear_run ttl_timer set_ttl_timer); [|by intros []|live_now].
  mrun Hn Hs.
  erewrite (timer_clear_run activate_timer set_activate_timer); [|by intros []|live_now].
  mrun Hn Hs.
  erewrite (timer_clear_run relaunch_timer set_relaunch_timer); [|by intros []|live_now].
  mrun Hn Hs.
  erewrite invoke_deactivate_cb_run; [|live_now].
  eexists _, _. split; [reflexivity|]. cbn.
  split; [split; [done|]; apply lookup_insert_eq|].
  split; [same_but_now|].
  split; [by rewrite <- !app_assoc|]. done.
Qed.

Lemma let_go_or_relaunch_post votes w1 slave s1 :
  live w1 slave s1 ->
  at_rest s1 ->
  exists r w',
    let_go_or_relaunch slave votes w1 = Some (r, w')
    /\ touches_only slave w1 w'
    /\ trace_grows w1 w'
    /\ (reactivate_slave s1 = 0 \/ votes = 0 -> no_launch w1 w')
    /\ ((r = NULL /\ slaves w' !! slave = None)
        \/ (r = NULL /\ refcnt s1 = 0 /\ slaves w' !! slave = Some s1)
        \/ (r = slave
            /\ exists s',
                 slaves w' !! slave = Some s'
                 /\ fault_count s' = fault_count s1
                 /\ (at_rest s'
                     \/ (state s' = SLAVE_REQUEST_TO_LAUNCH /\ ttl_timer s' = None
                         /\ reactivate_slave s1 <> 0 /\ votes <> 0)))).
Proof.
  intros Hl1 (Fst & Fpid & Fttl & Fat & Frt).
  pose proof (live_not_null _ _ _ Hl1) as Hn. pose proof Hl1 as [Hnn Hs1].
  unfold bind at 1.
  destruct (slave_unref_idle_cases P w1 slave s1 Hl1 Fpid)
    as [[Hr0 E]|[(Hr & Hd & w2 & E & Hh & Hg)|(Hr & Hd & E)]]; rewrite E; clear E.
  { eexists _, _. split; [reflexivity|].
    split; [apply same_but_touches; same_but_now|].
    split; [apply no_launch_grows; nolaunch|]. split; [intros _; nolaunch|].
    right. left. done. }
  { eexists _, _. split; [reflexivity|].
    split; [by apply destroyed_touches|].
    split; [by apply no_launch_grows|]. split; [done|]. left. split; [done|].
    by destruct Hh as (_ & Hnone & _). }
  unfold slave_need_to_reactivate, slave_loaded_instance.
  mrun Hn Hs1.
  set (s2 := set_refcnt (int_decr (refcnt s1)) s1) in *.
  set (w2 := set_slaves (<[slave := s2]> (slaves w1)) w1) in *.
  assert (Hl2 : live w2 slave s2) by live_now.
  assert (Hsb2 : same_but slave w1 w2) by same_but_now.
  assert (Hp2 : pid s2 = -1) by done.
  destruct (Z.eqb_spec votes 0) as [Hv|Hv];
    destruct (Z.eqb_spec (reactivate_slave s1) 0) as [Hre|Hre]; cbn [negb andb].
  4:{ destruct (slave_activate_post P w2 slave s2 Hl2 Hp2)
        as (r & w3 & s3 & E3 & [_ Hs3] & Hsb3 & Hg3 & Httl & Hfc & Hpost).
      { cbn. rewrite Fst. discriminate. }
      rewrite E3.
      assert (Hfin : exists s', slaves w3 !! slave = Some s'
                /\ fault_count s' = fault_count s1
                /\ (at_rest s'
                    \/ (state s' = SLAVE_REQUEST_TO_LAUNCH /\ ttl_timer s' = None
                        /\ reactivate_slave s1 <> 0 /\ votes <> 0))).
      { exists s3. split; [done|]. split; [by rewrite Hfc|].
        destruct Hpost as [H|(H1 & H2 & H3 & H4)].
        - right. by rewrite Httl.
        - left. unfold at_rest. rewrite H1, H2, H3, Httl. cbn.
          rewrite Fst, Fat, Fttl. repeat split.
          destruct H4 as [->| ->]; [exact Frt|done]. }
      assert (Hg3' : trace_grows w1 w3) by (destruct Hg3 as [a Ha]; by exists a).
      assert (Hsb3' : same_but slave w1 w3) by (by eapply same_but_trans).
      destruct r as [| | | | | |z]; cbn; try (destruct (z <? 0));
        eexists _, _; (split; [reflexivity|]);
        (split; [apply same_but_touches;
                 first [exact Hsb3'
                       | eapply same_but_trans; [exact Hsb3'|same_but_now] ]|]);
        (split; [first [exact Hg3'
                       | eapply trace_grows_trans;
                         [exact Hg3'|apply no_launch_grows; nolaunch] ]|]);
        (split; [intros [?|?]; done|]);
        right; right; (split; [done|]); exact Hfin. }
  all: mrun Hn Hs1.
  all: destruct (loaded_instance s1 =? 0);
    [destruct (slave_unref_idle_cases P w2 slave s2 Hl2 Hp2)
       as [[Hr0 E]|[(Hr' & Hd' & w3 & E & Hh & Hg)|(Hr' & Hd' & E)]];
     [done| |]; rewrite E; clear E|].
  all: eexists _, _; (split; [reflexivity|]).
  all: (split; [first [ apply same_but_touches; same_but_now
                      | eapply same_but_then_touches;
                        [exact Hsb2|by apply destroyed_touches] ]|]).
  all: match goal with
       | |- trace_grows _ ?W /\ _ =>
           assert (Hnl : no_launch w1 W)
             by first [nolaunch | destruct Hg as (a & Ha & Ha0); by exists a]
       end.
  all: (split; [by apply no_launch_grows|]); (split; [done|]).
  all: try (left; split; [done|]; by destruct Hh as (_ & Hnone & _)).
  all: right; right; (split; [done|]); eexists; (split; [cbn; apply lookup_insert_eq|]);
    (split; [done|]); left; unfold at_rest; cbn; done.
Qed.

(** What [slave_deactivated] leaves. *)
Lemma slave_deactivated_post w slave s :
  live w slave s ->
  exists r w',
    slave_deactivated P slave w = Some (r, w')
    /\ touches_only slave w w'
    /\ (exists after,
          trace w' = trace w ++ timer_deletion (ttl_timer s)
                     ++ timer_deletion (activate_timer s)
                     ++ timer_deletion (relaunch_timer s)
                     ++ evt_cb_calls (event_deactivate_list s) ++ after)
    /\ (reactivate_slave s = 0
        \/ reactivation_votes P (tick w) (event_deactivate_list s) 0 = 0 ->
        no_launch w w')
    /\ ((r = NULL /\ slaves w' !! slave = None)
        \/ (r = NULL /\ refcnt s = 0
            /\ exists s', slaves w' !! slave = Some s' /\ at_rest s'
                          /\ fault_count s' = fault_count s)
        \/ (r = slave
            /\ exists s',
                 slaves w' !! slave = Some s'
                 /\ fault_count s' = fault_count s
                 /\ (at_rest s'
                     \/ (state s' = SLAVE_REQUEST_TO_LAUNCH /\ ttl_timer s' = None
                         /\ reactivate_slave s <> 0
                         /\ reactivation_votes P (tick w) (event_deactivate_list s) 0
                            <> 0)))).
Proof.
  intros Hl. rewrite slave_deactivated_halves.
  destruct (put_to_rest_run w slave s Hl)
    as (w1 & s1 & E & Hl1 & Hsb1 & Ht1 & Hrest & Fref & Fre & Ffc).
  rewrite E. rewrite <- Fref, <- Fre, <- Ffc.
  destruct (let_go_or_relaunch_post
              (reactivation_votes P (tick w) (event_deactivate_list s) 0)
              w1 slave s1 Hl1 Hrest) as (r & w' & E' & Hto & [after Hg] & Hnl & Hpost).
  exists r, w'. split; [exact E'|].
  split; [by eapply same_but_then_touches|].
  split; [exists after; by rewrite Hg, Ht1, <- !app_assoc|].
  split.
  { intros H. eapply no_launch_trans; [|by apply Hnl].
    eapply no_launch_by; [exact Ht1|].
    by rewrite !launch_count_app, launch_count_calls, !launch_count_timer_deletion. }
  destruct Hpost as [H|[(H1 & H2 & H3)|H]]; [by left| |by right; right].
  right. left. split; [done|]. split; [done|]. by exists s1.
Qed.

(** X26. [slave_deactivated] always answers.  The slave is then gone, or at
    rest (terminated, without process and without timers), or requested
    to launch again; it is launched again only when it still holds a
    reference, its reactivation flag is set and an observer of the
    deactivation asked for it.  [NULL] is answered when the slave is
    gone or had no reference to give back.  The other slaves are not
    touched, and the registry list can only lose this slave.  First of
    all the timers the slave holds are deleted and the observers of the
    deactivation are called, in the order of their list.  Without the
    flag, or without such an observer, the launcher is not called. *)
Theorem slave_deactivated_settles w slave s :
  live w slave s ->
  exists r w',
    slave_deactivated P slave w = Some (r, w')
    /\ touches_only slave w w'
    /\ (exists after,
          trace w' = trace w ++ timer_deletion (ttl_timer s)
                     ++ timer_deletion (activate_timer s)
                     ++ timer_deletion (relaunch_timer s)
                     ++ evt_cb_calls (event_deactivate_list s) ++ after)
    /\ (reactivate_slave s = 0
        \/ reactivation_votes P (tick w) (event_deactivate_list s) 0 = 0 ->
        no_launch w w')
    /\ ((r = NULL /\ slaves w' !! slave = None)
        \/ (r = NULL /\ refcnt s = 0
            /\ exists s', slaves w' !! slave = Some s' /\ at_rest s'
                          /\ fault_count s' = fault_count s)
        \/ (r = slave
            /\ exists s',
                 slaves w' !! slave = Some s'
                 /\ fault_count s' = fault_count s
                 /\ (at_rest s'
                     \/ (state s' = SLAVE_REQUEST_TO_LAUNCH /\ ttl_timer s' = None
                         /\ reactivate_slave s <> 0
                         /\ reactivation_votes P (tick w) (event_deactivate_list s) 0
                            <> 0)))).
Proof. exact (slave_deactivated_post w slave s). Qed.


(** The first half of [activate_timer_cb]: the launch is given up. *)
Local Abbreviation give_up_launch :=
  (fun slave : slave_ptr =>
     let* _ := timer_clear relaunch_timer set_relaunch_timer slave in
     let* _ := store slave (fun s => set_fault_count (int_incr (fault_count s)) s) in
     let* _ := invoke_fault_cb P slave in
     let* _ := slave_set_reactivation slave 0 in
     let* _ := slave_set_reactivate_instances slave 0 in
     let* _ := store slave (set_activate_timer None) in
     let* _ := terminate_if_running P slave in
     log (CRITICAL_LOG "Slave is not activated in %lf sec (slave: %s)\n")).

Lemma activate_timer_cb_halves slave w :
  activate_timer_cb P slave w
  = match give_up_launch slave w with
    | Some (_, w1) =>
        match slave_deactivated P slave w1 with
        | Some (_, w2) => Some (false, w2)
        | None => None
        end
    | None => None
    end.
Proof.
  unfold activate_timer_cb, bind.
  destruct (timer_clear relaunch_timer set_relaunch_timer slave w) as [[[] w1]|]; [|done].
  destruct (store slave _ w1) as [[[] w2]|]; [|done].
  destruct (invoke_fault_cb P slave w2) as [[[] w3]|]; [|done].
  destruct (slave_set_reactivation slave 0 w3) as [[[] w4]|]; [|done].
  destruct (slave_set_reactivate_instances slave 0 w4) as [[[] w5]|]; [|done].
  destruct (store slave _ w5) as [[[] w6]|]; [|done].
  destruct (terminate_if_running P slave w6) as [[[] w7]|]; [|done].
  reflexivity.
Qed.

Lemma give_up_launch_run w slave s :
  live w slave s ->
  exists w1 s1,
    give_up_launch slave w = Some (tt, w1)
    /\ live w1 slave s1
    /\ (exists rest,
          trace w1 = trace w ++ timer_deletion (relaunch_timer s)
                     ++ evt_cb_calls (event_fault_list s) ++ rest
          /\ launch_count rest = 0%nat)
    /\ fault_count s1 = int_incr (fault_count s)
    /\ reactivate_slave s1 = 0
    /\ ttl_timer s1 = ttl_timer s
    /\ activate_timer s1 = None.
Proof.
  intros Hl. pose proof (live_not_null _ _ _ Hl) as Hn. pose proof Hl as [Hnn Hs].
  unfold bind at 1.
  erewrite (timer_clear_run relaunch_timer set_relaunch_timer); [|by intros []|exact Hl].
  unfold invoke_fault_cb, slave_set_reactivation, slave_set_reactivate_instances,
    terminate_if_running, slave_pid.
  mrun Hn Hs.
  erewrite invoke_cb_run;
    [|apply (event_list_is_list_field SLAVE_EVENT_FAULT)|live_now].
  mrun Hn Hs.
  destruct (0 <? pid s); mrun Hn Hs;
    try match goal with
        | |- context [aul_terminate_pid P ?t <? 0] =>
            destruct (aul_terminate_pid P t <? 0); mrun Hn Hs
        end.
  all: eexists _, _; (split; [reflexivity|]); cbn;
    (split; [split; [done|]; apply lookup_insert_eq|]);
    (split; [rewrite <- ?app_assoc; eexists; split; [reflexivity|reflexivity]|]);
    done.
Qed.

(** X27. The timeout of an activation gives the slave up for good: the timer
    of the relaunch is deleted, the fault is counted, the observers of
    faults are called in the order of their list, and the slave is
    deactivated without being launched again: the launcher is not
    called, and the slave is then gone or at rest.  The timer is not
    renewed. *)
Theorem activation_timeout_gives_up w slave s :
  live w slave s ->
  exists w',
    activate_timer_cb P slave w = Some (false, w')
    /\ (exists rest,
          trace w' = trace w ++ timer_deletion (relaunch_timer s)
                     ++ evt_cb_calls (event_fault_list s) ++ rest
          /\ launch_count rest = 0%nat)
    /\ (slaves w' !! slave = None
        \/ exists s',
             slaves w' !! slave = Some s' /\ at_rest s'
             /\ fault_count s' = int_incr (fault_count s)).
Proof.
  intros Hl. rewrite activate_timer_cb_halves.
  destruct (give_up_launch_run w slave s Hl)
    as (w1 & s1 & E & Hl1 & (rest & Ht & Hrest) & Hfc & Hre & _).
  rewrite E.
  destruct (slave_deactivated_post w1 slave s1 Hl1)
    as (r & w' & E' & _ & _ & Hnl & Hpost).
  rewrite E'. exists w'. split; [done|].
  destruct (Hnl (or_introl Hre)) as (added & Ha & Ha0).
  split.
  { exists (rest ++ added). split.
    - by rewrite Ha, Ht, <- !app_assoc.
    - by rewrite launch_count_app, Hrest, Ha0. }
  destruct Hpost as [[_ H]|[(_ & _ & s' & Hs' & Hr' & Hf')|(_ & s' & Hs' & Hf' & Hr')]].
  - by left.
  - right. exists s'. by rewrite Hf', Hfc.
  - right. exists s'. rewrite Hf', Hfc. split; [done|]. split; [|done].
    destruct Hr' as [H|(_ & _ & H & _)]; [done|]. by rewrite Hre in H.
Qed.


(** What [slave_unref] leaves, whatever the slave is. *)
Lemma slave_unref_post w slave s :
  live w slave s ->
  exists r w',
    slave_unref P slave w = Some (r, w')
    /\ touches_only slave w w'
    /\ no_launch w w'
    /\ (slaves w' !! slave = None
        \/ exists s', slaves w' !! slave = Some s'
                      /\ state s' = state s /\ ttl_timer s' = ttl_timer s).
Proof.
  intros Hl. pose proof (live_not_null _ _ _ Hl) as Hn. pose proof Hl as [Hnn Hs].
  destruct (Z.eqb_spec (pid s) (-1)) as [Hp|Hp].
  - destruct (slave_unref_idle_cases P w slave s Hl Hp)
      as [[Hr0 E]|[(Hr & Hd & w2 & E & Hh & Hg)|(Hr & Hd & E)]]; rewrite E; clear E.
    + eexists _, _. split; [reflexivity|].
      split; [apply same_but_touches; same_but_now|].
      split; [nolaunch|]. right. by exists s.
    + eexists _, _. split; [reflexivity|]. split; [by apply destroyed_touches|].
      split; [done|]. left. by destruct Hh as (_ & Hnone & _).
    + eexists _, _. split; [reflexivity|].
      split; [apply same_but_touches; same_but_now|].
      split; [nolaunch|]. right.
      eexists. split; [cbn; apply lookup_insert_eq|]. done.
  - apply Z.eqb_neq in Hp.
    unfold slave_unref, destroy_slave_node, slave_pid. mrun Hn Hs.
    destruct (refcnt s =? 0); mrun Hn Hs;
      [|destruct (int_decr (refcnt s) =? 0); mrun Hn Hs; rewrite ?Hp; mrun Hn Hs].
    all: eexists _, _; (split; [reflexivity|]);
      (split; [apply same_but_touches; same_but_now|]); (split; [nolaunch|]); right.
    all: first [ by exists s
               | eexists; (split; [cbn; apply lookup_insert_eq|]); done ].
Qed.

(** What [slave_deactivate] leaves: the other slaves are not touched,
    and a slave whose reactivation flag is not set is not launched
    again. *)
Lemma slave_deactivate_post w slave s :
  live w slave s ->
  exists r w',
    slave_deactivate P slave w = Some (r, w')
    /\ touches_only slave w w'
    /\ (reactivate_slave s = 0 ->
        no_launch w w'
        /\ (slaves w' !! slave = None
            \/ exists s', slaves w' !! slave = Some s'
                          /\ (at_rest s'
                              \/ (state s' <> SLAVE_REQUEST_TO_LAUNCH
                                  /\ ttl_timer s' = ttl_timer s)))).
Proof.
  intros Hl. pose proof (live_not_null _ _ _ Hl) as Hn. pose proof Hl as [Hnn Hs].
  assert (Hidle : forall w0, trace w0 = trace w ++ [ErrPrint "Slave is already deactivated\n"] ->
            same_but slave w w0 -> slaves w0 = slaves w ->
            state s <> SLAVE_REQUEST_TO_LAUNCH ->
            exists r w',
              (if loaded_instance s =? 0 then slave_unref P slave else ret slave) w0
              = Some (r, w')
              /\ touches_only slave w w'
              /\ (reactivate_slave s = 0 ->
                  no_launch w w'
                  /\ (slaves w' !! slave = None
                      \/ exists s', slaves w' !! slave = Some s'
                                    /\ (at_rest s'
                                        \/ (state s' <> SLAVE_REQUEST_TO_LAUNCH
                                            /\ ttl_timer s' = ttl_timer s))))).
  { intros w0 Ht0 Hsb0 Hh0 Hst.
    assert (Hl0 : live w0 slave s) by (split; [done|]; by rewrite Hh0).
    assert (Hnl0 : no_launch w w0) by (by eapply no_launch_by).
    destruct (loaded_instance s =? 0).
    - destruct (slave_unref_post w0 slave s Hl0) as (r & w' & E & Hto & Hnl & Hpost).
      exists r, w'. split; [done|]. split; [by eapply same_but_then_touches|].
      intros _. split; [by eapply no_launch_trans|].
      destruct Hpost as [H|(s' & Hs' & H1 & H2)]; [by left|right].
      exists s'. split; [done|]. right. by rewrite H1, H2.
    - exists slave, w0. split; [done|]. split; [by apply same_but_touches|].
      intros _. split; [done|]. right. exists s.
      split; [by rewrite Hh0|]. by right. }
  assert (Hact : exists r w',
            (let* _ := store slave (set_state SLAVE_REQUEST_TO_TERMINATE) in
             let* pd := slave_pid slave in
             if 0 <? pd then
               log (aul_terminate_pid_call pd) >>
               let* r := ask (aul_terminate_pid P) in
               if r <? 0 then
                 log (ErrPrint "Terminate slave(%s) failed. pid %d (%d)\n") >>
                 slave_deactivated P slave
               else ret slave
             else ret slave) w = Some (r, w')
            /\ touches_only slave w w'
            /\ (reactivate_slave s = 0 ->
                no_launch w w'
                /\ (slaves w' !! slave = None
                    \/ exists s', slaves w' !! slave = Some s'
                                  /\ (at_rest s'
                                      \/ (state s' <> SLAVE_REQUEST_TO_LAUNCH
                                          /\ ttl_timer s' = ttl_timer s))))).
  { unfold slave_pid. mrun Hn Hs.
    destruct (0 <? pid s); mrun Hn Hs;
      [destruct (aul_terminate_pid P (tick w) <? 0); mrun Hn Hs|].
    2,3: eexists _, _; (split; [reflexivity|]);
         (split; [apply same_but_touches; same_but_now|]); intros _;
         (split; [nolaunch|]); right;
         eexists; (split; [cbn; apply lookup_insert_eq|]); right; done.
    match goal with
    | |- context [slave_deactivated P slave ?W] =>
        assert (Hsb : same_but slave w W) by same_but_now;
        edestruct (slave_deactivated_post W slave)
          as (r & w' & E & Hto & _ & Hnl & Hpost); [live_now|]
    end.
    rewrite E. exists r, w'. split; [done|].
    split; [by eapply same_but_then_touches|]. intros Hre. split.
    { eapply no_launch_trans; [|apply Hnl; by left]. nolaunch. }
    destruct Hpost as [[_ H]|[(_ & _ & s' & Hs' & Hr' & _)|(_ & s' & Hs' & _ & Hr')]].
    - by left.
    - right. exists s'. split; [done|]. by left.
    - right. exists s'. split; [done|]. left.
      destruct Hr' as [H|(_ & _ & H & _)]; [done|]. cbn in H. by rewrite Hre in H. }
  assert (Eact : exists b, slave_is_activated slave w = Some (b, w)
                           /\ (b = false -> state s <> SLAVE_REQUEST_TO_LAUNCH)).
  { unfold slave_is_activated. mrun Hn Hs.
    destruct (state s); eexists; (split; [reflexivity|]); congruence. }
  destruct Eact as (b & Eact & Hb).
  unfold slave_deactivate. unfold bind at 1. rewrite Eact.
  destruct b; cbn [negb]; [exact Hact|].
  unfold slave_loaded_instance. mrun Hn Hs.
  apply (Hidle (set_trace (trace w ++ [ErrPrint "Slave is already deactivated\n"]) w));
    [done|same_but_now|done|by apply Hb].
Qed.

(** X28. The end of the time of life of a slave.  [slave_ttl_cb] forgets the
    timer, asks for the instances to be reactivated but not the slave,
    and deactivates the slave; it never launches it again: the launcher
    is not called, and the slave is then gone, or has no timer of life
    and is not requested to launch.  The timer is not renewed.  A slave
    that is running, and whose termination is sent, is left requested
    to terminate, with its process id. *)
Theorem ttl_expiry_never_relaunches w slave s :
  live w slave s ->
  exists w',
    slave_ttl_cb P slave w = Some (false, w')
    /\ no_launch w w'
    /\ (slaves w' !! slave = None
        \/ exists s', slaves w' !! slave = Some s'
                      /\ ttl_timer s' = None
                      /\ state s' <> SLAVE_REQUEST_TO_LAUNCH)
    /\ (state s = SLAVE_RESUMED \/ state s = SLAVE_PAUSED ->
        0 < pid s ->
        0 <= aul_terminate_pid P (tick w) ->
        trace w' = trace w ++ [aul_terminate_pid_call (pid s)]
        /\ slaves w' = <[slave := set_state SLAVE_REQUEST_TO_TERMINATE
                                    (set_reactivate_instances 1
                                       (set_reactivate_slave 0
                                          (set_ttl_timer None s)))]> (slaves w)).
Proof.
  intros Hl. pose proof (live_not_null _ _ _ Hl) as Hn. pose proof Hl as [Hnn Hs].
  unfold slave_ttl_cb, slave_set_reactivation, slave_set_reactivate_instances.
  mrun Hn Hs. rewrite !insert_insert_eq.
  match goal with
  | |- context [slave_deactivate P slave ?W] =>
      edestruct (slave_deactivate_post W slave) as (r & w' & E & _ & Hcond);
        [live_now|]
  end.
  destruct (Hcond eq_refl) as [Hnl Hpost].
  pose proof E as E0. rewrite E. exists w'. split; [done|].
  split; [destruct Hnl as (a & Ha & Ha0); by exists a|].
  split.
  { destruct Hpost as [H|(s' & Hs' & [Hr|[H1 H2]])]; [by left| |]; right; exists s'.
    - destruct Hr as (H1 & _ & H3 & _). split; [done|]. split; [done|].
      rewrite H1. discriminate.
    - done. }
  intros Hst Hpid Hterm. clear E Hnl Hpost Hcond.
  apply Z.ltb_lt in Hpid. apply Z.ltb_ge in Hterm.
  unfold slave_deactivate, slave_is_activated, slave_pid in E0.
  revert E0. mrun Hn Hs.
  destruct Hst as [Hst|Hst]; rewrite Hst; mrun Hn Hs; rewrite Hpid; mrun Hn Hs;
    rewrite Hterm; intros [= _ <-]; cbn; by rewrite !insert_insert_eq.
Qed.

End Deactivation.

Section LoadFacts.
Context {time_t : Type}.
Variable P : platform.
Implicit Types (w : world time_t) (s : slave_node time_t).

(** X29. An instance loaded and unloaded again, on a slave that has
    instances, and a package loaded and unloaded again, leave the slave
    as it was; nothing is reported and the slave is not deactivated. *)
Theorem load_unload_round_trip w slave s :
  live w slave s ->
  (0 < loaded_instance s < INT_MAX ->
   exists w1 w2,
     slave_load_instance slave w = Some (tt, w1)
     /\ slave_unload_instance P slave w1 = Some (slave, w2)
     /\ slaves w2 = slaves w /\ trace w2 = trace w)
  /\ (0 <= loaded_package s < INT_MAX ->
      exists w1 w2,
        slave_load_package slave w = Some (tt, w1)
        /\ slave_unload_package slave w1 = Some (tt, w2)
        /\ slaves w2 = slaves w /\ trace w2 = trace w).
Proof.
  intros Hl. pose proof (live_not_null _ _ _ Hl) as Hn. pose proof Hl as [Hnn Hs].
  split; intros Hr.
  - unfold slave_load_instance, slave_unload_instance, slave_is_activated.
    mrun Hn Hs. eexists _, _. split; [reflexivity|]. mrun Hn Hs.
    rewrite int_incr_exact by (unfold INT_MIN; lia).
    replace (loaded_instance s + 1 =? 0) with false by (symmetry; apply Z.eqb_neq; lia).
    mrun Hn Hs. rewrite int_decr_exact by (unfold INT_MIN in *; lia).
    replace (loaded_instance s + 1 - 1) with (loaded_instance s) by lia.
    replace (loaded_instance s =? 0) with false by (symmetry; apply Z.eqb_neq; lia).
    destruct (state s); mrun Hn Hs; try destruct (pid s =? -1); cbn;
      (split; [reflexivity|]); cbn; (split; [|done]);
      rewrite insert_insert_eq;
      (replace (set_loaded_instance (loaded_instance s) _) with s by (by destruct s));
      by rewrite insert_id.
  - unfold slave_load_package, slave_unload_package.
    mrun Hn Hs. eexists _, _. split; [reflexivity|]. mrun Hn Hs.
    rewrite int_incr_exact by (unfold INT_MIN; lia).
    replace (loaded_package s + 1 =? 0) with false by (symmetry; apply Z.eqb_neq; lia).
    mrun Hn Hs. rewrite int_decr_exact by (unfold INT_MIN in *; lia).
    replace (loaded_package s + 1 - 1) with (loaded_package s) by lia.
    split; [reflexivity|]. cbn. split; [|done].
    rewrite insert_insert_eq.
    replace (set_loaded_package (loaded_package s) _) with s by (by destruct s).
    by rewrite insert_id.
Qed.

End LoadFacts.

Section FaultFrame.
Context {time_t : Type}.
Variable P : platform.
Implicit Types (w : world time_t) (s : slave_node time_t).

Lemma check_log_file_frame w slave s :
  live w slave s ->
  exists r w1,
    check_log_file P slave w = Some (r, w1)
    /\ slaves w1 = slaves w /\ slave_list w1 = slave_list w
    /\ call_list w1 = call_list w.
Proof.
  intros Hl. pose proof (live_not_null _ _ _ Hl) as Hn. pose proof Hl as [Hnn Hs].
  unfold check_log_file, slave_pid, unlink. munfold. rewrite Hn, Hs.
  cbv beta iota zeta.
  destruct (files w !! log_filename P (pid s)) as [content|] eqn:Hf;
    [|by eexists _, _].
  destruct (fgets (BUFSIZ P) content) as [buf|]; [|by eexists _, _].
  destruct (negb (Nat.eqb _ _)); [by eexists _, _|].
  destruct (_ || _); [by eexists _, _|].
  cbv beta iota zeta. rewrite Hf. cbv beta iota zeta. cbn [Z.ltb Z.compare].
  cbv beta iota zeta. by eexists _, _.
Qed.

Lemma blame_package_frame w slave s pkgname :
  live w slave s ->
  exists w',
    blame_package P slave pkgname w = Some (0, w')
    /\ slaves w' = slaves w /\ slave_list w' = slave_list w
    /\ call_list w' = calls_of_others slave (call_list w).
Proof.
  intros Hl. pose proof (live_not_null _ _ _ Hl) as Hn. pose proof Hl as [Hnn Hs].
  unfold blame_package, fault_broadcast_info, clear_log_file, slave_name, slave_pid,
    unlink.
  mrun Hn Hs.
  destruct (alloc_ok P (S (S (tick w)))); mrun Hn Hs;
    destruct (files w !! log_filename P (pid s)); mrun Hn Hs;
    (eexists; split; [reflexivity|]; cbn;
     rewrite remove_calls_of_filter, filter_rev, rev_involutive, app_nil_r; done).
Qed.

Lemma check_call_marks_frame slave s pending : forall checked kept w,
  live w slave s ->
  exists w',
    check_call_marks P slave pending checked kept w
    = Some (rev (List.filter (fun i => negb (blamable P slave i)) pending) ++ kept, w')
    /\ slaves w' = slaves w /\ slave_list w' = slave_list w.
Proof.
  induction pending as [|info pending IH]; intros checked kept w Hl.
  - by exists w.
  - pose proof (live_not_null _ _ _ Hl) as Hn. pose proof Hl as [Hnn Hs].
    cbn [check_call_marks List.filter]. unfold blamable at 1.
    destruct (N.eqb_spec (fi_slave info) slave) as [->|Hne]; cbn [andb negb].
    2:{ destruct (IH checked (info :: kept) w Hl) as (w' & E & H).
        exists w'. split; [|done]. rewrite E. cbn. by rewrite <- app_assoc. }
    destruct (package_find P (fi_pkgname info)); cbn [negb].
    2:{ mrun Hn Hs.
        match goal with
        | |- context [check_call_marks P slave pending checked (info :: kept) ?W] =>
            edestruct (IH checked (info :: kept) W) as (w' & E & H1 & H2);
              [split; [done|]; cbn; exact Hs|rewrite E]
        end.
        exists w'. cbn. by rewrite <- app_assoc. }
    unfold fault_broadcast_info, slave_name, slave_pid.
    destruct checked; mrun Hn Hs;
      try (destruct (alloc_ok P (S (tick w))); mrun Hn Hs);
      match goal with
      | |- context [check_call_marks P slave pending true kept ?W] =>
          edestruct (IH true kept W) as (w' & E & H1 & H2);
            [split; [done|]; cbn; exact Hs|rewrite E]
      end;
      by exists w'.
Qed.

Lemma calls_of_others_unblamable slave l :
  calls_of_others slave (List.filter (fun i => negb (blamable P slave i)) l)
  = calls_of_others slave l.
Proof.
  unfold calls_of_others, blamable. induction l as [|i l IH]; cbn; [done|].
  destruct (N.eqb (fi_slave i) slave) eqn:E; cbn.
  - destruct (package_find P (fi_pkgname i)); cbn; rewrite ?E; cbn; exact IH.
  - rewrite E. cbn. by f_equal.
Qed.

Lemma calls_of_others_idem slave l :
  calls_of_others slave (calls_of_others slave l) = calls_of_others slave l.
Proof.
  unfold calls_of_others. induction l as [|i l IH]; cbn; [done|].
  destruct (N.eqb (fi_slave i) slave) eqn:E; cbn; rewrite ?E; cbn;
    [exact IH|f_equal; exact IH].
Qed.

(** X30. Whatever the crash log and the call list hold, [fault_check_pkgs]
    answers [0], changes no slave object and not the registry list, adds
    no record to the call list, and keeps every record of the other
    slaves, in their order. *)
Theorem fault_check_pkgs_spares_the_others w slave s :
  live w slave s ->
  exists w',
    fault_check_pkgs P slave w = Some (0, w')
    /\ slaves w' = slaves w
    /\ slave_list w' = slave_list w
    /\ calls_of_others slave (call_list w') = calls_of_others slave (call_list w)
    /\ (forall info, In info (call_list w') -> In info (call_list w)).
Proof.
  intros Hl. pose proof (live_not_null _ _ _ Hl) as Hn. pose proof Hl as [Hnn Hs].
  destruct (check_log_file_frame w slave s Hl) as (r & w1 & E1 & Hh1 & Hl1 & Hc1).
  assert (Hlive1 : live w1 slave s) by (split; [done|]; by rewrite Hh1).
  assert (Hblame : forall pkgname,
            exists w', blame_package P slave pkgname w1 = Some (0, w')
                       /\ slaves w' = slaves w /\ slave_list w' = slave_list w
                       /\ calls_of_others slave (call_list w')
                          = calls_of_others slave (call_list w)
                       /\ (forall info, In info (call_list w') -> In info (call_list w))).
  { intros pkgname.
    destruct (blame_package_frame w1 slave s pkgname Hlive1) as (w' & E & H1 & H2 & H3).
    exists w'. split; [done|]. rewrite H1, H2, H3, Hh1, Hl1, Hc1.
    split; [done|]. split; [done|]. split; [apply calls_of_others_idem|].
    intros info Hin. unfold calls_of_others in Hin. by apply filter_In in Hin as [? _]. }
  unfold fault_check_pkgs. unfold bind at 1. rewrite E1.
  destruct (match r with
            | Some pkgname => if package_find P pkgname then Some pkgname else None
            | None => None
            end) as [pkgname|]; [by apply Hblame|].
  destruct (match package_find_by_secured_slave P slave with
            | Some pkgname => if package_find P pkgname then Some pkgname else None
            | None => None
            end) as [pkgname|]; [by apply Hblame|].
  unfold bind at 1, get at 1. unfold bind at 1.
  destruct (check_call_marks_frame slave s (rev (call_list w1)) false [] w1 Hlive1)
    as (w2 & E2 & Hh2 & Hl2).
  rewrite E2.
  assert (Hlive2 : live w2 slave s) by (split; [done|]; by rewrite Hh2, Hh1).
  pose proof (live_not_null _ _ _ Hlive2) as Hn2. pose proof Hlive2 as [_ Hs2].
  unfold clear_log_file, slave_pid, unlink. mrun Hn2 Hs2.
  rewrite filter_rev, rev_involutive, app_nil_r, Hc1.
  destruct (files w2 !! log_filename P (pid s)); mrun Hn2 Hs2;
    (eexists; split; [reflexivity|]; cbn; rewrite Hh2, Hl2, Hh1, Hl1;
     split; [done|]; split; [done|]; split; [apply calls_of_others_unblamable|];
     intros info Hin; by apply filter_In in Hin as [? _]).
Qed.

End FaultFrame.

(** Both builds fill [activated_at] and do nothing else. *)
Lemma ecore_build_only_stamps (P : platform) : only_stamps (stamp_activated_at_ecore P).
Proof.
  intros slave w s Hl. eexists _, []. by apply stamp_activated_at_ecore_run.
Qed.

Lemma timeval_build_only_stamps (P : platform) :
  only_stamps (stamp_activated_at_timeval P).
Proof. intros slave w s Hl. by apply stamp_activated_at_timeval_run. Qed.

Section AllTheSlaves.
Context {time_t : Type}.
Variable P : platform.
Implicit Types (w : world time_t) (s : slave_node time_t).

Ltac live_now := split; [done|]; cbn; by rewrite ?lookup_insert_eq.

Ltac same_but_now :=
  split; [intros ? ?; cbn; by rewrite ?lookup_insert_ne by done|split; reflexivity].






End AllTheSlaves.

(** ** The further properties, at concrete inputs *)

(** X1, witness. *)
Lemma call_marks_stay_balanced_witness :
  (exists r w',
     fault_func_ret 1%N "bar" "g.c" "other"
       (demo_world running_slave [bar_call_of_other; bar_call] ∅) = Some (r, w')
     /\ marks_balanced w')
  /\ fault_func_ret 1%N "foo" "f.c" "do_work"
       (demo_world running_slave [bar_call_of_other; bar_call] ∅)
     = Some (LB_STATUS_ERROR_NOT_EXIST,
             demo_world running_slave [bar_call_of_other; bar_call] ∅).
Proof.
  split.
  - destruct (call_marks_stay_balanced demo_platform
                (demo_world running_slave [bar_call_of_other; bar_call] ∅)
                1%N "bar" "g.c" "other") as (_ & r & w' & E & Hb & _).
    + reflexivity.
    + reflexivity.
    + by exists r, w'.
  - destruct (call_marks_stay_balanced demo_platform
                (demo_world running_slave [bar_call_of_other; bar_call] ∅)
                1%N "foo" "f.c" "do_work") as (_ & r & w' & E & _ & Hno).
    + reflexivity.
    + reflexivity.
    + destruct Hno as [-> ->]; [repeat constructor|exact E].
Defined.

(** X2, witness. *)
Lemma check_log_file_names_the_line_witness :
  exists s content buf,
    slaves (demo_world running_slave [] log_without_newline) !! 1%N = Some s
    /\ files (demo_world running_slave [] log_without_newline)
         !! log_filename demo_platform (pid s) = Some content
    /\ fgets (BUFSIZ demo_platform) content = Some buf
    /\ cstr buf = "liblive-" +:+ "foo" +:+ ".so".
Proof.
  destruct (check_log_file_names_the_line demo_platform
              (demo_world running_slave [] log_without_newline) 1%N "foo"
              (set_tick 1 (set_files ∅ (demo_world running_slave [] log_without_newline))))
    as (s & content & buf & H1 & H2 & H3 & H4 & _).
  - vm_compute. reflexivity.
  - exists s, content, buf. by repeat split.
Defined.

(** X3, witness. *)
Lemma check_log_file_rejects_newline_witness :
  check_log_file demo_platform 1%N (demo_world running_slave [] log_with_newline)
  = Some (None,
          set_trace [ErrPrint "Extension is not matched\n"]
            (demo_world running_slave [] log_with_newline)).
Proof.
  apply (check_log_file_rejects_newline demo_platform
           (demo_world running_slave [] log_with_newline) 1%N running_slave
           ("liblive-foo.so" +:+ String LF "") ("liblive-foo.so" +:+ String LF "")
           "liblive-foo.so").
  - apply demo_world_live.
  - vm_compute. reflexivity.
  - vm_compute. reflexivity.
  - vm_compute. reflexivity.
Defined.

(** X4, witness. *)
Lemma fault_info_set_outcomes_witness :
  exists r w' added,
    fault_info_set demo_platform 1%N "nobody" "f.c" "do_work"
      (demo_world running_slave [] ∅) = Some (r, w')
    /\ trace w' = added.
Proof.
  destruct (fault_info_set_outcomes demo_platform (demo_world running_slave [] ∅)
              1%N running_slave "nobody" "f.c" "do_work")
    as (r & w' & added & E & _ & _ & Ht & _).
  - apply demo_world_live.
  - exists r, w', added. split; [exact E|exact Ht].
Defined.

(** X5, witness. *)
Lemma observers_called_in_list_order_witness :
  exists w',
    invoke_event_cb demo_platform SLAVE_EVENT_FAULT 1%N (demo_world running_slave [] ∅)
    = Some (tt, w')
    /\ trace w' = [evt_cb_call 9%N 1%N 0%N].
Proof.
  destruct (observers_called_in_list_order demo_platform SLAVE_EVENT_FAULT
              (demo_world running_slave [] ∅) 1%N running_slave)
    as (w' & E & Ht & _).
  - apply demo_world_live.
  - vm_compute. apply NoDup_singleton.
  - exists w'. split; [exact E|exact Ht].
Defined.

(** X6, witness. *)
Lemma deactivate_observers_vote_witness :
  exists w',
    invoke_deactivate_cb demo_platform 1%N (demo_world running_slave [] ∅)
    = Some (1, w').
Proof.
  destruct (deactivate_observers_vote demo_platform
              (demo_world running_slave [] ∅) 1%N running_slave)
    as (w' & E & _).
  - apply demo_world_live.
  - vm_compute. discriminate.
  - vm_compute. discriminate.
  - exists w'. exact E.
Defined.

(** X7, witness. *)
Lemma callback_add_del_round_trip_witness :
  exists w1 w2,
    slave_event_callback_add demo_platform 1%N (Some SLAVE_EVENT_FAULT) 9%N 0%N
      (demo_world running_slave [] ∅) = Some (LB_STATUS_SUCCESS, w1)
    /\ slave_event_callback_del 1%N (Some SLAVE_EVENT_FAULT) 9%N 0%N w1
       = Some (LB_STATUS_SUCCESS, w2)
    /\ slaves w2 = slaves (demo_world running_slave [] ∅).
Proof.
  destruct (callback_add_del_round_trip demo_platform (demo_world running_slave [] ∅)
              1%N running_slave SLAVE_EVENT_FAULT 9%N 0%N)
    as (w1 & w2 & E1 & E2 & Hs & _).
  - apply demo_world_live.
  - reflexivity.
  - exists w1, w2. split; [exact E1|]. split; [exact E2|exact Hs].
Defined.

(** X8, witness. *)
Lemma callback_del_takes_one_registration_witness :
  (registrations 9%N 0%N (event_list SLAVE_EVENT_FAULT running_slave) = 0%nat
   /\ slave_event_callback_del 1%N (Some SLAVE_EVENT_FAULT) 9%N 0%N
        (demo_world running_slave [] ∅)
      = Some (LB_STATUS_ERROR_NOT_EXIST, demo_world running_slave [] ∅))
  \/ (exists s',
        slave_event_callback_del 1%N (Some SLAVE_EVENT_FAULT) 9%N 0%N
          (demo_world running_slave [] ∅)
        = Some (LB_STATUS_SUCCESS,
                set_slaves (<[1%N := s']> (slaves (demo_world running_slave [] ∅)))
                  (demo_world running_slave [] ∅))
        /\ registrations 9%N 0%N (event_list SLAVE_EVENT_FAULT running_slave)
           = S (registrations 9%N 0%N (event_list SLAVE_EVENT_FAULT s'))
        /\ forall k, k <> SLAVE_EVENT_FAULT ->
             event_list k s' = event_list k running_slave).
Proof.
  apply (callback_del_takes_one_registration (demo_world running_slave [] ∅)
           1%N running_slave SLAVE_EVENT_FAULT 9%N 0%N).
  - apply demo_world_live.
  - vm_compute. apply NoDup_singleton.
Defined.

(** X9, witness. *)
Lemma newest_observer_is_called_first_witness :
  exists w1 w2,
    slave_event_callback_add demo_platform 1%N (Some SLAVE_EVENT_FAULT) 11%N 0%N
      (demo_world running_slave [] ∅) = Some (LB_STATUS_SUCCESS, w1)
    /\ invoke_event_cb demo_platform SLAVE_EVENT_FAULT 1%N w1 = Some (tt, w2)
    /\ trace w2 = [evt_cb_call 11%N 1%N 0%N; evt_cb_call 9%N 1%N 0%N].
Proof.
  apply (newest_observer_is_called_first demo_platform (demo_world running_slave [] ∅)
           1%N running_slave SLAVE_EVENT_FAULT 11%N 0%N).
  - apply demo_world_live.
  - reflexivity.
Defined.

(** X10, witness. *)
Lemma slave_data_oldest_entry_wins_witness :
  exists w1,
    slave_set_data demo_platform 1%N "instance" 40%N (demo_world running_slave [] ∅)
    = Some (LB_STATUS_SUCCESS, w1)
    /\ slave_data 1%N "instance" w1 = Some (40%N, w1).
Proof.
  apply (slave_data_oldest_entry_wins demo_platform (demo_world running_slave [] ∅)
           1%N running_slave "instance" 40%N).
  - apply demo_world_live.
  - reflexivity.
  - reflexivity.
Defined.

(** X11, witness. *)
Lemma slave_set_del_data_round_trip_witness :
  slave_del_data 1%N "instance" (demo_world running_slave [] ∅)
  = Some (NULL, demo_world running_slave [] ∅)
  /\ exists w1 w2,
       slave_set_data demo_platform 1%N "instance" 40%N (demo_world running_slave [] ∅)
       = Some (LB_STATUS_SUCCESS, w1)
       /\ slave_del_data 1%N "instance" w1 = Some (40%N, w2)
       /\ slaves w2 = slaves (demo_world running_slave [] ∅)
       /\ trace w2 = trace (demo_world running_slave [] ∅).
Proof.
  apply (slave_set_del_data_round_trip demo_platform (demo_world running_slave [] ∅)
           1%N running_slave "instance" 40%N).
  - apply demo_world_live.
  - reflexivity.
  - reflexivity.
  - reflexivity.
Defined.

(** X12, witness. *)
Lemma slave_find_by_key_first_witness :
  (exists r, slave_find_by_pid 200 (demo_world running_slave [] ∅)
             = Some (r, demo_world running_slave [] ∅)
             /\ first_in (demo_world running_slave [] ∅) (fun s => pid s =? 200)
                  [1%N] r)
  /\ (exists r, slave_find_by_name "slave.1" (demo_world running_slave [] ∅)
                = Some (r, demo_world running_slave [] ∅)
                /\ first_in (demo_world running_slave [] ∅)
                     (fun s => String.eqb (name s) "slave.1") [1%N] r).
Proof.
  apply (slave_find_by_key_first (demo_world running_slave [] ∅) 200 "slave.1").
  apply demo_world_registry_ok.
Defined.

(** X13, witness. *)
Lemma slave_find_by_pkgname_first_idle_witness :
  exists r,
    slave_find_by_pkgname "com.samsung.data-provider-slave"
      (demo_world running_slave [] ∅)
    = Some (r, demo_world running_slave [] ∅)
    /\ first_in (demo_world running_slave [] ∅)
         (fun s => String.eqb (pkgname s) "com.samsung.data-provider-slave"
                   && (pid s =? -1))
         [1%N] r.
Proof.
  apply (slave_find_by_pkgname_first_idle (demo_world running_slave [] ∅)
           "com.samsung.data-provider-slave").
  apply demo_world_registry_ok.
Defined.

(** X14, witness. *)
Lemma slave_create_answers_existing_slave_witness :
  exists r s,
    slave_create demo_platform 0%Q "slave.1" 1 "other" "pkg.other" 1
      (demo_world running_slave [] ∅)
    = Some (r, if secured s =? 1 then demo_world running_slave [] ∅
               else set_trace
                      (trace (demo_world running_slave [] ∅)
                       ++ [ErrPrint "Exists slave and creating slave's security flag is not matched\n"])
                      (demo_world running_slave [] ∅))
    /\ live (demo_world running_slave [] ∅) r s.
Proof.
  destruct (slave_create_answers_existing_slave demo_platform 0%Q "slave.1" 1 "other"
              "pkg.other" 1 (demo_world running_slave [] ∅))
    as (r & s & E & Hl & _).
  - apply demo_world_registry_ok.
  - exists 1%N, running_slave. split; [by left|]. split; reflexivity.
  - exists r, s. split; [exact E|exact Hl].
Defined.

(** X15, witness. *)
Lemma slave_create_registers_new_name_witness :
  exists slave w',
    slave_create demo_platform 0%Q "slave.2" 0 "c" "pkg.two" 0
      (demo_world running_slave [] ∅) = Some (slave, w')
    /\ slave_list w' = [1%N; slave]
    /\ slave_find_by_name "slave.2" w' = Some (slave, w').
Proof.
  destruct (slave_create_registers_new_name demo_platform 0%Q "slave.2" 0 "c" "pkg.two" 0
              (demo_world running_slave [] ∅))
    as (slave & w' & s & E & _ & _ & _ & Hl & _ & _ & _ & _ & _ & _ & _ & _ & _ & _ & Hf).
  - apply demo_world_registry_ok.
  - intros p s [<-|[]] Hs. vm_compute in Hs. injection Hs as <-. discriminate.
  - intros t _. reflexivity.
  - exists slave, w'. split; [exact E|]. split; [exact Hl|exact Hf].
Defined.

(** X16, witness. *)
Lemma slave_ref_unref_round_trip_witness :
  exists w1,
    slave_ref 1%N (demo_world running_slave [] ∅) = Some (1%N, w1)
    /\ slave_unref demo_platform 1%N w1
       = Some (1%N, set_slaves (slaves (demo_world running_slave [] ∅)) w1).
Proof.
  destruct (slave_ref_unref_round_trip demo_platform (demo_world running_slave [] ∅)
              1%N running_slave) as [H _].
  - apply demo_world_live.
  - destruct H as (w1 & E1 & E2 & _).
    + vm_compute. split; reflexivity.
    + exists w1. split; [exact E1|exact E2].
Defined.

(** X17, witness. *)
Lemma slave_unref_destroys_idle_slave_witness :
  exists w',
    slave_unref demo_platform 1%N
      (demo_world (demo_slave SLAVE_TERMINATED (-1) 1 0 0 0%Q) [] ∅) = Some (NULL, w')
    /\ slaves w' = delete 1%N (slaves (demo_world (demo_slave SLAVE_TERMINATED (-1) 1 0 0 0%Q) [] ∅))
    /\ slave_list w' = [].
Proof.
  destruct (slave_unref_destroys_idle_slave demo_platform
              (demo_world (demo_slave SLAVE_TERMINATED (-1) 1 0 0 0%Q) [] ∅) 1%N
              (demo_slave SLAVE_TERMINATED (-1) 1 0 0 0%Q))
    as (w' & E & Hs & Hl & _).
  - apply demo_world_live.
  - reflexivity.
  - reflexivity.
  - exists w'. split; [exact E|]. split; [exact Hs|exact Hl].
Defined.

(** X18, witness. *)
Lemma nested_deactivate_all_only_counts_witness :
  exists w1,
    slave_deactivate_all demo_platform 0 0
      (set_deactivate_all_refcnt 1 (demo_world running_slave [] ∅)) = Some (0, w1)
    /\ slave_activate_all demo_platform w1
       = Some (0, set_deactivate_all_refcnt 1 (demo_world running_slave [] ∅)).
Proof.
  destruct (nested_deactivate_all_only_counts demo_platform 0 0
              (set_deactivate_all_refcnt 1 (demo_world running_slave [] ∅)))
    as (w1 & E1 & _ & _ & _ & E2).
  - vm_compute. split; [discriminate|reflexivity].
  - exists w1. split; [exact E1|exact E2].
Defined.


(** X20, witness. *)
Lemma slave_activate_outcomes_witness :
  exists w',
    slave_activate demo_platform 1%N
      (demo_world (demo_slave SLAVE_TERMINATED (-1) 1 0 0 0%Q) [] ∅)
    = Some (LB_STATUS_SUCCESS, w').
Proof.
  destruct (slave_activate_outcomes demo_platform
              (demo_world (demo_slave SLAVE_TERMINATED (-1) 1 0 0 0%Q) [] ∅) 1%N
              (demo_slave SLAVE_TERMINATED (-1) 1 0 0 0%Q))
    as (w' & s' & added & E & _).
  - apply demo_world_live.
  - reflexivity.
  - discriminate.
  - reflexivity.
  - exact demo_alloc_ok.
  - exists w'. exact E.
Defined.

(** X21, witness. *)
Lemma slave_activated_completes_the_launch_witness :
  exists w' s',
    slave_activated_ecore demo_platform 1%N
      (demo_world (demo_slave SLAVE_REQUEST_TO_LAUNCH 200 2 0 0 0%Q) [] ∅)
    = Some (LB_STATUS_SUCCESS, w')
    /\ slaves w' !! 1%N = Some s'
    /\ state s' = SLAVE_RESUMED /\ activate_timer s' = None.
Proof.
  destruct (slave_activated_completes_the_launch demo_platform
              (stamp_activated_at_ecore demo_platform)
              (demo_world (demo_slave SLAVE_REQUEST_TO_LAUNCH 200 2 0 0 0%Q) [] ∅) 1%N
              (demo_slave SLAVE_REQUEST_TO_LAUNCH 200 2 0 0 0%Q))
    as (w' & s' & E & Hh & _ & Hst & _ & _ & Hat & _).
  - apply ecore_build_only_stamps.
  - apply demo_world_live.
  - exact demo_alloc_ok.
  - exists w', s'. split; [exact E|]. split; [|split; [exact Hst|exact Hat]].
    rewrite Hh. apply lookup_insert_eq.
Defined.

(** X22, witness. *)
Lemma pause_handshake_witness :
  exists w1 w2 s2,
    slave_pause demo_platform 1%N (demo_world running_slave [] ∅)
    = Some (RPC_STATUS 0, w1)
    /\ pause_cb demo_platform 1%N (Some (Some 0)) w1 = Some (tt, w2)
    /\ slaves w2 !! 1%N = Some s2 /\ state s2 = SLAVE_PAUSED.
Proof.
  destruct (pause_handshake demo_platform (demo_world running_slave [] ∅) 1%N
              running_slave)
    as (w1 & E1 & _ & _ & (w2 & s2 & E2 & _ & Hs2 & Hst) & _).
  - apply demo_world_live.
  - left. reflexivity.
  - reflexivity.
  - exists w1, w2, s2. split; [exact E1|]. split; [exact E2|]. split; [exact Hs2|exact Hst].
Defined.

(** X23, witness. *)
Lemma resume_handshake_witness :
  exists w1 w2 s2,
    slave_resume demo_platform 1%N
      (demo_world (demo_slave SLAVE_PAUSED 200 2 1 1 0%Q) [] ∅)
    = Some (RPC_STATUS 0, w1)
    /\ resume_cb demo_platform 1%N (Some (Some 0)) w1 = Some (tt, w2)
    /\ slaves w2 !! 1%N = Some s2 /\ state s2 = SLAVE_RESUMED.
Proof.
  destruct (resume_handshake demo_platform
              (demo_world (demo_slave SLAVE_PAUSED 200 2 1 1 0%Q) [] ∅) 1%N
              (demo_slave SLAVE_PAUSED 200 2 1 1 0%Q))
    as (w1 & E1 & _ & _ & (w2 & s2 & E2 & _ & Hs2 & Hst) & _).
  - apply demo_world_live.
  - left. reflexivity.
  - reflexivity.
  - exists w1, w2, s2. split; [exact E1|]. split; [exact E2|]. split; [exact Hs2|exact Hst].
Defined.

(** X24, witness. *)
Lemma late_acknowledgement_is_ignored_witness :
  resume_cb demo_platform 1%N (Some (Some 0))
    (demo_world (demo_slave SLAVE_REQUEST_TO_TERMINATE 200 2 1 1 0%Q) [] ∅)
  = Some (tt, demo_world (demo_slave SLAVE_REQUEST_TO_TERMINATE 200 2 1 1 0%Q) [] ∅)
  /\ pause_cb demo_platform 1%N (Some (Some 0))
       (demo_world (demo_slave SLAVE_REQUEST_TO_TERMINATE 200 2 1 1 0%Q) [] ∅)
     = Some (tt, demo_world (demo_slave SLAVE_REQUEST_TO_TERMINATE 200 2 1 1 0%Q) [] ∅).
Proof.
  apply (late_acknowledgement_is_ignored demo_platform
           (demo_world (demo_slave SLAVE_REQUEST_TO_TERMINATE 200 2 1 1 0%Q) [] ∅) 1%N
           (demo_slave SLAVE_REQUEST_TO_TERMINATE 200 2 1 1 0%Q)).
  - apply demo_world_live.
  - reflexivity.
Defined.


(** X26, witness. *)
Lemma slave_deactivated_settles_witness :
  exists r w',
    slave_deactivated demo_platform 1%N (demo_world running_slave [] ∅) = Some (r, w').
Proof.
  destruct (slave_deactivated_settles demo_platform (demo_world running_slave [] ∅)
              1%N running_slave) as (r & w' & E & _).
  - apply demo_world_live.
  - exists r, w'. exact E.
Defined.

(** X27, witness. *)
Lemma activation_timeout_gives_up_witness :
  exists w',
    activate_timer_cb demo_platform 1%N
      (demo_world (demo_slave SLAVE_REQUEST_TO_LAUNCH 200 2 0 0 0%Q) [] ∅)
    = Some (false, w').
Proof.
  destruct (activation_timeout_gives_up demo_platform
              (demo_world (demo_slave SLAVE_REQUEST_TO_LAUNCH 200 2 0 0 0%Q) [] ∅) 1%N
              (demo_slave SLAVE_REQUEST_TO_LAUNCH 200 2 0 0 0%Q))
    as (w' & E & _).
  - apply demo_world_live.
  - exists w'. exact E.
Defined.

(** X28, witness. *)
Lemma ttl_expiry_never_relaunches_witness :
  exists w',
    slave_ttl_cb demo_platform 1%N (demo_world running_slave [] ∅) = Some (false, w')
    /\ no_launch (demo_world running_slave [] ∅) w'.
Proof.
  destruct (ttl_expiry_never_relaunches demo_platform (demo_world running_slave [] ∅)
              1%N running_slave) as (w' & E & Hnl & _).
  - apply demo_world_live.
  - exists w'. split; [exact E|exact Hnl].
Defined.

(** X29, witness. *)
Lemma load_unload_round_trip_witness :
  exists w1 w2,
    slave_load_instance 1%N (demo_world running_slave [] ∅) = Some (tt, w1)
    /\ slave_unload_instance demo_platform 1%N w1 = Some (1%N, w2)
    /\ slaves w2 = slaves (demo_world running_slave [] ∅).
Proof.
  destruct (load_unload_round_trip demo_platform (demo_world running_slave [] ∅)
              1%N running_slave) as [H _].
  - apply demo_world_live.
  - destruct H as (w1 & w2 & E1 & E2 & Hs & _).
    + vm_compute. split; reflexivity.
    + exists w1, w2. split; [exact E1|]. split; [exact E2|exact Hs].
Defined.

(** X30, witness. *)
Lemma fault_check_pkgs_spares_the_others_witness :
  exists w',
    fault_check_pkgs demo_platform 1%N
      (demo_world running_slave [foo_call; bar_call_of_other] ∅) = Some (0, w')
    /\ calls_of_others 1%N (call_list w') = [bar_call_of_other].
Proof.
  destruct (fault_check_pkgs_spares_the_others demo_platform
              (demo_world running_slave [foo_call; bar_call_of_other] ∅) 1%N
              running_slave) as (w' & E & _ & _ & Hc & _).
  - apply demo_world_live.
  - exists w'. split; [exact E|exact Hc].
Defined.
